(** * lunwentocode: a shallow embedding of the pipeline core

  The development follows the Python sources: [app/utils/json_utils.py],
  [app/core/llm.py], [app/agents/*.py] and [app/core/workflow.py].
  Python [str] values are sequences of Unicode code points, exceptions are
  an explicit error result, and every call into the outside world (the
  model service, the document service, [ast.parse]) is an oracle. *)

From Stdlib Require Import ZArith NArith Ascii String.
From stdpp Require Import base ssreflect tactics decidable option numbers list sorting gmap pretty.

#[local] Set Warnings "-rewrite-rw,-register-all".
Open Scope Z_scope.

(** ** Python strings *)

(** A Python [str] is a list of code points. *)
Abbreviation pystr := (list N).

Module Py.

(** UTF-8 decoding of a source literal, so that the literals of the Python
    files can be written as they are. Literals are well-formed UTF-8. *)
Definition cont (b : N) : N := N.land b 63.

Fixpoint utf8_decode (bs : list N) : pystr :=
  match bs with
  | [] => []
  | b :: r =>
      if (b <? 128)%N then b :: utf8_decode r
      else if (b <? 224)%N then
        match r with
        | b1 :: r1 => (N.land b 31 * 64 + cont b1)%N :: utf8_decode r1
        | _ => [b]
        end
      else if (b <? 240)%N then
        match r with
        | b1 :: b2 :: r2 =>
            (N.land b 15 * 4096 + cont b1 * 64 + cont b2)%N :: utf8_decode r2
        | _ => [b]
        end
      else
        match r with
        | b1 :: b2 :: b3 :: r3 =>
            (N.land b 7 * 262144 + cont b1 * 4096 + cont b2 * 64 + cont b3)%N
              :: utf8_decode r3
        | _ => [b]
        end
  end.

Definition lit (s : string) : pystr :=
  utf8_decode (N_of_ascii <$> list_ascii_of_string s).

(** A literal in which every apostrophe stands for a double quote. *)
Definition litq (s : string) : pystr :=
  (fun c => if (c =? 39)%N then 34%N else c) <$> lit s.

(** [str(n)] for an [int]. *)
Definition str_of_int (z : Z) : pystr := lit (pretty z).

#[global] Arguments utf8_decode : simpl never.
#[global] Arguments lit : simpl never.
#[global] Arguments litq : simpl never.
#[global] Arguments str_of_int : simpl never.

(** [str.isspace] on one code point: the characters [str.strip()] removes. *)
Definition isspace (c : N) : bool :=
  ((9 <=? c) && (c <=? 13) || (28 <=? c) && (c <=? 32)
   || (c =? 133) || (c =? 160) || (c =? 5760)
   || (8192 <=? c) && (c <=? 8202)
   || (c =? 8232) || (c =? 8233) || (c =? 8239) || (c =? 8287)
   || (c =? 12288))%N.

Fixpoint lstrip (s : pystr) : pystr :=
  match s with
  | [] => []
  | c :: r => if isspace c then lstrip r else s
  end.

Definition rstrip (s : pystr) : pystr := rev (lstrip (rev s)).

(** [s.strip()] *)
Definition strip (s : pystr) : pystr := rstrip (lstrip s).

(** [s.startswith(p)] *)
Fixpoint startswith (p s : pystr) : bool :=
  match p, s with
  | [], _ => true
  | a :: p', b :: s' => (a =? b)%N && startswith p' s'
  | _ :: _, [] => false
  end.

(** [s.endswith(p)] *)
Definition endswith (p s : pystr) : bool := startswith (rev p) (rev s).

(** [len(s)] *)
Definition len (s : pystr) : Z := Z.of_nat (length s).

(** [s.find(sub)], [-1] when absent; [i] is the offset of [s] in the
    whole string. *)
Fixpoint find_from (sub s : pystr) (i : Z) : Z :=
  if startswith sub s then i
  else match s with
       | [] => -1
       | _ :: s' => find_from sub s' (i + 1)
       end.

Definition find (sub s : pystr) : Z := find_from sub s 0.

(** [s.rfind(sub)], [-1] when absent. *)
Fixpoint rfind_from (sub s : pystr) (i : Z) : Z :=
  match s with
  | [] => if startswith sub [] then i else -1
  | _ :: s' =>
      let r := rfind_from sub s' (i + 1) in
      if r =? -1 then (if startswith sub s then i else -1) else r
  end.

Definition rfind (sub s : pystr) : Z := rfind_from sub s 0.

(** [s[i:]] and [s[:j]], negative indices counted from the end. *)
Definition slice_from (s : pystr) (i : Z) : pystr :=
  drop (Z.to_nat (if i <? 0 then Z.max 0 (len s + i) else i)) s.

Definition slice_to (s : pystr) (j : Z) : pystr :=
  take (Z.to_nat (if j <? 0 then Z.max 0 (len s + j) else j)) s.

(** [s.rsplit(sep, 1)[0]]: what precedes the last occurrence of [sep]. *)
Definition rsplit1_head (sep s : pystr) : pystr :=
  let i := rfind sep s in
  if i =? -1 then s else slice_to s i.

(** Line boundaries of [str.splitlines], [\r\n] apart. *)
Definition is_linebreak (c : N) : bool :=
  ((c =? 10) || (c =? 11) || (c =? 12) || (c =? 13) || (c =? 28)
   || (c =? 29) || (c =? 30) || (c =? 133) || (c =? 8232) || (c =? 8233))%N.

(** [s.splitlines()]; [cur] is the current line, reversed. *)
Fixpoint splitlines_aux (cur : pystr) (s : pystr) : list pystr :=
  match s with
  | [] => match cur with [] => [] | _ => [rev cur] end
  | c :: s' =>
      if (c =? 13)%N then
        match s' with
        | d :: s'' =>
            if (d =? 10)%N then rev cur :: splitlines_aux [] s''
            else rev cur :: splitlines_aux [] s'
        | [] => [rev cur]
        end
      else if is_linebreak c then rev cur :: splitlines_aux [] s'
      else splitlines_aux (c :: cur) s'
  end.

Definition splitlines (s : pystr) : list pystr := splitlines_aux [] s.

(** [sep.join(parts)] *)
Fixpoint join (sep : pystr) (parts : list pystr) : pystr :=
  match parts with
  | [] => []
  | [p] => p
  | p :: ps => p ++ sep ++ join sep ps
  end.

(** [re.findall(r'```python\n(.*?)```', text, re.DOTALL)], its first match
    if there is one: the text between the first opening fence and the
    first closing fence after it. An opening fence cannot overlap a copy
    of itself and starts with a closing fence, so the leftmost match of
    the pattern starts at the first opening fence or nowhere. *)
Definition first_python_block (text : pystr) : option pystr :=
  let opener := lit "```python" ++ [10%N] in
  let i := find opener text in
  if i =? -1 then None
  else
    let rest := slice_from text (i + len opener) in
    let j := find (lit "```") rest in
    if j =? -1 then None else Some (slice_to rest j).

Definition str_eqb (a b : pystr) : bool := bool_decide (a = b).

(** A [dict] with [str] keys: insertion-ordered, no duplicate key.
    [dict_set] is [d[k] = v]; a key that is present keeps its place. *)
Fixpoint dict_set {V} (k : pystr) (v : V) (d : list (pystr * V)) : list (pystr * V) :=
  match d with
  | [] => [(k, v)]
  | (k', v') :: r =>
      if str_eqb k k' then (k, v) :: r else (k', v') :: dict_set k v r
  end.

(** [d.get(k)], [None] when absent. *)
Fixpoint dict_lookup {V} (k : pystr) (d : list (pystr * V)) : option V :=
  match d with
  | [] => None
  | (k', v) :: r => if str_eqb k k' then Some v else dict_lookup k r
  end.

(** [dict(pairs)], and a dict comprehension over [pairs]. *)
Definition dict_of_pairs {V} (pairs : list (pystr * V)) : list (pystr * V) :=
  foldl (fun d kv => dict_set kv.1 kv.2 d) [] pairs.

(** [s1 < s2] on [str]: lexicographic on code points. *)
Fixpoint ltb (s1 s2 : pystr) : bool :=
  match s1, s2 with
  | _, [] => false
  | [], _ :: _ => true
  | a :: r1, b :: r2 => (a <? b)%N || ((a =? b)%N && ltb r1 r2)
  end.

End Py.

Notation "p{ s }" := (Py.lit s) (at level 0, s at level 0, format "p{ s }").
Notation "q{ s }" := (Py.litq s) (at level 0, s at level 0, format "q{ s }").

(** ** Exceptions *)

Inductive exn :=
| JSONDecodeError
| SyntaxError (lineno : option Z) (msg : pystr)
| AttributeError
| TypeError
| ValueError
| ValidationError
| IndexError
| RecursionError
| ImportError
| ServiceError (tag : N).

(** The outcome of a Python call: a value or a raised exception. *)
Inductive result (A : Type) :=
| Ok (a : A)
| Raise (e : exn).
Arguments Ok {A} a.
Arguments Raise {A} e.

#[global] Instance result_ret : MRet result := fun A a => Ok a.
#[global] Instance result_bind : MBind result := fun A B k m =>
match m with
| Ok a => k a
| Raise e => Raise e
end.

(** [try: body except Exception: handler] (every [exn] here is an
  [Exception]). *)
Definition try_except {A} (body : result A) (handler : exn -> A) : A :=
match body with
| Ok a => a
| Raise e => handler e
end.

(** ** app/utils/json_utils.py *)

Module JsonUtils.

Definition fence : pystr := p{"```"}.
Definition LF : pystr := [10%N].

Definition strip_code_fences (text : pystr) : pystr :=
  let cleaned := Py.strip text in
  let cleaned :=
    if Py.startswith fence cleaned then
      let lines := Py.splitlines cleaned in
      if (1 <? Z.of_nat (length lines)) then Py.join LF (drop 1 lines)
      else []
    else cleaned in
  let cleaned :=
    if Py.endswith fence cleaned then Py.rsplit1_head fence cleaned
    else cleaned in
  Py.strip cleaned.

(** [[idx for idx in (a, b) if idx != -1]] *)
Definition candidates (a b : Z) : list Z :=
  filter (fun idx => idx ≠ -1) [a; b].

(** [min(l)] and [max(l)] of a non-empty list. *)
Definition list_min (l : list Z) : Z :=
  match l with [] => 0 | x :: r => foldl Z.min x r end.
Definition list_max (l : list Z) : Z :=
  match l with [] => 0 | x :: r => foldl Z.max x r end.

Definition extract_json_blob (text : pystr) : pystr :=
  let cleaned := strip_code_fences text in
  let start_candidates :=
    candidates (Py.find p{"{"} cleaned) (Py.find p{"["} cleaned) in
  let start :=
    match start_candidates with [] => 0 | _ => list_min start_candidates end in
  let trimmed := Py.slice_from cleaned start in
  let end_candidates :=
    candidates (Py.rfind p{"}"} trimmed) (Py.rfind p{"]"} trimmed) in
  let end_ :=
    match end_candidates with
    | [] => Py.len trimmed
    | _ => list_max end_candidates + 1
    end in
  Py.strip (Py.slice_to trimmed end_).

End JsonUtils.


(** ** Python values decoded from JSON, and [json.loads] *)

(** What [json.loads] returns with the default hooks. A [float] keeps its
    lexeme; a [dict] keeps insertion order and has no duplicate key. *)
Inductive json :=
| JNull
| JBool (b : bool)
| JInt (z : Z)
| JFloat (lexeme : pystr)
| JStr (s : pystr)
| JList (l : list json)
| JDict (d : list (pystr * json)).

Module PyJson.

Definition ord (a : ascii) : N := N_of_ascii a.

(** The double quote. *)
Definition dquote : N := 34%N.

(** The decoder's [WHITESPACE]: space, tab, line feed, carriage return. *)
Definition is_ws (c : N) : bool :=
  ((c =? 32) || (c =? 9) || (c =? 10) || (c =? 13))%N.

Fixpoint skip_ws (s : pystr) : pystr :=
  match s with
  | c :: r => if is_ws c then skip_ws r else s
  | [] => []
  end.

Definition is_digit (c : N) : bool := ((48 <=? c) && (c <=? 57))%N.

Fixpoint span_digits (s : pystr) : pystr * pystr :=
  match s with
  | c :: r =>
      if is_digit c then let '(d, rest) := span_digits r in (c :: d, rest)
      else ([], s)
  | [] => ([], [])
  end.

(** [int(digits)] for a run of decimal digits. *)
Definition nat_of_digits (ds : pystr) : Z :=
  foldl (fun acc c => 10 * acc + (Z.of_N c - 48)) 0 ds.

(** [NUMBER_RE]: an optional minus sign, then [0] or a run of digits that
    does not start with [0]; an optional fraction, a dot and digits; an
    optional exponent, [e] or [E], an optional sign and digits. Returns the
    three groups and the rest of the text. *)
Definition match_number (s : pystr) :
  option (pystr * option pystr * option pystr * pystr) :=
  let '(sign, s1) :=
    match s with
    | c :: r => if (c =? ord "-")%N then ([c], r) else ([], s)
    | [] => ([], s)
    end in
  let intpart :=
    match s1 with
    | c :: r =>
        if (c =? ord "0")%N then Some ([c], r)
        else if is_digit c then Some (span_digits s1)
        else None
    | [] => None
    end in
  match intpart with
  | None => None
  | Some (ds, s2) =>
      let '(frac, s3) :=
        match s2 with
        | c :: r =>
            if (c =? ord ".")%N then
              match span_digits r with
              | ([], _) => (None, s2)
              | (fd, r') => (Some (c :: fd), r')
              end
            else (None, s2)
        | [] => (None, s2)
        end in
      let '(exp, s4) :=
        match s3 with
        | c :: r =>
            if ((c =? ord "e") || (c =? ord "E"))%N then
              let '(sg, r1) :=
                match r with
                | d :: r' =>
                    if ((d =? ord "-") || (d =? ord "+"))%N then ([d], r')
                    else ([], r)
                | [] => ([], r)
                end in
              match span_digits r1 with
              | ([], _) => (None, s3)
              | (ed, r2) => (Some (c :: sg ++ ed), r2)
              end
            else (None, s3)
        | [] => (None, s3)
        end in
      Some (sign ++ ds, frac, exp, s4)
  end.

(** What the interpreter grants the decoder at a call of [json.loads]:
    [recursion_left], the number of arrays and objects that may still be
    entered one inside the other before [Py_EnterRecursiveCall] raises
    [RecursionError] (the recursion limit less the depth of the call), and
    [int_max_str_digits], the value of [sys.get_int_max_str_digits()]: 4300
    unless configured, 0 for no limit, absent before Python 3.11 (as 0). *)
Record limits := { recursion_left : nat; int_max_str_digits : Z }.

(** [int(digits)] refuses a run of more than [int_max_str_digits] decimal
    digits; runs of at most 640 digits are never checked. *)
Definition exceeds_max_str_digits (lim : limits) (digits : pystr) : bool :=
  (640 <? Z.of_nat (length digits)) && (0 <? int_max_str_digits lim)
  && (int_max_str_digits lim <? Z.of_nat (length digits)).

(** The value of a matched number: [float(...)] when a fraction or an
    exponent is present, [int(...)] otherwise, which raises [ValueError]
    for too many digits (the sign is not counted). *)
Definition number_value (lim : limits) (integer : pystr) (frac exp : option pystr) :
  result json :=
  match frac, exp with
  | None, None =>
      match integer with
      | c :: ds =>
          if (c =? ord "-")%N then
            if exceeds_max_str_digits lim ds then Raise ValueError
            else Ok (JInt (- nat_of_digits ds))
          else
            if exceeds_max_str_digits lim integer then Raise ValueError
            else Ok (JInt (nat_of_digits integer))
      | [] => Ok (JInt 0)
      end
  | _, _ => Ok (JFloat (integer ++ default [] frac ++ default [] exp))
  end.

Definition hex_digit (c : N) : option N :=
  if is_digit c then Some (c - 48)%N
  else if ((97 <=? c) && (c <=? 102))%N then Some (c - 87)%N
  else if ((65 <=? c) && (c <=? 70))%N then Some (c - 55)%N
  else None.

(** Four hexadecimal digits of a [\uXXXX] escape. *)
Definition hex4 (s : pystr) : option (N * pystr) :=
  match s with
  | a :: b :: c :: d :: r =>
      match hex_digit a, hex_digit b, hex_digit c, hex_digit d with
      | Some x, Some y, Some z, Some w =>
          Some (x * 4096 + y * 256 + z * 16 + w, r)%N
      | _, _, _, _ => None
      end
  | _ => None
  end.

(** [BACKSLASH]: the one-character escapes. *)
Definition backslash (esc : N) : option N :=
  if (esc =? dquote)%N then Some (dquote)
  else if (esc =? ord "\")%N then Some (ord "\")
  else if (esc =? ord "/")%N then Some (ord "/")
  else if (esc =? ord "b")%N then Some 8%N
  else if (esc =? ord "f")%N then Some 12%N
  else if (esc =? ord "n")%N then Some 10%N
  else if (esc =? ord "r")%N then Some 13%N
  else if (esc =? ord "t")%N then Some 9%N
  else None.

(** [scanstring(s, end, strict=True)], entered after the opening quote;
    [acc] is the decoded text so far, reversed. *)
Fixpoint scanstring (fuel : nat) (acc s : pystr) : result (pystr * pystr) :=
  match fuel with
  | O => Raise JSONDecodeError
  | S f =>
      match s with
      | [] => Raise JSONDecodeError
      | c :: r =>
          if (c =? dquote)%N then Ok (rev acc, r)
          else if (c =? ord "\")%N then
            match r with
            | [] => Raise JSONDecodeError
            | esc :: r1 =>
                if (esc =? ord "u")%N then
                  match hex4 r1 with
                  | None => Raise JSONDecodeError
                  | Some (uni, r2) =>
                      if ((55296 <=? uni) && (uni <=? 56319)
                          && Py.startswith [ord "\"; ord "u"] r2)%N then
                        match hex4 (drop 2 r2) with
                        | None => Raise JSONDecodeError
                        | Some (uni2, r3) =>
                            if ((56320 <=? uni2) && (uni2 <=? 57343))%N then
                              scanstring f
                                ((65536 + N.lor (N.shiftl (uni - 55296) 10)
                                                (uni2 - 56320))%N :: acc) r3
                            else scanstring f (uni :: acc) r2
                        end
                      else scanstring f (uni :: acc) r2
                  end
                else
                  match backslash esc with
                  | Some ch => scanstring f (ch :: acc) r1
                  | None => Raise JSONDecodeError
                  end
            end
          else if (c <? 32)%N then Raise JSONDecodeError
          else scanstring f (c :: acc) r
      end
  end.

Definition parse_string (s : pystr) : result (pystr * pystr) :=
  scanstring (length s) [] s.

(** [scan_once], [JSONArray] and [JSONObject] of the decoder. [depth] is
    the number of arrays and objects that may still be entered: entering
    one more raises [RecursionError], before anything of it is read.
    [fuel] bounds the number of calls; every call but the first comes
    after one more character of the text and at most one call of the other
    kind, so twice the length of the text is more than the text can use,
    and that is what [json_loads] gives. The array and object loops take
    the items read so far, reversed. *)
Fixpoint scan_once (lim : limits) (depth fuel : nat) (s : pystr) :
  result (json * pystr) :=
  match fuel with
  | O => Raise JSONDecodeError
  | S f =>
      match s with
      | [] => Raise JSONDecodeError
      | c :: r =>
          if (c =? dquote)%N then
            '(str, rest) ← parse_string r; Ok (JStr str, rest)
          else if (c =? ord "{")%N then
            match depth with
            | O => Raise RecursionError
            | S d =>
                match skip_ws r with
                | c1 :: r1 =>
                    if (c1 =? ord "}")%N then Ok (JDict [], r1)
                    else parse_object lim d f [] (c1 :: r1)
                | [] => Raise JSONDecodeError
                end
            end
          else if (c =? ord "[")%N then
            match depth with
            | O => Raise RecursionError
            | S d =>
                match skip_ws r with
                | c1 :: r1 =>
                    if (c1 =? ord "]")%N then Ok (JList [], r1)
                    else parse_array lim d f [] (c1 :: r1)
                | [] => Raise JSONDecodeError
                end
            end
          else if Py.startswith p{"null"} s then Ok (JNull, drop 4 s)
          else if Py.startswith p{"true"} s then Ok (JBool true, drop 4 s)
          else if Py.startswith p{"false"} s then Ok (JBool false, drop 5 s)
          else
            match match_number s with
            | Some (integer, frac, exp, rest) =>
                value ← number_value lim integer frac exp; Ok (value, rest)
            | None =>
                if Py.startswith p{"NaN"} s then Ok (JFloat p{"NaN"}, drop 3 s)
                else if Py.startswith p{"Infinity"} s then
                  Ok (JFloat p{"Infinity"}, drop 8 s)
                else if Py.startswith p{"-Infinity"} s then
                  Ok (JFloat p{"-Infinity"}, drop 9 s)
                else Raise JSONDecodeError
            end
      end
  end
with parse_array (lim : limits) (depth fuel : nat) (acc : list json) (s : pystr) :
  result (json * pystr) :=
  match fuel with
  | O => Raise JSONDecodeError
  | S f =>
      '(value, rest) ← scan_once lim depth f s;
      match skip_ws rest with
      | c :: r =>
          if (c =? ord "]")%N then Ok (JList (rev (value :: acc)), r)
          else if (c =? ord ",")%N then
            parse_array lim depth f (value :: acc) (skip_ws r)
          else Raise JSONDecodeError
      | [] => Raise JSONDecodeError
      end
  end
with parse_object (lim : limits) (depth fuel : nat) (acc : list (pystr * json))
  (s : pystr) : result (json * pystr) :=
  match fuel with
  | O => Raise JSONDecodeError
  | S f =>
      match s with
      | c :: r =>
          if (c =? dquote)%N then
            '(key, rest) ← parse_string r;
            match skip_ws rest with
            | c1 :: r1 =>
                if (c1 =? ord ":")%N then
                  '(value, rest1) ← scan_once lim depth f (skip_ws r1);
                  match skip_ws rest1 with
                  | c2 :: r2 =>
                      if (c2 =? ord "}")%N then
                        Ok (JDict (Py.dict_of_pairs (rev ((key, value) :: acc))), r2)
                      else if (c2 =? ord ",")%N then
                        parse_object lim depth f ((key, value) :: acc) (skip_ws r2)
                      else Raise JSONDecodeError
                  | [] => Raise JSONDecodeError
                  end
                else Raise JSONDecodeError
            | [] => Raise JSONDecodeError
            end
          else Raise JSONDecodeError
      | [] => Raise JSONDecodeError
      end
  end.

(** [json.loads(s)] for a [str]: no byte order mark, one value, nothing
    but whitespace around it. *)
Definition json_loads (lim : limits) (s : pystr) : result json :=
  if Py.startswith [65279%N] s then Raise JSONDecodeError
  else
    let s0 := skip_ws s in
    '(obj, rest) ← scan_once lim (recursion_left lim) (S (2 * length s0)) s0;
    match skip_ws rest with
    | [] => Ok obj
    | _ :: _ => Raise JSONDecodeError
    end.

End PyJson.

Module JsonLoad.

(** [load_json_from_response]: a [JSONDecodeError] is logged and raised
    again; any other exception of [json.loads] passes through. *)
Definition load_json_from_response (lim : PyJson.limits) (response : pystr) :
  result json :=
  let cleaned := JsonUtils.extract_json_blob response in
  match PyJson.json_loads lim cleaned with
  | Ok v => Ok v
  | Raise JSONDecodeError => Raise JSONDecodeError
  | Raise e => Raise e
  end.

End JsonLoad.

(** ** Predicates used by the statements about the extractor *)

(** One of the four characters that delimit a JSON object or array. *)
Definition is_bracket (c : N) : bool :=
  ((c =? 123) || (c =? 91) || (c =? 125) || (c =? 93))%N.

(** The text holds none of them. *)
Definition no_brackets (s : pystr) : Prop := forallb (fun c => negb (is_bracket c)) s = true.

(** A decoded value that is neither a [list] nor a [dict]. *)
Definition is_scalar (v : json) : Prop :=
  match v with
  | JList _ | JDict _ => False
  | _ => True
  end.

(** ** app/core/llm.py *)

Module LLM.

(** What the code reads of a completion: [choices[0].message] with its
    [content] and [tool_calls]. *)
Record ToolCall := { function_name : pystr; function_arguments : pystr }.
Record Message := { content : option pystr; tool_calls : option (list ToolCall) }.
Record Response := { choices : list Message }.

(** What a call of [chat] does to the outside: requests to the service and
    [asyncio.sleep]. *)
Inductive event :=
| Create (attempt : Z)
| Sleep (seconds : Z).

Section chat.

(** [create attempt]: the outcome of [client.chat.completions.create] at
    that attempt. *)
Variable create : Z -> result Response.
Variable max_retries : Z.

(** The body of [for attempt in range(max_retries)], with [remaining]
    iterations to go. Falling off the loop returns [None]. *)
Fixpoint chat_loop (remaining : nat) (attempt : Z) :
  list event * result (option Response) :=
  match remaining with
  | O => ([], Ok None)
  | S n =>
      match create attempt with
      | Ok response => ([Create attempt], Ok (Some response))
      | Raise e =>
          if attempt <? max_retries - 1 then
            let '(tr, res) := chat_loop n (attempt + 1) in
            (Create attempt :: Sleep (2 ^ attempt) :: tr, res)
          else ([Create attempt], Raise e)
      end
  end.

Definition chat : list event * result (option Response) :=
  chat_loop (Z.to_nat max_retries) 0.

End chat.

(** [simple_chat]: [chat] with the default [max_retries = 3], then
    [response.choices[0].message.content]. *)
Definition simple_chat (create : Z -> result Response) :
  list event * result (option pystr) :=
  let '(tr, res) := chat create 3 in
  (tr,
   response ← res;
   match response with
   | None => Raise AttributeError
   | Some response =>
       match choices response with
       | [] => Raise IndexError
       | m :: _ => Ok (content m)
       end
   end).

(** The calls and sleeps of a run whose attempts [a], ..., [a + k - 1] fail
    and that ends at attempt [a + k]. *)
Fixpoint attempts_trace (a : Z) (k : nat) : list event :=
  match k with
  | O => [Create a]
  | S k' => Create a :: Sleep (2 ^ a) :: attempts_trace (a + 1) k'
  end.

(** The number of requests sent in a trace. *)
Definition is_create (ev : event) : bool :=
  match ev with Create _ => true | Sleep _ => false end.

Definition count_creates (tr : list event) : nat :=
  length (List.filter is_create tr).

End LLM.

(** ** app/schemas/models.py *)

Inductive ThesisType :=
| EMPIRICAL | SIMULATION | ALGORITHM | SYSTEM_DESIGN | DATA_ANALYSIS
| MACHINE_LEARNING | OTHER.

Inductive CodeTaskType :=
| DATA_PREPROCESSING | TASK_DATA_ANALYSIS | MODEL_TRAINING | VISUALIZATION
| ALGORITHM_IMPL | STATISTICAL_TEST | TASK_SIMULATION | UTILITY.

(** [ThesisType.value] *)
Definition ThesisType_value (t : ThesisType) : pystr :=
  match t with
  | EMPIRICAL => p{"empirical"}
  | SIMULATION => p{"simulation"}
  | ALGORITHM => p{"algorithm"}
  | SYSTEM_DESIGN => p{"system_design"}
  | DATA_ANALYSIS => p{"data_analysis"}
  | MACHINE_LEARNING => p{"machine_learning"}
  | OTHER => p{"other"}
  end.

(** [CodeTaskType.value] *)
Definition CodeTaskType_value (t : CodeTaskType) : pystr :=
  match t with
  | DATA_PREPROCESSING => p{"data_preprocessing"}
  | TASK_DATA_ANALYSIS => p{"data_analysis"}
  | MODEL_TRAINING => p{"model_training"}
  | VISUALIZATION => p{"visualization"}
  | ALGORITHM_IMPL => p{"algorithm_impl"}
  | STATISTICAL_TEST => p{"statistical_test"}
  | TASK_SIMULATION => p{"simulation"}
  | UTILITY => p{"utility"}
  end.

Module ParsedContent.
Record t := {
  title : pystr;
  abstract : pystr;
  keywords : list pystr;
  chapters : list (pystr * pystr);
  tables : list json;
  figures : list pystr;
  references : list pystr;
  raw_markdown : pystr;
  embedded_data : option (list json)
}.

(** [ParsedContent(raw_markdown=md)]: every other field at its default. *)
Definition of_raw_markdown (md : pystr) : t :=
  {| title := []; abstract := []; keywords := []; chapters := [];
     tables := []; figures := []; references := []; raw_markdown := md;
     embedded_data := None |}.
End ParsedContent.

Module CodeTask.
Record t := {
  task_id : pystr;
  task_type : CodeTaskType;
  title : pystr;
  description : pystr;
  requirements : list pystr;
  dependencies : list pystr;
  input_data : option pystr;
  expected_output : option pystr;
  priority : Z
}.
End CodeTask.

Module GeneratedCode.
Record t := {
  task_id : pystr;
  file_name : pystr;
  code : pystr;
  description : pystr;
  dependencies : list pystr
}.
End GeneratedCode.

Module ProjectOutput.
Record t := {
  project_name : pystr;
  thesis_title : pystr;
  files : list (pystr * pystr);
  requirements : list pystr;
  readme : pystr;
  run_instructions : pystr
}.
End ProjectOutput.

Module ValidationResult.
Record t := {
  task_id : pystr;
  is_valid : bool;
  syntax_check : bool;
  import_check : bool;
  execution_check : bool;
  error_message : option pystr;
  suggestions : list pystr;
  fixed_code : option pystr
}.
End ValidationResult.

(** Truthiness of an [Optional[str]]: neither [None] nor empty. *)
Definition truthy (o : option pystr) : bool :=
  match o with
  | Some (_ :: _) => true
  | _ => false
  end.

(** An [Optional[str]] inside an f-string. *)
Definition fmt_opt (o : option pystr) : pystr := default p{"None"} o.

(** ** app/agents/validator_agent.py *)

Module ValidatorAgent.

(** What the checks observe of a node met by [ast.walk]. *)
Inductive ast_node :=
| FunctionDef (name : pystr) (docstring : option pystr)
| If_ (compare_left_id : option pystr)
| Try
| Import (names : list pystr)
| ImportFrom (module : option pystr)
| OtherNode.

Section validator.

(** [ast.parse(code)], as the nodes [ast.walk] yields, or the exception. *)
Variable ast_parse : pystr -> result (list ast_node).
(** [str(e)] of an exception. *)
Variable str_of_exn : exn -> pystr.
(** [llm.simple_chat(prompt)] at the [n]-th repair request of a
    validation. *)
Variable simple_chat : nat -> pystr -> result (option pystr).
(** [settings.MAX_CODE_RETRIES] *)
Variable max_retries : Z.

Definition _check_syntax (code : pystr) : result (bool * option pystr) :=
  match ast_parse code with
  | Ok _ => Ok (true, None)
  | Raise (SyntaxError lineno msg) =>
      Ok (false,
          Some (p{"第"} ++ default p{"None"} (Py.str_of_int <$> lineno)
                ++ p{"行: "} ++ msg))
  | Raise e => Raise e
  end.

(** The imports are collected and then not used: the check passes when
    the code parses. *)
Definition _check_imports (code : pystr) : bool * option pystr :=
  match ast_parse code with
  | Ok _ => (true, None)
  | Raise e => (false, Some (str_of_exn e))
  end.

Definition is_main_def (n : ast_node) : bool :=
  match n with
  | FunctionDef name _ => bool_decide (name = p{"main"})
  | _ => false
  end.

Definition is_if_main (n : ast_node) : bool :=
  match n with
  | If_ (Some id) => bool_decide (id = p{"__name__"})
  | _ => false
  end.

Definition is_try (n : ast_node) : bool :=
  match n with Try => true | _ => false end.

Definition missing_docstring (n : ast_node) : list pystr :=
  match n with
  | FunctionDef name doc =>
      if truthy doc then [] else [p{"函数 "} ++ name ++ p{" 缺少文档字符串"}]
  | _ => []
  end.

Definition _static_analysis (code : pystr) : bool * list pystr :=
  match ast_parse code with
  | Ok tree =>
      let has_main := existsb is_main_def tree in
      let has_if_main := existsb is_if_main tree in
      let issues :=
        (if negb has_main && negb has_if_main
         then [p{"建议添加main函数或if __name__ == '__main__'入口"}] else [])
        ++ (if negb (existsb is_try tree)
            then [p{"建议添加异常处理(try-except)"}] else [])
        ++ concat (missing_docstring <$> tree) in
      (bool_decide (length issues = 0%nat), issues)
  | Raise e => (false, [str_of_exn e])
  end.

Definition fix_prompt (code error : pystr) : pystr :=
  p{"请修复以下Python代码中的错误。

## 错误信息
"} ++ error ++ p{"

## 原始代码
```python
"} ++ code ++ p{"
```

请直接返回修复后的完整代码，不要包含任何解释。
代码用```python和```包裹。"}.

(** [_fix_code]: the [n]-th repair request. Whatever is raised inside is
    caught and gives [None]. *)
Definition _fix_code (n : nat) (code error : pystr) : option pystr :=
  try_except
    (response ← simple_chat n (fix_prompt code error);
     match response with
     | None => Raise TypeError
     | Some text =>
         match Py.first_python_block text with
         | Some fixed_code =>
             '(syntax_ok, _) ← _check_syntax fixed_code;
             Ok (if syntax_ok : bool then Some fixed_code else None)
         | None => Ok None
         end
     end)
    (fun _ => None).

(** One repair request, as the validation loop logs it. *)
Inductive fix_event :=
| FixOk
| FixFailed.

(** The [while retry_count < self.max_retries] loop, with [remaining]
    iterations before the condition fails. The result comes with the
    repair requests made, in order. *)
Fixpoint validate_loop (code : GeneratedCode.t) (remaining : nat)
    (retry_count : nat) (current_code : pystr) :
  list fix_event * result ValidationResult.t :=
  match remaining with
  | O =>
      ([], Ok {| ValidationResult.task_id := GeneratedCode.task_id code;
                 ValidationResult.is_valid := false;
                 ValidationResult.syntax_check := true;
                 ValidationResult.import_check := true;
                 ValidationResult.execution_check := false;
                 ValidationResult.error_message :=
                   Some (p{"超过最大重试次数("} ++ Py.str_of_int max_retries ++ p{")"});
                 ValidationResult.suggestions := [p{"代码存在问题，请手动检查"}];
                 ValidationResult.fixed_code := None |})
  | S n =>
      match _check_syntax current_code with
      | Raise e => ([], Raise e)
      | Ok (false, syntax_error) =>
          let fixed_code :=
            _fix_code retry_count current_code
              (p{"语法错误: "} ++ fmt_opt syntax_error) in
          if truthy fixed_code then
            let '(evs, res) :=
              validate_loop code n (S retry_count) (default [] fixed_code) in
            (FixOk :: evs, res)
          else
            ([FixFailed],
             Ok {| ValidationResult.task_id := GeneratedCode.task_id code;
                   ValidationResult.is_valid := false;
                   ValidationResult.syntax_check := false;
                   ValidationResult.import_check := true;
                   ValidationResult.execution_check := false;
                   ValidationResult.error_message := syntax_error;
                   ValidationResult.suggestions := [p{"请检查代码语法"}];
                   ValidationResult.fixed_code := None |})
      | Ok (true, _) =>
          match _check_imports current_code with
          | (false, import_error) =>
              let fixed_code :=
                _fix_code retry_count current_code
                  (p{"导入错误: "} ++ fmt_opt import_error) in
              if truthy fixed_code then
                let '(evs, res) :=
                  validate_loop code n (S retry_count) (default [] fixed_code) in
                (FixOk :: evs, res)
              else
                ([FixFailed],
                 Ok {| ValidationResult.task_id := GeneratedCode.task_id code;
                       ValidationResult.is_valid := false;
                       ValidationResult.syntax_check := true;
                       ValidationResult.import_check := false;
                       ValidationResult.execution_check := false;
                       ValidationResult.error_message := import_error;
                       ValidationResult.suggestions := [p{"请检查导入语句"}];
                       ValidationResult.fixed_code := None |})
          | (true, _) =>
              let '(analysis_ok, analysis_issues) := _static_analysis current_code in
              let suggestions := if negb analysis_ok then analysis_issues else [] in
              ([],
               Ok {| ValidationResult.task_id := GeneratedCode.task_id code;
                     ValidationResult.is_valid := true;
                     ValidationResult.syntax_check := true;
                     ValidationResult.import_check := true;
                     ValidationResult.execution_check := false;
                     ValidationResult.error_message := None;
                     ValidationResult.suggestions := suggestions;
                     ValidationResult.fixed_code :=
                       if bool_decide (current_code ≠ GeneratedCode.code code)
                       then Some current_code else None |})
          end
      end
  end.

Definition _validate_single_code (code : GeneratedCode.t) :
  list fix_event * result ValidationResult.t :=
  validate_loop code (Z.to_nat max_retries) 0 (GeneratedCode.code code).

(** [validate_and_fix] *)
Definition validate_and_fix (code : GeneratedCode.t) : result GeneratedCode.t :=
  res ← (_validate_single_code code).2;
  if truthy (ValidationResult.fixed_code res) then
    Ok {| GeneratedCode.task_id := GeneratedCode.task_id code;
          GeneratedCode.file_name := GeneratedCode.file_name code;
          GeneratedCode.code := default [] (ValidationResult.fixed_code res);
          GeneratedCode.description := GeneratedCode.description code;
          GeneratedCode.dependencies := GeneratedCode.dependencies code |}
  else Ok code.

(** The repair requests made, and those that gave code back: each of the
    latter used up one unit of the retry budget. *)
Definition fix_attempts (evs : list fix_event) : nat := length evs.

Definition retries_used (evs : list fix_event) : nat :=
  length (List.filter (fun ev => match ev with FixOk => true | FixFailed => false end) evs).

(** The outcome returned when the loop condition fails. *)
Definition retries_exceeded (code : GeneratedCode.t) (r : ValidationResult.t) : Prop :=
  ValidationResult.task_id r = GeneratedCode.task_id code /\
  ValidationResult.is_valid r = false /\
  ValidationResult.error_message r
    = Some (p{"超过最大重试次数("} ++ Py.str_of_int max_retries ++ p{")"}).

End validator.

End ValidatorAgent.


(** ** [sorted] *)

(** Python's [sorted] is stable and compares with [<] only; a stable sort
    has one possible result, which insertion from the right computes. *)
Section sorted.

Context {A : Type} (lt : A -> A -> bool).

(** [x] goes in front of the first element that is not below it. *)
Fixpoint insert_sorted (x : A) (l : list A) : list A :=
  match l with
  | [] => [x]
  | y :: r => if lt y x then y :: insert_sorted x r else x :: l
  end.

Definition sorted (l : list A) : list A := foldr insert_sorted [] l.

End sorted.

(** [a < b] on [str], as a proposition. *)
Definition str_lt (a b : pystr) : Prop := Py.ltb a b = true.

(** ** app/core/workflow.py *)

Module AnalysisResult.
Record t := {
  thesis_type : ThesisType;
  research_method : pystr;
  code_tasks : list CodeTask.t;
  tech_stack : list pystr;
  libraries : list pystr;
  summary : pystr
}.
End AnalysisResult.

Module Workflow.

(** [{r.task_id: r for r in results}]: a later result replaces an earlier
    one with the same task id. *)
Definition result_map (results : list ValidationResult.t) :
  gmap pystr ValidationResult.t :=
  foldl (fun m r => <[ValidationResult.task_id r := r]> m) ∅ results.

Definition _apply_fixes (codes : list GeneratedCode.t)
    (results : list ValidationResult.t) : list GeneratedCode.t :=
  let result_map := result_map results in
  (fun code =>
     match result_map !! GeneratedCode.task_id code with
     | Some result =>
         if truthy (ValidationResult.fixed_code result) then
           {| GeneratedCode.task_id := GeneratedCode.task_id code;
              GeneratedCode.file_name := GeneratedCode.file_name code;
              GeneratedCode.code := default [] (ValidationResult.fixed_code result);
              GeneratedCode.description := GeneratedCode.description code;
              GeneratedCode.dependencies := GeneratedCode.dependencies code |}
         else code
     | None => code
     end) <$> codes.

(** [all_deps]: the set built by the [update] calls. *)
Definition all_deps (libraries : list pystr) (codes : list GeneratedCode.t) :
  gset pystr :=
  foldl (fun s code => s ∪ list_to_set (GeneratedCode.dependencies code)) ∅ codes
  ∪ list_to_set libraries.

(** [requirements = sorted(list(all_deps))] *)
Definition requirements (libraries : list pystr) (codes : list GeneratedCode.t) :
  list pystr :=
  sorted Py.ltb (elements (all_deps libraries codes)).

(** The two listings of the README, one line and one section per
    artifact, in the order of [codes]. *)
Definition readme_tree_line (code : GeneratedCode.t) : pystr :=
  p{"├── "} ++ GeneratedCode.file_name code ++ p{"  # "}
  ++ GeneratedCode.description code ++ [10%N].

Definition readme_section (code : GeneratedCode.t) : pystr :=
  p{"### "} ++ GeneratedCode.file_name code ++ [10%N]
  ++ GeneratedCode.description code ++ [10%N; 10%N].

(** [self.task_id] is the run's identifier. The last block of the source
    is not an f-string: its braces are kept as they are. *)
Definition _generate_readme (task_id : pystr) (parsed_content : ParsedContent.t)
    (analysis_result : AnalysisResult.t) (codes : list GeneratedCode.t) : pystr :=
  p{"# "}
  ++ (match ParsedContent.title parsed_content with
      | [] => p{"毕业论文代码"}
      | title => title
      end)
  ++ p{"

## 项目说明

本项目是根据毕业论文自动生成的Python代码实现。

### 论文信息
- **标题**: "} ++ ParsedContent.title parsed_content ++ p{"
- **类型**: "} ++ ThesisType_value (AnalysisResult.thesis_type analysis_result) ++ p{"
- **研究方法**: "} ++ AnalysisResult.research_method analysis_result ++ p{"

### 技术栈
"} ++ Py.join [10%N]
        ((fun tech => p{"- "} ++ tech) <$> AnalysisResult.tech_stack analysis_result)
  ++ p{"

## 文件结构

```
"} ++ task_id ++ p{"/
"}
  ++ concat (readme_tree_line <$> codes)
  ++ p{"├── requirements.txt  # 依赖列表
├── README.md  # 项目说明
└── analysis_result.json  # 分析结果
```

## 安装依赖

```bash
pip install -r requirements.txt
```

## 运行方式

```bash
python main.py
```

## 代码模块说明

"}
  ++ concat (readme_section <$> codes)
  ++ p{"
## 注意事项

1. 请确保已安装所有依赖
2. 如有数据文件，请放在项目目录下
3. 代码由AI自动生成，可能需要根据实际情况调整

## 生成信息

- 生成时间: {datetime.now().strftime('%Y-%m-%d %H:%M:%S')}
- 任务ID: {self.task_id}
"}.

(** [enumerate(codes, 1)] *)
Definition enumerate1 {A} (l : list A) : list (Z * A) :=
  zip (Z.of_nat <$> seq 1 (length l)) l.

Definition _generate_run_instructions (codes : list GeneratedCode.t) : pystr :=
  p{"# 运行说明

## 环境准备

1. 确保Python版本 >= 3.8
2. 安装依赖: pip install -r requirements.txt

## 运行步骤

"}
  ++ concat
       ((fun '(i, code) =>
           if bool_decide (GeneratedCode.file_name code ≠ p{"main.py"}) then
             Py.str_of_int i ++ p{". 运行 "} ++ GeneratedCode.file_name code
             ++ p{": `python "} ++ GeneratedCode.file_name code ++ p{"`"} ++ [10%N]
           else []) <$> enumerate1 codes)
  ++ p{"
## 或者直接运行主程序

```bash
python main.py
```

## 常见问题

1. 如果遇到模块导入错误，请检查是否安装了所有依赖
2. 如果数据文件路径错误，请修改代码中的文件路径
3. 如有其他问题，请检查错误信息并相应修改代码
"}.

Definition _generate_project_output (task_id : pystr)
    (parsed_content : ParsedContent.t) (analysis_result : AnalysisResult.t)
    (codes : list GeneratedCode.t) : ProjectOutput.t :=
  {| ProjectOutput.project_name := task_id;
     ProjectOutput.thesis_title := ParsedContent.title parsed_content;
     ProjectOutput.files :=
       Py.dict_of_pairs
         ((fun code => (GeneratedCode.file_name code, GeneratedCode.code code)) <$> codes);
     ProjectOutput.requirements :=
       requirements (AnalysisResult.libraries analysis_result) codes;
     ProjectOutput.readme :=
       _generate_readme task_id parsed_content analysis_result codes;
     ProjectOutput.run_instructions := _generate_run_instructions codes |}.

End Workflow.

(** What [_apply_fixes] may do to one artifact: every field but the source
    text is kept, and the source text is kept too or replaced by the
    [fixed_code] of a validation result with the artifact's task id. *)
Definition fixed_from (results : list ValidationResult.t)
    (code code' : GeneratedCode.t) : Prop :=
  GeneratedCode.task_id code' = GeneratedCode.task_id code /\
  GeneratedCode.file_name code' = GeneratedCode.file_name code /\
  GeneratedCode.description code' = GeneratedCode.description code /\
  GeneratedCode.dependencies code' = GeneratedCode.dependencies code /\
  (GeneratedCode.code code' = GeneratedCode.code code \/
   exists r, r ∈ results /\
     ValidationResult.task_id r = GeneratedCode.task_id code /\
     ValidationResult.fixed_code r = Some (GeneratedCode.code code')).


(** ** app/agents/coder_agent.py *)

Module CoderAgent.

(** [args.get(key, dflt)]: only a [dict] has [get]. *)
Definition py_get (v : json) (key : pystr) (dflt : json) : result json :=
  match v with
  | JDict d => Ok (default dflt (Py.dict_lookup key d))
  | _ => Raise AttributeError
  end.

(** The validation of a [str] field and of a [List[str]] field by the
    model class: no other JSON value is taken for a string. *)
Definition as_str (v : json) : result pystr :=
  match v with
  | JStr s => Ok s
  | _ => Raise ValidationError
  end.

Fixpoint as_str_list (l : list json) : result (list pystr) :=
  match l with
  | [] => Ok []
  | v :: r => s ← as_str v; rest ← as_str_list r; Ok (s :: rest)
  end.

(** The handling of [dependencies]: a string is decoded once more, and
    whatever is not a list in the end counts as no dependency. *)
Definition normalize_deps (lim : PyJson.limits) (deps : json) : list json :=
  let deps :=
    match deps with
    | JStr s => try_except (PyJson.json_loads lim s) (fun _ => JList [])
    | _ => deps
    end in
  match deps with
  | JList l => l
  | _ => []
  end.

(** The first tool call of a message when it names [generate_code], with
    its decoded arguments. *)
Definition tool_args (lim : PyJson.limits) (message : LLM.Message) :
  result (option json) :=
  match LLM.tool_calls message with
  | Some (tool_call :: _) =>
      if bool_decide (LLM.function_name tool_call = p{"generate_code"}) then
        args ← PyJson.json_loads lim (LLM.function_arguments tool_call);
        Ok (Some args)
      else Ok None
  | _ => Ok None
  end.

(** [response.choices[0].message] *)
Definition first_message (response : option LLM.Response) : result LLM.Message :=
  match response with
  | None => Raise AttributeError
  | Some response =>
      match LLM.choices response with
      | [] => Raise IndexError
      | message :: _ => Ok message
      end
  end.

Definition _extract_code_from_text (text : pystr) (task : CodeTask.t) :
  option GeneratedCode.t :=
  match Py.first_python_block text with
  | Some code =>
      Some {| GeneratedCode.task_id := CodeTask.task_id task;
              GeneratedCode.file_name :=
                CodeTaskType_value (CodeTask.task_type task) ++ p{".py"};
              GeneratedCode.code := code;
              GeneratedCode.description := CodeTask.description task;
              GeneratedCode.dependencies := [] |}
  | None => None
  end.

Definition _extract_main_from_text (text : pystr) : option GeneratedCode.t :=
  match Py.first_python_block text with
  | Some code =>
      Some {| GeneratedCode.task_id := p{"main"};
              GeneratedCode.file_name := p{"main.py"};
              GeneratedCode.code := code;
              GeneratedCode.description := p{"主程序入口"};
              GeneratedCode.dependencies := [] |}
  | None => None
  end.

Section coder.

(** The limits of the interpreter where the agent decodes JSON. *)
Variable lim : PyJson.limits.

(** [self.llm.chat(messages, tools, tool_choice)] for the [n]-th task of
    the sorted list, and for the main program; the prompts are built from
    the task and from the artifacts, which the oracles take instead. *)
Variable chat_for_task : nat -> CodeTask.t -> result (option LLM.Response).
Variable chat_for_main : list GeneratedCode.t -> result (option LLM.Response).

Definition _generate_code_for_task (n : nat) (task : CodeTask.t) :
  option GeneratedCode.t :=
  try_except
    (response ← chat_for_task n task;
     message ← first_message response;
     args ← tool_args lim message;
     match args with
     | Some args =>
         deps ← py_get args p{"dependencies"} (JList []);
         let deps := normalize_deps lim deps in
         file_name ← py_get args p{"file_name"}
                       (JStr (CodeTaskType_value (CodeTask.task_type task) ++ p{".py"}));
         code ← py_get args p{"code"} (JStr []);
         description ← py_get args p{"description"} (JStr (CodeTask.description task));
         file_name ← as_str file_name;
         code ← as_str code;
         description ← as_str description;
         dependencies ← as_str_list deps;
         Ok (Some {| GeneratedCode.task_id := CodeTask.task_id task;
                     GeneratedCode.file_name := file_name;
                     GeneratedCode.code := code;
                     GeneratedCode.description := description;
                     GeneratedCode.dependencies := dependencies |})
     | None =>
         if truthy (LLM.content message) then
           Ok (_extract_code_from_text (default [] (LLM.content message)) task)
         else Ok None
     end)
    (fun _ => None).

Definition _generate_main_program (generated_codes : list GeneratedCode.t) :
  option GeneratedCode.t :=
  match generated_codes with
  | [] => None
  | _ :: _ =>
      try_except
        (response ← chat_for_main generated_codes;
         message ← first_message response;
         args ← tool_args lim message;
         match args with
         | Some args =>
             deps ← py_get args p{"dependencies"} (JList []);
             let deps := normalize_deps lim deps in
             code ← py_get args p{"code"} (JStr []);
             code ← as_str code;
             dependencies ← as_str_list deps;
             Ok (Some {| GeneratedCode.task_id := p{"main"};
                         GeneratedCode.file_name := p{"main.py"};
                         GeneratedCode.code := code;
                         GeneratedCode.description := p{"主程序入口"};
                         GeneratedCode.dependencies := dependencies |})
         | None =>
             if truthy (LLM.content message) then
               Ok (_extract_main_from_text (default [] (LLM.content message)))
             else Ok None
         end)
        (fun _ => None)
  end.

(** [key=lambda x: x.priority] *)
Definition priority_lt (a b : CodeTask.t) : bool :=
  CodeTask.priority a <? CodeTask.priority b.

Definition sorted_tasks (analysis_result : AnalysisResult.t) : list CodeTask.t :=
  sorted priority_lt (AnalysisResult.code_tasks analysis_result).

(** The [for task in sorted_tasks] loop: a task that yields no code adds
    nothing. *)
Fixpoint generate_all (n : nat) (tasks : list CodeTask.t) : list GeneratedCode.t :=
  match tasks with
  | [] => []
  | task :: rest =>
      match _generate_code_for_task n task with
      | Some code => code :: generate_all (S n) rest
      | None => generate_all (S n) rest
      end
  end.

Definition run (analysis_result : AnalysisResult.t) : list GeneratedCode.t :=
  let generated_codes := generate_all 0 (sorted_tasks analysis_result) in
  match _generate_main_program generated_codes with
  | Some main_code => generated_codes ++ [main_code]
  | None => generated_codes
  end.

End coder.

End CoderAgent.

(** ** app/agents/analyzer_agent.py *)

Inductive DataSourceType := PDF_EMBEDDED | EXCEL_FILE | CSV_FILE | NO_DATA.

Module DataFileInfo.
Record t := {
  file_path : pystr;
  file_type : pystr;
  file_name : pystr;
  columns : option (list pystr);
  row_count : option Z;
  sample_data : option (list json);
  description : option pystr
}.
End DataFileInfo.

Module AnalyzerAgent.

(** [load_json_from_response(response)] on what [simple_chat] returned:
    [None] has no [strip]. *)
Definition load_json (lim : PyJson.limits) (response : option pystr) :
  result json :=
  match response with
  | None => Raise AttributeError
  | Some text => JsonLoad.load_json_from_response lim text
  end.

(** [_determine_data_source]: [data_files] is [None] or a list. *)
Definition _determine_data_source (parsed_content : ParsedContent.t)
    (data_files : option (list DataFileInfo.t)) : DataSourceType :=
  let files := default [] data_files in
  if existsb (fun f => bool_decide (DataFileInfo.file_type f = p{"excel"})) files
  then EXCEL_FILE
  else if existsb (fun f => bool_decide (DataFileInfo.file_type f = p{"csv"})) files
  then CSV_FILE
  else
    match ParsedContent.tables parsed_content with
    | _ :: _ => PDF_EMBEDDED
    | [] => NO_DATA
    end.

(** [type_mapping.get(label, ThesisType.OTHER)] for a [str] label. *)
Definition thesis_type_of_label (label : pystr) : ThesisType :=
  if bool_decide (label = p{"empirical"}) then EMPIRICAL
  else if bool_decide (label = p{"simulation"}) then SIMULATION
  else if bool_decide (label = p{"algorithm"}) then ALGORITHM
  else if bool_decide (label = p{"system_design"}) then SYSTEM_DESIGN
  else if bool_decide (label = p{"data_analysis"}) then DATA_ANALYSIS
  else if bool_decide (label = p{"machine_learning"}) then MACHINE_LEARNING
  else OTHER.

(** The same lookup for any decoded value: a list or a dict cannot be
    hashed, and no key of the mapping equals a value that is not a
    string. *)
Definition thesis_type_of (v : json) : result ThesisType :=
  match v with
  | JStr label => Ok (thesis_type_of_label label)
  | JList _ | JDict _ => Raise TypeError
  | _ => Ok OTHER
  end.

(** The dict [_analyze_thesis_type] returns: the decoded object, in which
    the entry [type] has been replaced by a [ThesisType]. [entries] holds
    the other entries. *)
Record ThesisAnalysis := {
  type_ : ThesisType;
  entries : list (pystr * json)
}.

Definition default_analysis : ThesisAnalysis :=
  {| type_ := OTHER;
     entries := [(p{"method"}, JStr []); (p{"summary"}, JStr [])] |}.

(** [thesis_analysis.get(key, dflt)] for a key other than [type]. *)
Definition analysis_get (a : ThesisAnalysis) (key : pystr) (dflt : json) : json :=
  default dflt (Py.dict_lookup key (entries a)).

(** [chat] is the outcome of [self.llm.simple_chat(prompt)]. *)
Definition _analyze_thesis_type (lim : PyJson.limits)
    (chat : result (option pystr)) : ThesisAnalysis :=
  try_except
    (response ← chat;
     data ← load_json lim response;
     label ← CoderAgent.py_get data p{"type"} (JStr []);
     ty ← thesis_type_of label;
     match data with
     | JDict d =>
         Ok {| type_ := ty;
               entries := List.filter (fun kv => negb (Py.str_eqb kv.1 p{"type"})) d |}
     | _ => Raise AttributeError
     end)
    (fun _ => default_analysis).

(** [str.lower()] on the letters A to Z. The keys of the mapping below are
    ASCII and hold no [k], the one ASCII letter that a character outside
    ASCII lowers to, so the lookup cannot tell this from the full
    [lower]. *)
Definition ascii_lower (s : pystr) : pystr :=
  (fun c => if ((65 <=? c) && (c <=? 90))%N then (c + 32)%N else c) <$> s.

Definition _parse_task_type (type_str : pystr) : CodeTaskType :=
  let s := ascii_lower type_str in
  if bool_decide (s = p{"data_preprocessing"}) then DATA_PREPROCESSING
  else if bool_decide (s = p{"data_analysis"}) then TASK_DATA_ANALYSIS
  else if bool_decide (s = p{"model_training"}) then MODEL_TRAINING
  else if bool_decide (s = p{"visualization"}) then VISUALIZATION
  else if bool_decide (s = p{"algorithm_impl"}) then ALGORITHM_IMPL
  else if bool_decide (s = p{"statistical_test"}) then STATISTICAL_TEST
  else if bool_decide (s = p{"simulation"}) then TASK_SIMULATION
  else UTILITY.

(** An [Optional[str]] field of a model class. *)
Definition as_opt_str (v : json) : result (option pystr) :=
  match v with
  | JNull => Ok None
  | JStr s => Ok (Some s)
  | _ => Raise ValidationError
  end.

(** A [List[str]] field of a model class. *)
Definition as_list_of_str (v : json) : result (list pystr) :=
  match v with
  | JList l => CoderAgent.as_str_list l
  | _ => Raise ValidationError
  end.

Section analyzer.

(** The first eight hexadecimal digits of a fresh [uuid4], for the task at
    position [i]. *)
Variable new_id : nat -> pystr.
(** The validation of the [int] field [priority] by the model class. *)
Variable validate_int : json -> result Z.

(** One pass of the loop over [data.get("tasks", [])]. *)
Definition make_task (i : nat) (task_data : json) : result CodeTask.t :=
  type_str ← CoderAgent.py_get task_data p{"task_type"} (JStr []);
  task_type ← match type_str with
              | JStr s => Ok (_parse_task_type s)
              | _ => Raise AttributeError
              end;
  title ← CoderAgent.py_get task_data p{"title"}
            (JStr (p{"任务"} ++ Py.str_of_int (Z.of_nat i + 1)));
  description ← CoderAgent.py_get task_data p{"description"} (JStr []);
  requirements ← CoderAgent.py_get task_data p{"requirements"} (JList []);
  input_data ← CoderAgent.py_get task_data p{"input_data"} JNull;
  expected_output ← CoderAgent.py_get task_data p{"expected_output"} JNull;
  priority ← CoderAgent.py_get task_data p{"priority"} (JInt (Z.of_nat i));
  title ← CoderAgent.as_str title;
  description ← CoderAgent.as_str description;
  requirements ← as_list_of_str requirements;
  input_data ← as_opt_str input_data;
  expected_output ← as_opt_str expected_output;
  priority ← validate_int priority;
  Ok {| CodeTask.task_id := p{"task_"} ++ new_id i;
        CodeTask.task_type := task_type;
        CodeTask.title := title;
        CodeTask.description := description;
        CodeTask.requirements := requirements;
        CodeTask.dependencies := [];
        CodeTask.input_data := input_data;
        CodeTask.expected_output := expected_output;
        CodeTask.priority := priority |}.

Fixpoint make_tasks (i : nat) (l : list json) : result (list CodeTask.t) :=
  match l with
  | [] => Ok []
  | task_data :: r =>
      task ← make_task i task_data;
      rest ← make_tasks (S i) r;
      Ok (task :: rest)
  end.

(** [enumerate(tasks)] over a decoded value. A string or a dict that is
    not empty yields strings, which have no [get]; a value that cannot be
    iterated raises; an empty string or dict yields nothing. *)
Definition tasks_of (tasks : json) : result (list CodeTask.t) :=
  match tasks with
  | JList l => make_tasks 0 l
  | JStr [] | JDict [] => Ok []
  | JStr _ | JDict _ => Raise AttributeError
  | _ => Raise TypeError
  end.

Definition _generate_code_tasks (lim : PyJson.limits)
    (chat : result (option pystr)) : list CodeTask.t :=
  try_except
    (response ← chat;
     data ← load_json lim response;
     tasks ← CoderAgent.py_get data p{"tasks"} (JList []);
     tasks_of tasks)
    (fun _ => []).

End analyzer.

Definition default_tech_stack : json :=
  JList [JStr p{"Python"}; JStr p{"Pandas"}; JStr p{"NumPy"}].

Definition default_libraries : json :=
  JList [JStr p{"pandas"}; JStr p{"numpy"}; JStr p{"matplotlib"};
         JStr p{"scikit-learn"}].

(** Returns [(tech_stack, libraries)], two decoded values that nothing has
    validated yet. *)
Definition _determine_tech_stack (lim : PyJson.limits)
    (chat : result (option pystr)) : json * json :=
  try_except
    (response ← chat;
     data ← load_json lim response;
     tech_stack ← CoderAgent.py_get data p{"tech_stack"} (JList []);
     libraries ← CoderAgent.py_get data p{"libraries"} (JList []);
     Ok (tech_stack, libraries))
    (fun _ => (default_tech_stack, default_libraries)).

End AnalyzerAgent.

(** ** app/agents/parser_agent.py *)

Module ParserAgent.

(** What the code reads of an HTTP response: [status] and [json()]. *)
Record HttpResponse := { status : Z; json_body : result json }.

(** The tiers of the conversion, as they are entered. *)
Inductive tier_event :=
| SubmitUrl (url : json)
| Upload (pdf_path : pystr)
| Poll (task_id : json)
| LocalParse (pdf_path : pystr).

(** How one pass of the polling loop ends. *)
Inductive poll_step :=
| Return (v : json)
| Continue.

(** A [Dict[str, str]] field and a [List[Dict[str, Any]]] field of a model
    class. *)
Fixpoint as_str_values (d : list (pystr * json)) : result (list (pystr * pystr)) :=
  match d with
  | [] => Ok []
  | (k, v) :: r => s ← CoderAgent.as_str v; rest ← as_str_values r; Ok ((k, s) :: rest)
  end.

Definition as_dict_of_str (v : json) : result (list (pystr * pystr)) :=
  match v with
  | JDict d => as_str_values d
  | _ => Raise ValidationError
  end.

Fixpoint all_dicts (l : list json) : result (list json) :=
  match l with
  | [] => Ok []
  | JDict d :: r => rest ← all_dicts r; Ok (JDict d :: rest)
  | _ :: _ => Raise ValidationError
  end.

Definition as_list_of_dict (v : json) : result (list json) :=
  match v with
  | JList l => all_dicts l
  | _ => Raise ValidationError
  end.

(** [v == s] for a string [s]. *)
Definition is_str (v : json) (s : pystr) : bool :=
  match v with
  | JStr t => bool_decide (t = s)
  | _ => false
  end.

Section parser.

(** The limits of the interpreter where the agent decodes the model's
    reply. *)
Variable lim : PyJson.limits.
(** Whether the [float] a lexeme denotes is not zero. *)
Variable float_nonzero : pystr -> bool.
(** [os.path.exists] *)
Variable path_exists : pystr -> bool.
(** [session.post(self.mineru_url, json={"url": url, ...})] *)
Variable post_task : json -> result HttpResponse.
(** Opening the file and [session.post(upload_url, data=file_data)]. *)
Variable post_upload : pystr -> result HttpResponse.
(** [session.get(status_url)] at the [k]-th pass of the polling loop. *)
Variable get_status : json -> nat -> result HttpResponse.
(** [session.get(md_url)] and [text()]. *)
Variable get_text : json -> result pystr.
(** The number of passes for which [time.time() - start_time < max_wait]
    holds. *)
Variable polls_allowed : nat.
(** [fitz.open] and [page.get_text("text")] for every page; the import
    may fail as well. *)
Variable fitz_pages : pystr -> result (list pystr).
(** [simple_chat] of the structure prompt, a fixed text around
    [markdown[:8000]], which the oracle takes. *)
Variable simple_chat : json -> result (option pystr).
(** What slicing a value that is not a sequence raises. *)
Variable not_sliceable : exn.

(** Truthiness of a decoded value; [JNull] is [None]. *)
Definition json_truthy (v : json) : bool :=
  match v with
  | JNull => false
  | JBool b => b
  | JInt z => negb (z =? 0)
  | JFloat lexeme => float_nonzero lexeme
  | JStr s => negb (bool_decide (s = []))
  | JList l => match l with [] => false | _ :: _ => true end
  | JDict d => match d with [] => false | _ :: _ => true end
  end.

(** [v != 0] *)
Definition differs_from_zero (v : json) : bool :=
  match v with
  | JBool b => b
  | JInt z => negb (z =? 0)
  | JFloat lexeme => float_nonzero lexeme
  | _ => true
  end.

(** [result.get("data", {}).get(key, dflt)], with [payload] for the
    decoded body [result]. *)
Definition data_get (payload : json) (key : pystr) (dflt : json) : result json :=
  data ← CoderAgent.py_get payload p{"data"} (JDict []);
  CoderAgent.py_get data key dflt.

(** One pass of the loop of [_poll_task_result], inside its [try]. *)
Definition poll_once (task_id : json) (k : nat) : result poll_step :=
  response ← get_status task_id k;
  if negb (status response =? 200) then Ok Continue
  else
    payload ← json_body response;
    st ← data_get payload p{"status"} JNull;
    if is_str st p{"completed"} then
      md_url ← data_get payload p{"markdown_url"} JNull;
      if json_truthy md_url then
        text ← get_text md_url; Ok (Return (JStr text))
      else
        markdown ← data_get payload p{"markdown"} (JStr []);
        Ok (Return markdown)
    else if is_str st p{"failed"} then Ok (Return JNull)
    else Ok Continue.

(** [_poll_task_result]: an exception inside a pass is logged, and the
    loop sleeps and goes on; when the time is up the result is [None]. *)
Fixpoint poll_loop (task_id : json) (remaining k : nat) : json :=
  match remaining with
  | O => JNull
  | S n =>
      match poll_once task_id k with
      | Ok (Return v) => v
      | Ok Continue | Raise _ => poll_loop task_id n (S k)
      end
  end.

Definition _poll_task_result (task_id : json) : json :=
  poll_loop task_id polls_allowed 0.

Definition _submit_url_task (url : json) : list tier_event * json :=
  match
    (response ← post_task url;
     if negb (status response =? 200) then Ok None
     else
       payload ← json_body response;
       task_id ← data_get payload p{"task_id"} JNull;
       if negb (json_truthy task_id) then Ok None else Ok (Some task_id))
  with
  | Ok (Some task_id) => ([SubmitUrl url; Poll task_id], _poll_task_result task_id)
  | Ok None | Raise _ => ([SubmitUrl url], JNull)
  end.

(** What [_upload_and_parse] goes on with after the upload. *)
Inductive upload_next :=
| PollTask (task_id : json)
| SubmitFile (file_url : json)
| GiveUp.

Definition _upload_and_parse (pdf_path : pystr) : list tier_event * json :=
  match
    (response ← post_upload pdf_path;
     if negb (status response =? 200) then Ok GiveUp
     else
       payload ← json_body response;
       code ← CoderAgent.py_get payload p{"code"} JNull;
       if differs_from_zero code then Ok GiveUp
       else
         file_url ← data_get payload p{"url"} JNull;
         task_id ← data_get payload p{"task_id"} JNull;
         if json_truthy task_id then Ok (PollTask task_id)
         else if json_truthy file_url then Ok (SubmitFile file_url)
         else Ok GiveUp)
  with
  | Ok (PollTask task_id) =>
      ([Upload pdf_path; Poll task_id], _poll_task_result task_id)
  | Ok (SubmitFile file_url) =>
      let '(tr, v) := _submit_url_task file_url in (Upload pdf_path :: tr, v)
  | Ok GiveUp | Raise _ => ([Upload pdf_path], JNull)
  end.

(** The page sections of [_local_pdf_parse]: pages are numbered from 1,
    and a page whose text is blank adds nothing. *)
Definition page_sections (pages : list pystr) : list pystr :=
  omap (fun '(page_num, text) =>
          match Py.strip text with
          | [] => None
          | _ :: _ =>
              Some (p{"## 第 "} ++ Py.str_of_int page_num ++ p{" 页"}
                    ++ [10%N; 10%N] ++ text)
          end)
       (Workflow.enumerate1 pages).

Definition _local_pdf_parse (pdf_path : pystr) : list tier_event * json :=
  ([LocalParse pdf_path],
   match fitz_pages pdf_path with
   | Ok pages => JStr (Py.join [10%N; 10%N] (page_sections pages))
   | Raise _ => JNull
   end).

Definition _convert_pdf_to_markdown (pdf_path : pystr) : list tier_event * json :=
  if Py.startswith p{"http"} pdf_path then _submit_url_task (JStr pdf_path)
  else if negb (path_exists pdf_path) then ([], JNull)
  else
    let '(tr1, markdown) := _upload_and_parse pdf_path in
    if json_truthy markdown then (tr1, markdown)
    else
      let '(tr2, v) := _local_pdf_parse pdf_path in (tr1 ++ tr2, v).

(** [ParsedContent(raw_markdown=markdown)]: the field is a [str]. *)
Definition with_raw_markdown (markdown : json) : result ParsedContent.t :=
  match markdown with
  | JStr s => Ok (ParsedContent.of_raw_markdown s)
  | _ => Raise ValidationError
  end.

(** [markdown[:8000]] *)
Definition first_8000 (markdown : json) : result json :=
  match markdown with
  | JStr s => Ok (JStr (Py.slice_to s 8000))
  | JList l => Ok (JList (take (Z.to_nat 8000) l))
  | _ => Raise not_sliceable
  end.

Definition _parse_markdown_structure (markdown : json) : result ParsedContent.t :=
  excerpt ← first_8000 markdown;
  match
    (response ← simple_chat excerpt;
     data ← AnalyzerAgent.load_json lim response;
     title ← CoderAgent.py_get data p{"title"} (JStr []);
     abstract ← CoderAgent.py_get data p{"abstract"} (JStr []);
     keywords ← CoderAgent.py_get data p{"keywords"} (JList []);
     chapters ← CoderAgent.py_get data p{"chapters"} (JDict []);
     tables ← CoderAgent.py_get data p{"tables"} (JList []);
     title ← CoderAgent.as_str title;
     abstract ← CoderAgent.as_str abstract;
     keywords ← AnalyzerAgent.as_list_of_str keywords;
     chapters ← as_dict_of_str chapters;
     tables ← as_list_of_dict tables;
     raw_markdown ← CoderAgent.as_str markdown;
     Ok {| ParsedContent.title := title;
           ParsedContent.abstract := abstract;
           ParsedContent.keywords := keywords;
           ParsedContent.chapters := chapters;
           ParsedContent.tables := tables;
           ParsedContent.figures := [];
           ParsedContent.references := [];
           ParsedContent.raw_markdown := raw_markdown;
           ParsedContent.embedded_data := None |})
  with
  | Ok parsed => Ok parsed
  | Raise _ => with_raw_markdown markdown
  end.

Definition run (pdf_path : pystr) : list tier_event * result ParsedContent.t :=
  let '(tr, markdown_content) := _convert_pdf_to_markdown pdf_path in
  if negb (json_truthy markdown_content) then
    (tr, Ok (ParsedContent.of_raw_markdown []))
  else (tr, _parse_markdown_structure markdown_content).

End parser.

End ParserAgent.

(** ** Predicates for the further properties *)

(** An opening and a closing bracket of a JSON value. *)
Definition is_open (c : N) : bool := ((c =? 123) || (c =? 91))%N.
Definition is_close (c : N) : bool := ((c =? 125) || (c =? 93))%N.

(** The seconds slept in a trace of [chat]. *)
Definition total_sleep (tr : list LLM.event) : Z :=
  foldr (fun ev acc => match ev with LLM.Sleep s => s + acc | LLM.Create _ => acc end) 0 tr.

(** The tasks of a list whose generation request comes back with code;
    [n] is the position of the first of them in the sorted list. *)
Fixpoint tasks_with_code (lim : PyJson.limits)
    (chat_for_task : nat -> CodeTask.t -> result (option LLM.Response))
    (n : nat) (tasks : list CodeTask.t) : list CodeTask.t :=
  match tasks with
  | [] => []
  | task :: rest =>
      match CoderAgent._generate_code_for_task lim chat_for_task n task with
      | Some _ => task :: tasks_with_code lim chat_for_task (S n) rest
      | None => tasks_with_code lim chat_for_task (S n) rest
      end
  end.

(** ** [ValidatorAgent.run] *)

Module ValidatorRun.

Section run.

Variable ast_parse : pystr -> result (list ValidatorAgent.ast_node).
Variable str_of_exn : exn -> pystr.
(** [llm.simple_chat(prompt)] at the [n]-th repair request for the
    artifact at position [i]. *)
Variable simple_chat : nat -> nat -> pystr -> result (option pystr).
Variable max_retries : Z.

(** The loop [for code in generated_codes], from position [i] on. An
    exception of a validation ends the run. *)
Fixpoint run_from (i : nat) (generated_codes : list GeneratedCode.t) :
  result (list ValidationResult.t) :=
  match generated_codes with
  | [] => Ok []
  | code :: rest =>
      res ← (ValidatorAgent._validate_single_code ast_parse str_of_exn
               (simple_chat i) max_retries code).2;
      results ← run_from (S i) rest;
      Ok (res :: results)
  end.

Definition run (generated_codes : list GeneratedCode.t) :
  result (list ValidationResult.t) :=
  run_from 0 generated_codes.

(** The outcome of a validation that ends with the text [current_code]
    passing the checks. *)
Definition valid_outcome (code : GeneratedCode.t) (current_code : pystr) :
  ValidationResult.t :=
  {| ValidationResult.task_id := GeneratedCode.task_id code;
     ValidationResult.is_valid := true;
     ValidationResult.syntax_check := true;
     ValidationResult.import_check := true;
     ValidationResult.execution_check := false;
     ValidationResult.error_message := None;
     ValidationResult.suggestions :=
       (ValidatorAgent._static_analysis ast_parse str_of_exn current_code).2;
     ValidationResult.fixed_code :=
       if bool_decide (current_code ≠ GeneratedCode.code code)
       then Some current_code else None |}.

(** The outcome when the loop condition fails. *)
Definition exceeded_outcome (code : GeneratedCode.t) : ValidationResult.t :=
  {| ValidationResult.task_id := GeneratedCode.task_id code;
     ValidationResult.is_valid := false;
     ValidationResult.syntax_check := true;
     ValidationResult.import_check := true;
     ValidationResult.execution_check := false;
     ValidationResult.error_message :=
       Some (p{"超过最大重试次数("} ++ Py.str_of_int max_retries ++ p{")"});
     ValidationResult.suggestions := [p{"代码存在问题，请手动检查"}];
     ValidationResult.fixed_code := None |}.

(** The outcome when the syntax check fails and no repair comes back. *)
Definition syntax_error_outcome (code : GeneratedCode.t)
    (syntax_error : option pystr) : ValidationResult.t :=
  {| ValidationResult.task_id := GeneratedCode.task_id code;
     ValidationResult.is_valid := false;
     ValidationResult.syntax_check := false;
     ValidationResult.import_check := true;
     ValidationResult.execution_check := false;
     ValidationResult.error_message := syntax_error;
     ValidationResult.suggestions := [p{"请检查代码语法"}];
     ValidationResult.fixed_code := None |}.

(** The message [_check_syntax] makes of a [SyntaxError]. *)
Definition syntax_message (lineno : option Z) (msg : pystr) : pystr :=
  p{"第"} ++ default p{"None"} (Py.str_of_int <$> lineno) ++ p{"行: "} ++ msg.

End run.

(** What [_apply_fixes] makes of an artifact and the result of its own
    validation. *)
Definition apply_fix (code : GeneratedCode.t) (res : ValidationResult.t) :
  GeneratedCode.t :=
  if truthy (ValidationResult.fixed_code res) then
    {| GeneratedCode.task_id := GeneratedCode.task_id code;
       GeneratedCode.file_name := GeneratedCode.file_name code;
       GeneratedCode.code := default [] (ValidationResult.fixed_code res);
       GeneratedCode.description := GeneratedCode.description code;
       GeneratedCode.dependencies := GeneratedCode.dependencies code |}
  else code.

End ValidatorRun.

(** A function whose documentation is there and not empty. *)
Definition documented (n : ValidatorAgent.ast_node) : bool :=
  match n with
  | ValidatorAgent.FunctionDef _ doc => truthy doc
  | _ => true
  end.

(** An event of a remote tier. *)
Definition is_remote (ev : ParserAgent.tier_event) : bool :=
  match ev with
  | ParserAgent.LocalParse _ => false
  | _ => true
  end.

(** What a pass of the polling loop returns, if it returns. *)
Definition returned (step : result ParserAgent.poll_step) : option json :=
  match step with
  | Ok (ParserAgent.Return v) => Some v
  | _ => None
  end.

(** A page with some text that is not blank, and the section the local
    extraction makes of the page with number [page_num]. *)
Definition nonblank (text : pystr) : bool :=
  match Py.strip text with [] => false | _ :: _ => true end.

Definition page_section (page_num : Z) (text : pystr) : pystr :=
  p{"## 第 "} ++ Py.str_of_int page_num ++ p{" 页"} ++ [10%N; 10%N] ++ text.

(** The sections of the pages numbered from [k] on. *)
Fixpoint sections_from (k : Z) (pages : list pystr) : list pystr :=
  match pages with
  | [] => []
  | text :: rest =>
      (if nonblank text then [page_section k text] else [])
      ++ sections_from (k + 1) rest
  end.

(** ** Scenarios: concrete oracles for the examples *)

Module Scenario.

(** An interpreter with the default settings, a few frames deep. *)
Definition limits : PyJson.limits :=
  {| PyJson.recursion_left := 990; PyJson.int_max_str_digits := 4300 |}.

Definition broken_source : pystr := p{"print(1"}.

(** A parser that rejects the broken source and accepts any other text. *)
Definition ast_parse (code : pystr) : result (list ValidatorAgent.ast_node) :=
  if bool_decide (code = broken_source)
  then Raise (SyntaxError (Some 1) p{"'(' was never closed"})
  else Ok [ValidatorAgent.OtherNode].

Definition str_of_exn (e : exn) : pystr := p{"error"}.

(** A model that answers every repair request with the closed call. *)
Definition simple_chat (n : nat) (prompt : pystr) : result (option pystr) :=
  Ok (Some p{"```python
print(1)
```"}).

(** A model that answers with an empty fenced block. *)
Definition simple_chat_empty (n : nat) (prompt : pystr) : result (option pystr) :=
  Ok (Some p{"```python
```"}).

Definition artifact : GeneratedCode.t :=
  {| GeneratedCode.task_id := p{"task_1"};
     GeneratedCode.file_name := p{"utility.py"};
     GeneratedCode.code := broken_source;
     GeneratedCode.description := p{"prints"};
     GeneratedCode.dependencies := [] |}.

(** A model that answers every generation request in prose with one
    fenced block, and one that answers with a tool call. *)
Definition prose_response : LLM.Response :=
  {| LLM.choices :=
       [ {| LLM.content := Some p{"Here is the code:
```python
pass
```"};
            LLM.tool_calls := None |} ] |}.

Definition tool_response : LLM.Response :=
  {| LLM.choices :=
       [ {| LLM.content := None;
            LLM.tool_calls :=
              Some [ {| LLM.function_name := p{"generate_code"};
                        LLM.function_arguments :=
                          q{"{'code': 'x = 1', 'file_name': 'a.py', 'description': 'd', 'dependencies': '[\'numpy\', \'pandas\']'}"} |} ] |} ] |}.

Definition chat_for_task (n : nat) (task : CodeTask.t) : result (option LLM.Response) :=
  Ok (Some prose_response).

Definition chat_for_main (codes : list GeneratedCode.t) : result (option LLM.Response) :=
  Ok (Some prose_response).

(** A model that answers the request for a task with a tool call, and
    names the file after the task. *)
Definition chat_for_task_named (n : nat) (task : CodeTask.t) :
  result (option LLM.Response) :=
  Ok (Some
        {| LLM.choices :=
             [ {| LLM.content := None;
                  LLM.tool_calls :=
                    Some [ {| LLM.function_name := p{"generate_code"};
                              LLM.function_arguments :=
                                q{"{'code': 'pass', 'file_name': '"}
                                ++ CodeTask.task_id task
                                ++ q{".py', 'description': 'd'}"} |} ] |} ] |}).

Definition task (id : string) (priority : Z) : CodeTask.t :=
  {| CodeTask.task_id := Py.lit id;
     CodeTask.task_type := UTILITY;
     CodeTask.title := Py.lit id;
     CodeTask.description := [];
     CodeTask.requirements := [];
     CodeTask.dependencies := [];
     CodeTask.input_data := None;
     CodeTask.expected_output := None;
     CodeTask.priority := priority |}.

Definition analysis (tasks : list CodeTask.t) : AnalysisResult.t :=
  {| AnalysisResult.thesis_type := OTHER;
     AnalysisResult.research_method := [];
     AnalysisResult.code_tasks := tasks;
     AnalysisResult.tech_stack := [];
     AnalysisResult.libraries := [];
     AnalysisResult.summary := [] |}.

(** A document service that is unavailable at the first status request,
    drops the connection at the second, reports the task in progress at
    the third and completed, with the text inline, from the fourth on. *)
Definition status_body (status : pystr) (fields : list (pystr * json)) : result json :=
  Ok (JDict [(p{"code"}, JInt 0);
             (p{"data"}, JDict ((p{"status"}, JStr status) :: fields))]).

Definition get_status (task_id : json) (k : nat) : result ParserAgent.HttpResponse :=
  match k with
  | 0%nat => Ok {| ParserAgent.status := 503; ParserAgent.json_body := Raise ValueError |}
  | 1%nat => Raise (ServiceError 0)
  | 2%nat => Ok {| ParserAgent.status := 200;
                   ParserAgent.json_body := status_body p{"running"} [] |}
  | _ => Ok {| ParserAgent.status := 200;
               ParserAgent.json_body :=
                 status_body p{"completed"} [(p{"markdown"}, JStr p{"# Title"})] |}
  end.

(** A second artifact, with another task id and a source that parses. *)
Definition artifact_ok : GeneratedCode.t :=
  {| GeneratedCode.task_id := p{"task_2"};
     GeneratedCode.file_name := p{"analysis.py"};
     GeneratedCode.code := p{"x = 1"};
     GeneratedCode.description := p{"assigns"};
     GeneratedCode.dependencies := [] |}.

(** A document service that is down and a machine without the local
    extraction library. *)
Definition service_down {A B} (x : A) : result B := Raise (ServiceError 503).

Definition run_offline (pdf_path : pystr) :
  list ParserAgent.tier_event * result ParsedContent.t :=
  ParserAgent.run limits (fun _ => true) (fun _ => true) service_down service_down
    (fun _ => service_down) service_down 60 (fun _ => Raise ImportError)
    service_down TypeError pdf_path.

End Scenario.
Example strip_fences_ex :
JsonUtils.strip_code_fences p{"```json
{}
``` "} = p{"{}"}.
Proof. vm_compute. reflexivity. Qed.

Example blob_ex :
JsonUtils.extract_json_blob p{"Sure: [1, {}] ok"} = p{"[1, {}]"}.
Proof. vm_compute. reflexivity. Qed.

(** ** Substring facts about the string primitives *)

Section substrings.

(** [infix_of t s]: [t] occurs in [s] as a contiguous block. *)
Definition infix_of (t s : pystr) : Prop := exists pre post, s = pre ++ t ++ post.

Lemma infix_of_refl s : infix_of s s.
Proof. exists [], []. by rewrite app_nil_r. Qed.

Lemma infix_of_trans t u s : infix_of t u -> infix_of u s -> infix_of t s.
Proof.
  intros (p1 & q1 & ->) (p2 & q2 & ->).
  exists (p2 ++ p1), (q1 ++ q2). by rewrite -!app_assoc.
Qed.

Lemma lstrip_suffix s : exists pre, s = pre ++ Py.lstrip s.
Proof.
  induction s as [|c r [pre IH]]; first by exists [].
  simpl. destruct (Py.isspace c).
  - exists (c :: pre). by rewrite /= -IH.
  - by exists [].
Qed.

Lemma rstrip_prefix s : exists post, s = Py.rstrip s ++ post.
Proof.
  unfold Py.rstrip. destruct (lstrip_suffix (rev s)) as [pre Hpre].
  exists (rev pre).
  rewrite -rev_app_distr -Hpre. by rewrite rev_involutive.
Qed.

Lemma strip_infix s : infix_of (Py.strip s) s.
Proof.
  unfold Py.strip.
  destruct (lstrip_suffix s) as [pre Hpre].
  destruct (rstrip_prefix (Py.lstrip s)) as [post Hpost].
  exists pre, post. by rewrite -Hpost.
Qed.

Lemma slice_from_infix s i : infix_of (Py.slice_from s i) s.
Proof.
  unfold Py.slice_from.
  set (n := Z.to_nat _).
  exists (take n s), []. by rewrite app_nil_r take_drop.
Qed.

Lemma slice_to_infix s j : infix_of (Py.slice_to s j) s.
Proof.
  unfold Py.slice_to.
  set (n := Z.to_nat _).
  exists [], (drop n s). by rewrite /= take_drop.
Qed.

End substrings.

(** C9. For every input text, [extract_json_blob] returns a contiguous
    substring of the fence-stripped input: it drops a prefix and a suffix
    and puts in no character of its own. *)
Theorem extract_json_blob_is_substring (text : pystr) :
  infix_of (JsonUtils.extract_json_blob text) (JsonUtils.strip_code_fences text).
Proof.
  unfold JsonUtils.extract_json_blob.
  eapply infix_of_trans; first apply strip_infix.
  eapply infix_of_trans; first apply slice_to_infix.
  apply slice_from_infix.
Qed.

Example json_loads_ex1 :
  PyJson.json_loads Scenario.limits q{"{'a': [1, 2.5], 'b': {'c': null}, 'a': true}"}
  = Ok (JDict [(p{"a"}, JBool true); (p{"b"}, JDict [(p{"c"}, JNull)])]).
Proof. vm_compute. reflexivity. Qed.

Example json_loads_ex2 :
  PyJson.json_loads Scenario.limits q{"[-12, 2.5e3, 'x\né', false]"}
  = Ok (JList [JInt (-12); JFloat p{"2.5e3"}; JStr [120; 10; 233]%N; JBool false]).
Proof. vm_compute. reflexivity. Qed.

Example json_loads_ex3 :
  PyJson.json_loads Scenario.limits p{"[1,]"} = Raise JSONDecodeError.
Proof. vm_compute. reflexivity. Qed.

Example json_loads_ex4 :
  PyJson.json_loads Scenario.limits p{"01"} = Raise JSONDecodeError.
Proof. vm_compute. reflexivity. Qed.

(** An integer of 4300 digits is decoded, one of 4301 digits is refused by
    [int], with or without a sign; a float of any length is decoded. *)
Example json_loads_ex5 :
  (exists z, PyJson.json_loads Scenario.limits (replicate 4300 49%N) = Ok (JInt z)) /\
  PyJson.json_loads Scenario.limits (replicate 4301 49%N) = Raise ValueError /\
  PyJson.json_loads Scenario.limits (45%N :: replicate 4301 49%N) = Raise ValueError /\
  PyJson.json_loads Scenario.limits (replicate 4301 49%N ++ p{".0"})
  = Ok (JFloat (replicate 4301 49%N ++ p{".0"})).
Proof.
  split; first by (eexists; vm_compute).
  repeat split; by vm_compute.
Qed.

(** Nesting: three arrays one inside the other need a recursion depth of
    three, whatever they hold, and the error comes before the text is
    found to be malformed. *)
Example json_loads_ex6 :
  let lim depth := {| PyJson.recursion_left := depth; PyJson.int_max_str_digits := 4300 |} in
  PyJson.json_loads (lim 3%nat) p{"[[[]]]"} = Ok (JList [JList [JList []]]) /\
  PyJson.json_loads (lim 2%nat) p{"[[[]]]"} = Raise RecursionError /\
  PyJson.json_loads (lim 2%nat) p{"[[["} = Raise RecursionError /\
  PyJson.json_loads (lim 0%nat) p{"{}"} = Raise RecursionError /\
  PyJson.json_loads (lim 0%nat) p{"7"} = Ok (JInt 7).
Proof. intros lim. repeat split; by vm_compute. Qed.

(** ** The fuel of the decoder *)

Section decoder_fuel.

Variable lim : PyJson.limits.

Lemma skip_ws_length s : (length (PyJson.skip_ws s) <= length s)%nat.
Proof.
  induction s as [|c r IH]; first done.
  cbn [PyJson.skip_ws]. destruct (PyJson.is_ws c); cbn [length]; lia.
Qed.

Lemma span_digits_length s : (length (PyJson.span_digits s).2 <= length s)%nat.
Proof.
  induction s as [|c r IH]; first done.
  cbn [PyJson.span_digits]. destruct (PyJson.is_digit c); last done.
  destruct (PyJson.span_digits r) as [d rest]. cbn [snd length] in *. lia.
Qed.

Ltac outer_match H pat name :=
  match type of H with
  | (match ?x with _ => _ end) = _ => destruct x as pat eqn:name
  end.

Lemma match_number_length s integer frac exp rest :
  PyJson.match_number s = Some (integer, frac, exp, rest) ->
  (length rest < length s)%nat.
Proof.
  unfold PyJson.match_number. intros H.
  outer_match H ipattern:([sign s1]) Hsign.
  outer_match H ipattern:([[ds s2]|]) Hint; last done.
  outer_match H ipattern:([frac' s3]) Hfrac.
  outer_match H ipattern:([exp' s4]) Hexp.
  injection H as <- <- <- <-.
  assert (length s1 <= length s)%nat.
  { destruct s as [|c r]; first by simplify_eq.
    destruct (c =? PyJson.ord "-")%N; simplify_eq; cbn [length]; lia. }
  assert (length s2 < length s1)%nat.
  { destruct s1 as [|c r]; first done.
    destruct (c =? PyJson.ord "0")%N; first by (simplify_eq; cbn [length]; lia).
    destruct (PyJson.is_digit c) eqn:Hd; last done.
    injection Hint as Hspan. cbn [PyJson.span_digits] in Hspan. rewrite Hd in Hspan.
    pose proof (span_digits_length r) as Hr.
    destruct (PyJson.span_digits r) as [d rest]. simplify_eq. cbn [snd length] in *. lia. }
  assert (length s3 <= length s2)%nat.
  { destruct s2 as [|c r]; first by simplify_eq.
    destruct (c =? PyJson.ord ".")%N; last by simplify_eq.
    pose proof (span_digits_length r) as Hr.
    destruct (PyJson.span_digits r) as [[|d fd] r'];
      simplify_eq; cbn [snd length] in *; lia. }
  assert (length s4 <= length s3)%nat.
  { destruct s3 as [|c r]; first by simplify_eq.
    destruct ((c =? PyJson.ord "e")%N || (c =? PyJson.ord "E")%N);
      last by simplify_eq.
    outer_match Hexp ipattern:([sg r1]) Hsg.
    assert (length r1 <= length r)%nat.
    { destruct r as [|d r']; first by simplify_eq.
      destruct ((d =? PyJson.ord "-")%N || (d =? PyJson.ord "+")%N);
        simplify_eq; cbn [length]; lia. }
    pose proof (span_digits_length r1) as Hr.
    destruct (PyJson.span_digits r1) as [[|d ed] r2];
      simplify_eq; cbn [snd length] in *; lia. }
  lia.
Qed.

Lemma hex4_length s uni rest :
  PyJson.hex4 s = Some (uni, rest) -> (length rest < length s)%nat.
Proof.
  unfold PyJson.hex4. intros H. repeat case_match; simplify_eq.
  cbn [length]. lia.
Qed.

Lemma scanstring_length f : forall acc s str rest,
  PyJson.scanstring f acc s = Ok (str, rest) -> (length rest < length s)%nat.
Proof.
  induction f as [|f IH]; intros acc s str rest; first done.
  cbn [PyJson.scanstring].
  destruct s as [|c r]; first done.
  destruct (c =? PyJson.dquote)%N; first by (intros [= <- <-]; cbn [length]; lia).
  destruct (c =? PyJson.ord "\")%N.
  - destruct r as [|esc r1]; first done.
    destruct (esc =? PyJson.ord "u")%N.
    + destruct (PyJson.hex4 r1) as [[uni r2]|] eqn:Hhex; last done.
      apply hex4_length in Hhex.
      destruct (_ && _ && _)%bool.
      * destruct (PyJson.hex4 (drop 2 r2)) as [[uni2 r3]|] eqn:Hhex2; last done.
        apply hex4_length in Hhex2. rewrite length_drop in Hhex2.
        destruct (_ && _)%bool; intros H%IH; cbn [length]; lia.
      * intros H%IH; cbn [length]; lia.
    + destruct (PyJson.backslash esc); last done.
      intros H%IH; cbn [length]; lia.
  - destruct (c <? 32)%N; first done.
    intros H%IH; cbn [length]; lia.
Qed.

(** With at least as much fuel as the text is long, the fuel plays no
    part in [scanstring]. *)
Lemma scanstring_fuel f1 : forall f2 acc s,
  (length s <= f1)%nat -> (length s <= f2)%nat ->
  PyJson.scanstring f1 acc s = PyJson.scanstring f2 acc s.
Proof.
  induction f1 as [|f1 IH]; intros f2 acc s Hf1 Hf2.
  { destruct s as [|c r]; last by (cbn [length] in Hf1; lia). by destruct f2. }
  destruct f2 as [|f2].
  { destruct s as [|c r]; last by (cbn [length] in Hf2; lia). done. }
  cbn [PyJson.scanstring].
  destruct s as [|c r]; first done. cbn [length] in Hf1, Hf2.
  destruct (c =? PyJson.dquote)%N; first done.
  destruct (c =? PyJson.ord "\")%N.
  - destruct r as [|esc r1]; first done. cbn [length] in Hf1, Hf2.
    destruct (esc =? PyJson.ord "u")%N.
    + destruct (PyJson.hex4 r1) as [[uni r2]|] eqn:Hhex; last done.
      apply hex4_length in Hhex.
      destruct (_ && _ && _)%bool.
      * destruct (PyJson.hex4 (drop 2 r2)) as [[uni2 r3]|] eqn:Hhex2; last done.
        apply hex4_length in Hhex2. rewrite length_drop in Hhex2.
        destruct (_ && _)%bool; apply IH; lia.
      * apply IH; lia.
    + destruct (PyJson.backslash esc); last done. apply IH; lia.
  - destruct (c <? 32)%N; first done. apply IH; lia.
Qed.

Lemma parse_string_length s str rest :
  PyJson.parse_string s = Ok (str, rest) -> (length rest < length s)%nat.
Proof. apply scanstring_length. Qed.

Ltac bind_cases := unfold mbind, result_bind.

(** Every value the scanner returns has used up some of the text. *)
Lemma scan_once_length f :
  (forall d s v rest,
     PyJson.scan_once lim d f s = Ok (v, rest) -> (length rest < length s)%nat) /\
  (forall d acc s v rest,
     PyJson.parse_array lim d f acc s = Ok (v, rest) -> (length rest < length s)%nat) /\
  (forall d acc s v rest,
     PyJson.parse_object lim d f acc s = Ok (v, rest) -> (length rest < length s)%nat).
Proof.
  induction f as [|f (IHs & IHa & IHo)]; first done.
  split; [|split].
  - intros d s v rest. cbn [PyJson.scan_once].
    destruct s as [|c r]; first done.
    destruct (c =? PyJson.dquote)%N.
    { bind_cases. destruct (PyJson.parse_string r) as [[str rest']|] eqn:E; last done.
      apply parse_string_length in E. intros [= <- <-]. cbn [length]. lia. }
    pose proof (skip_ws_length r) as Hws.
    destruct (c =? PyJson.ord "{")%N.
    { destruct d as [|d]; first done.
      destruct (PyJson.skip_ws r) as [|c1 r1]; first done.
      destruct (c1 =? PyJson.ord "}")%N.
      - intros [= <- <-]. cbn [length] in *. lia.
      - intros H%IHo. cbn [length] in *. lia. }
    destruct (c =? PyJson.ord "[")%N.
    { destruct d as [|d]; first done.
      destruct (PyJson.skip_ws r) as [|c1 r1]; first done.
      destruct (c1 =? PyJson.ord "]")%N.
      - intros [= <- <-]. cbn [length] in *. lia.
      - intros H%IHa. cbn [length] in *. lia. }
    destruct (Py.startswith p{"null"} (c :: r));
      first by (intros [= <- <-]; rewrite length_drop; cbn [length]; lia).
    destruct (Py.startswith p{"true"} (c :: r));
      first by (intros [= <- <-]; rewrite length_drop; cbn [length]; lia).
    destruct (Py.startswith p{"false"} (c :: r));
      first by (intros [= <- <-]; rewrite length_drop; cbn [length]; lia).
    destruct (PyJson.match_number (c :: r)) as [[[[integer frac] exp] rest']|] eqn:Hm.
    { apply match_number_length in Hm. bind_cases.
      destruct (PyJson.number_value lim integer frac exp); last done.
      by intros [= <- <-]. }
    destruct (Py.startswith p{"NaN"} (c :: r));
      first by (intros [= <- <-]; rewrite length_drop; cbn [length]; lia).
    destruct (Py.startswith p{"Infinity"} (c :: r));
      first by (intros [= <- <-]; rewrite length_drop; cbn [length]; lia).
    destruct (Py.startswith p{"-Infinity"} (c :: r));
      first by (intros [= <- <-]; rewrite length_drop; cbn [length]; lia).
    done.
  - intros d acc s v rest. cbn [PyJson.parse_array]. bind_cases.
    destruct (PyJson.scan_once lim d f s) as [[value rest0]|] eqn:E; last done.
    apply IHs in E. pose proof (skip_ws_length rest0) as Hws.
    destruct (PyJson.skip_ws rest0) as [|c r]; first done.
    destruct (c =? PyJson.ord "]")%N.
    { intros [= <- <-]. cbn [length] in *. lia. }
    destruct (c =? PyJson.ord ",")%N; last done.
    intros H%IHa. pose proof (skip_ws_length r). cbn [length] in *. lia.
  - intros d acc s v rest. cbn [PyJson.parse_object]. bind_cases.
    destruct s as [|c r]; first done.
    destruct (c =? PyJson.dquote)%N; last done.
    destruct (PyJson.parse_string r) as [[key rest0]|] eqn:E; last done.
    apply parse_string_length in E. pose proof (skip_ws_length rest0) as Hws.
    destruct (PyJson.skip_ws rest0) as [|c1 r1]; first done.
    destruct (c1 =? PyJson.ord ":")%N; last done.
    destruct (PyJson.scan_once lim d f (PyJson.skip_ws r1)) as [[value rest1]|] eqn:E1;
      last done.
    apply IHs in E1. pose proof (skip_ws_length r1) as Hws1.
    pose proof (skip_ws_length rest1) as Hws2.
    destruct (PyJson.skip_ws rest1) as [|c2 r2]; first done.
    destruct (c2 =? PyJson.ord "}")%N.
    { intros [= <- <-]. cbn [length] in *. lia. }
    destruct (c2 =? PyJson.ord ",")%N; last done.
    intros H%IHo. pose proof (skip_ws_length r2). cbn [length] in *. lia.
Qed.

(** With more fuel than twice the length of the text, the fuel plays no
    part in the scanner: the outcome, a value or an exception, is the
    same for every such fuel. *)
Lemma scan_once_fuel f1 : forall f2,
  (forall d s,
     (2 * length s < f1)%nat -> (2 * length s < f2)%nat ->
     PyJson.scan_once lim d f1 s = PyJson.scan_once lim d f2 s) /\
  (forall d acc s,
     (2 * length s + 1 < f1)%nat -> (2 * length s + 1 < f2)%nat ->
     PyJson.parse_array lim d f1 acc s = PyJson.parse_array lim d f2 acc s) /\
  (forall d acc s,
     (2 * length s + 1 < f1)%nat -> (2 * length s + 1 < f2)%nat ->
     PyJson.parse_object lim d f1 acc s = PyJson.parse_object lim d f2 acc s).
Proof.
  induction f1 as [|f1 IH]; intros f2.
  { repeat split; intros; lia. }
  destruct f2 as [|f2].
  { repeat split; intros; lia. }
  destruct (IH f2) as (IHs & IHa & IHo).
  destruct (scan_once_length f1) as (Ls & La & Lo).
  split; [|split].
  - intros d s Hf1 Hf2. cbn [PyJson.scan_once].
    destruct s as [|c r]; first done. cbn [length] in Hf1, Hf2.
    destruct (c =? PyJson.dquote)%N; first done.
    pose proof (skip_ws_length r) as Hws.
    destruct (c =? PyJson.ord "{")%N.
    { destruct d as [|d]; first done.
      destruct (PyJson.skip_ws r) as [|c1 r1]; first done.
      destruct (c1 =? PyJson.ord "}")%N; first done.
      apply IHo; cbn [length] in *; lia. }
    destruct (c =? PyJson.ord "[")%N; last done.
    destruct d as [|d]; first done.
    destruct (PyJson.skip_ws r) as [|c1 r1]; first done.
    destruct (c1 =? PyJson.ord "]")%N; first done.
    apply IHa; cbn [length] in *; lia.
  - intros d acc s Hf1 Hf2. cbn [PyJson.parse_array]. bind_cases.
    rewrite -(IHs d s); [|lia..].
    destruct (PyJson.scan_once lim d f1 s) as [[value rest0]|] eqn:E; last done.
    apply Ls in E. pose proof (skip_ws_length rest0) as Hws.
    destruct (PyJson.skip_ws rest0) as [|c r]; first done.
    destruct (c =? PyJson.ord "]")%N; first done.
    destruct (c =? PyJson.ord ",")%N; last done.
    pose proof (skip_ws_length r). apply IHa; cbn [length] in *; lia.
  - intros d acc s Hf1 Hf2. cbn [PyJson.parse_object]. bind_cases.
    destruct s as [|c r]; first done. cbn [length] in Hf1, Hf2.
    destruct (c =? PyJson.dquote)%N; last done.
    destruct (PyJson.parse_string r) as [[key rest0]|] eqn:E; last done.
    apply parse_string_length in E. pose proof (skip_ws_length rest0) as Hws.
    destruct (PyJson.skip_ws rest0) as [|c1 r1]; first done.
    destruct (c1 =? PyJson.ord ":")%N; last done.
    pose proof (skip_ws_length r1) as Hws1.
    rewrite -(IHs d (PyJson.skip_ws r1)); [|cbn [length] in *; lia..].
    destruct (PyJson.scan_once lim d f1 (PyJson.skip_ws r1)) as [[value rest1]|] eqn:E1;
      last done.
    apply Ls in E1. pose proof (skip_ws_length rest1) as Hws2.
    destruct (PyJson.skip_ws rest1) as [|c2 r2]; first done.
    destruct (c2 =? PyJson.ord "}")%N; first done.
    destruct (c2 =? PyJson.ord ",")%N; last done.
    pose proof (skip_ws_length r2). apply IHo; cbn [length] in *; lia.
Qed.

(** [json_loads] gives the scanner enough fuel: with any larger amount
    the outcome is the same. *)
Lemma json_loads_fuel s fuel :
  (2 * length (PyJson.skip_ws s) < fuel)%nat ->
  PyJson.scan_once lim (PyJson.recursion_left lim) fuel (PyJson.skip_ws s)
  = PyJson.scan_once lim (PyJson.recursion_left lim)
      (S (2 * length (PyJson.skip_ws s))) (PyJson.skip_ws s).
Proof.
  intros Hf. destruct (scan_once_fuel fuel (S (2 * length (PyJson.skip_ws s))))
    as (H & _ & _). apply H; lia.
Qed.

End decoder_fuel.

(** ** The extractor on text without brackets *)

Section no_bracket_text.

Lemma find_from_absent (c : N) s i : c ∉ s -> Py.find_from [c] s i = -1.
Proof.
  revert i. induction s as [|a r IH]; intros i Hc; first done.
  simpl. destruct (N.eqb_spec c a) as [->|Hne].
  - exfalso. apply Hc. left.
  - simpl. apply IH. intros Hin. apply Hc. by right.
Qed.

Lemma rfind_from_absent (c : N) s i : c ∉ s -> Py.rfind_from [c] s i = -1.
Proof.
  revert i. induction s as [|a r IH]; intros i Hc; first done.
  cbn [Py.rfind_from]. rewrite IH; last by (intros Hin; apply Hc; right).
  simpl. destruct (N.eqb_spec c a) as [->|Hne]; last done.
  exfalso. apply Hc. left.
Qed.

Lemma no_brackets_spec s : no_brackets s <-> forall c, c ∈ s -> is_bracket c = false.
Proof.
  unfold no_brackets. rewrite forallb_forall. split.
  - intros H c Hc. apply list_elem_of_In, H in Hc. by destruct (is_bracket c).
  - intros H c Hc. apply list_elem_of_In, H in Hc. by rewrite Hc.
Qed.

Lemma no_brackets_notin s (c : N) : no_brackets s -> is_bracket c = true -> c ∉ s.
Proof.
  intros Hs Hc Hin. pose proof (proj1 (no_brackets_spec s) Hs c Hin). congruence.
Qed.

Lemma no_brackets_infix t s : infix_of t s -> no_brackets s -> no_brackets t.
Proof.
  intros (pre & post & ->) H. apply no_brackets_spec. intros c Hc.
  apply (proj1 (no_brackets_spec _) H c).
  rewrite !elem_of_app. auto.
Qed.

(** [lstrip] and [rstrip] on text that already starts, or ends, right. *)
Lemma lstrip_idemp s : Py.lstrip (Py.lstrip s) = Py.lstrip s.
Proof.
  induction s as [|c r IH]; first done.
  simpl. destruct (Py.isspace c) eqn:E; first done. by rewrite /= E.
Qed.

Lemma lstrip_snoc l c : Py.isspace c = false -> Py.lstrip (l ++ [c]) = Py.lstrip l ++ [c].
Proof.
  intros Hc. induction l as [|a l IH]; first by rewrite /= Hc.
  simpl. by destruct (Py.isspace a).
Qed.

Lemma rstrip_cons c r : Py.isspace c = false -> Py.rstrip (c :: r) = c :: Py.rstrip r.
Proof.
  intros Hc. unfold Py.rstrip. simpl.
  by rewrite lstrip_snoc // rev_app_distr.
Qed.

Lemma rstrip_idemp s : Py.rstrip (Py.rstrip s) = Py.rstrip s.
Proof. unfold Py.rstrip. by rewrite rev_involutive lstrip_idemp. Qed.

Lemma lstrip_rstrip_lstrip s : Py.lstrip (Py.rstrip (Py.lstrip s)) = Py.rstrip (Py.lstrip s).
Proof.
  induction s as [|c r IH]; first done.
  simpl. destruct (Py.isspace c) eqn:E; first done.
  by rewrite rstrip_cons //= E.
Qed.

Lemma strip_idemp s : Py.strip (Py.strip s) = Py.strip s.
Proof. unfold Py.strip. by rewrite lstrip_rstrip_lstrip rstrip_idemp. Qed.

End no_bracket_text.

Section fence_stripping_chars.

(** Every character of a line of [splitlines] comes from the text. *)
Lemma splitlines_aux_chars s : forall cur line c,
  line ∈ Py.splitlines_aux cur s -> c ∈ line -> c ∈ cur \/ c ∈ s.
Proof.
  remember (length s) as n eqn:Hn. revert s Hn.
  induction n as [n IH] using lt_wf_ind. intros s -> cur line c.
  assert (Hcur : forall l : pystr, l ∈ [rev cur] -> c ∈ l -> c ∈ cur).
  { intros l ->%list_elem_of_singleton Hc.
    by apply list_elem_of_In, in_rev, list_elem_of_In in Hc. }
  destruct s as [|a s']; simpl.
  - destruct cur; first by intros ?%elem_of_nil. intros H1 H2. left. eauto.
  - destruct (a =? 13)%N.
    + destruct s' as [|d s''].
      * intros H1 H2. left. eauto.
      * destruct (d =? 10)%N; intros [->|H1]%elem_of_cons H2.
        -- left. apply Hcur with (rev cur); [left | done].
        -- destruct (IH (length s'') ltac:(simpl; lia) s'' eq_refl [] line c H1 H2)
             as [?%elem_of_nil|?]; first done.
           right. by do 2 right.
        -- left. apply Hcur with (rev cur); [left | done].
        -- destruct (IH (length (d :: s'')) ltac:(simpl; lia) (d :: s'') eq_refl [] line c H1 H2)
             as [?%elem_of_nil|?]; first done.
           right. by right.
    + destruct (Py.is_linebreak a).
      * intros [->|H1]%elem_of_cons H2.
        -- left. apply Hcur with (rev cur); [left | done].
        -- destruct (IH (length s') ltac:(simpl; lia) s' eq_refl [] line c H1 H2)
             as [?%elem_of_nil|?]; first done.
           right. by right.
      * intros H1 H2.
        destruct (IH (length s') ltac:(simpl; lia) s' eq_refl (a :: cur) line c H1 H2)
          as [[->|?]%elem_of_cons|?]; [right; left | by left | right; by right].
Qed.

Lemma join_chars sep parts c :
  c ∈ Py.join sep parts -> c ∈ sep \/ exists p, p ∈ parts /\ c ∈ p.
Proof.
  induction parts as [|p ps IH]; first by intros ?%elem_of_nil.
  destruct ps as [|p' ps].
  - intros Hc. right. exists p. split; [left | done].
  - change (Py.join sep (p :: p' :: ps)) with (p ++ sep ++ Py.join sep (p' :: ps)).
    rewrite !elem_of_app. intros [Hc|[Hc|Hc]].
    + right. exists p. split; [left | done].
    + by left.
    + destruct (IH Hc) as [?|(q & Hq & Hcq)]; first by left.
      right. exists q. split; [by right | done].
Qed.

Lemma rsplit1_head_infix sep s : infix_of (Py.rsplit1_head sep s) s.
Proof.
  unfold Py.rsplit1_head. destruct (_ =? _); [apply infix_of_refl | apply slice_to_infix].
Qed.

Lemma strip_code_fences_no_brackets s :
  no_brackets s -> no_brackets (JsonUtils.strip_code_fences s).
Proof.
  intros Hs. unfold JsonUtils.strip_code_fences.
  eapply no_brackets_infix; first apply strip_infix.
  assert (H1 : no_brackets (Py.strip s))
    by (eapply no_brackets_infix; [apply strip_infix | done]).
  set (c1 := if Py.startswith _ _ then _ else _).
  assert (H2 : no_brackets c1).
  { subst c1. destruct (Py.startswith _ _); last done.
    destruct (1 <? _); last done.
    apply no_brackets_spec. intros c Hc.
    apply join_chars in Hc as [Hc|(p & Hp & Hc)].
    - by apply list_elem_of_singleton in Hc as ->.
    - apply (proj1 (no_brackets_spec _) H1).
      assert (Hp' : p ∈ Py.splitlines (Py.strip s)).
      { by apply (subseteq_drop 1 (Py.splitlines (Py.strip s))). }
      destruct (splitlines_aux_chars _ _ _ _ Hp' Hc) as [?%elem_of_nil|?]; done. }
  destruct (Py.endswith _ _); last done.
  eapply no_brackets_infix; [apply rsplit1_head_infix | done].
Qed.

End fence_stripping_chars.

Section bracket_free_decoding.

Lemma extract_json_blob_no_brackets s :
  no_brackets s -> JsonUtils.extract_json_blob s = JsonUtils.strip_code_fences s.
Proof.
  intros Hs%strip_code_fences_no_brackets.
  unfold JsonUtils.extract_json_blob.
  assert (Hstripped : Py.strip (JsonUtils.strip_code_fences s) = JsonUtils.strip_code_fences s)
    by (unfold JsonUtils.strip_code_fences; apply strip_idemp).
  set (cleaned := JsonUtils.strip_code_fences s) in *.
  change p{"{"} with [123%N]. change p{"["} with [91%N].
  change p{"}"} with [125%N]. change p{"]"} with [93%N].
  unfold Py.find. rewrite !find_from_absent; try by apply no_brackets_notin.
  change (JsonUtils.candidates (-1) (-1)) with (@nil Z). cbv iota.
  assert (Hs0 : Py.slice_from cleaned 0 = cleaned) by done.
  rewrite Hs0. unfold Py.rfind.
  rewrite !rfind_from_absent; try by apply no_brackets_notin.
  change (JsonUtils.candidates (-1) (-1)) with (@nil Z). cbv iota.
  unfold Py.slice_to, Py.len.
  destruct (Z.ltb_spec (Z.of_nat (length cleaned)) 0) as [?|_]; first lia.
  by rewrite Nat2Z.id firstn_all.
Qed.

Lemma scanstring_raises f acc s e :
  PyJson.scanstring f acc s = Raise e -> e = JSONDecodeError.
Proof.
  revert acc s. induction f as [|f IH]; intros acc s; simpl; first by intros [= <-].
  repeat (case_match; try by intros [= <-]); eauto.
Qed.

Lemma no_brackets_cons c s : no_brackets (c :: s) -> is_bracket c = false.
Proof. intros H. apply (proj1 (no_brackets_spec _) H). left. Qed.

Lemma skip_ws_infix s : infix_of (PyJson.skip_ws s) s.
Proof.
  induction s as [|c r (pre & post & IH)]; first apply infix_of_refl.
  simpl. destruct (PyJson.is_ws c); last apply infix_of_refl.
  exists (c :: pre), post. by rewrite /= -IH.
Qed.

Lemma exceeds_max_str_digits_spec lim digits :
  PyJson.exceeds_max_str_digits lim digits = true ->
  0 < PyJson.int_max_str_digits lim < Z.of_nat (length digits).
Proof. unfold PyJson.exceeds_max_str_digits. lia. Qed.

(** What [int] makes of the integer group of a number: a value, or
    [ValueError] when the digit limit is on and the group is longer. *)
Lemma number_value_cases lim integer frac exp :
  (exists v, PyJson.number_value lim integer frac exp = Ok v /\ is_scalar v) \/
  (PyJson.number_value lim integer frac exp = Raise ValueError /\
   frac = None /\ exp = None /\
   0 < PyJson.int_max_str_digits lim < Z.of_nat (length integer)).
Proof.
  unfold PyJson.number_value.
  destruct frac, exp; try by (left; eexists).
  destruct integer as [|c ds]; first by (left; eexists).
  destruct (c =? PyJson.ord "-")%N.
  - destruct (PyJson.exceeds_max_str_digits lim ds) eqn:E; last by (left; eexists).
    right. apply exceeds_max_str_digits_spec in E. simpl. repeat split; lia.
  - destruct (PyJson.exceeds_max_str_digits lim (c :: ds)) eqn:E;
      last by (left; eexists).
    right. apply exceeds_max_str_digits_spec in E. repeat split; lia.
Qed.

(** Without a bracket at its head the scanner takes none of the branches
    that build a container, so the depth it is given plays no part. *)
Lemma scan_once_no_brackets lim d f s :
  no_brackets s ->
  PyJson.scan_once lim d f s = Raise JSONDecodeError \/
  (PyJson.scan_once lim d f s = Raise ValueError /\
   exists integer rest,
     PyJson.match_number s = Some (integer, None, None, rest) /\
     0 < PyJson.int_max_str_digits lim < Z.of_nat (length integer)) \/
  exists v rest, PyJson.scan_once lim d f s = Ok (v, rest) /\ is_scalar v.
Proof.
  intros Hs. destruct f as [|f]; first by left.
  destruct s as [|c r]; first by left.
  apply no_brackets_cons in Hs.
  assert (Hl : (c =? PyJson.ord "{")%N = false).
  { destruct (N.eqb_spec c (PyJson.ord "{")) as [->|]; done. }
  assert (Hr : (c =? PyJson.ord "[")%N = false).
  { destruct (N.eqb_spec c (PyJson.ord "[")) as [->|]; done. }
  cbn [PyJson.scan_once]. rewrite Hl Hr.
  destruct (c =? PyJson.dquote)%N.
  { unfold PyJson.parse_string.
    destruct (PyJson.scanstring _ _ _) as [[str rest]|e] eqn:E; simpl.
    - right; right. by exists (JStr str), rest.
    - left. by rewrite (scanstring_raises _ _ _ _ E). }
  destruct (Py.startswith p{"null"} (c :: r));
    first by (right; right; eexists _, _).
  destruct (Py.startswith p{"true"} (c :: r));
    first by (right; right; eexists _, _).
  destruct (Py.startswith p{"false"} (c :: r));
    first by (right; right; eexists _, _).
  destruct (PyJson.match_number (c :: r)) as [[[[integer frac] exp] rest]|] eqn:Hm.
  - destruct (number_value_cases lim integer frac exp)
      as [(v & -> & Hv)|(-> & -> & -> & Hlen)].
    + right; right. by exists v, rest.
    + right; left. split; first done. by exists integer, rest.
  - repeat (case_match; try by (right; right; eexists _, _)). by left.
Qed.

End bracket_free_decoding.

(** C2, as the code has it. For every input text that holds none of the
    characters [{], [[], [}], []], [load_json_from_response] trims nothing
    but the fences and hands the whole remaining text to the decoder,
    whatever recursion depth the interpreter has left. The call then ends
    in one of three ways: it fails with a parse error; or the text starts
    with an integer that has more digits than the interpreter's limit for
    [int] (4300 by default), and the [ValueError] of [int] comes out; or
    it returns the scalar that this text spells. It never returns an
    object or an array. *)
Theorem load_json_no_brackets_scalar_or_error (lim : PyJson.limits) (response : pystr) :
  no_brackets response ->
  JsonUtils.extract_json_blob response = JsonUtils.strip_code_fences response /\
  JsonLoad.load_json_from_response lim response
    = PyJson.json_loads lim (JsonUtils.strip_code_fences response) /\
  (JsonLoad.load_json_from_response lim response = Raise JSONDecodeError \/
   (JsonLoad.load_json_from_response lim response = Raise ValueError /\
    exists integer rest,
      PyJson.match_number (PyJson.skip_ws (JsonUtils.strip_code_fences response))
      = Some (integer, None, None, rest) /\
      0 < PyJson.int_max_str_digits lim < Z.of_nat (length integer)) \/
   exists v, JsonLoad.load_json_from_response lim response = Ok v /\ is_scalar v).
Proof.
  intros Hs. pose proof (extract_json_blob_no_brackets _ Hs) as Hblob.
  unfold JsonLoad.load_json_from_response. rewrite Hblob.
  set (cleaned := JsonUtils.strip_code_fences response).
  assert (Hc : no_brackets (PyJson.skip_ws cleaned)).
  { eapply no_brackets_infix; first apply skip_ws_infix.
    by apply strip_code_fences_no_brackets. }
  assert (Hload : PyJson.json_loads lim cleaned = Raise JSONDecodeError \/
                  (PyJson.json_loads lim cleaned = Raise ValueError /\
                   exists integer rest,
                     PyJson.match_number (PyJson.skip_ws cleaned)
                     = Some (integer, None, None, rest) /\
                     0 < PyJson.int_max_str_digits lim < Z.of_nat (length integer)) \/
                  exists v, PyJson.json_loads lim cleaned = Ok v /\ is_scalar v).
  { unfold PyJson.json_loads. destruct (Py.startswith _ _); first by left.
    destruct (scan_once_no_brackets lim (PyJson.recursion_left lim)
                (S (2 * length (PyJson.skip_ws cleaned))) _ Hc)
      as [->|[(-> & Hint)|(v & rest & -> & Hv)]]; first by left.
    - right; left. by split.
    - cbn. destruct (PyJson.skip_ws rest); [right; right; by exists v | by left]. }
  split; first done.
  destruct Hload as [->|[(-> & Hint)|(v & -> & Hv)]]; (split; first done).
  - by left.
  - right; left. by split.
  - right; right. by exists v.
Qed.

(** The theorem at a concrete input: prose without any bracket. *)
Lemma load_json_no_brackets_witness :
  no_brackets p{"no data here"} /\
  JsonLoad.load_json_from_response Scenario.limits p{"no data here"}
  = Raise JSONDecodeError.
Proof.
  split; first by vm_compute.
  destruct (load_json_no_brackets_scalar_or_error Scenario.limits p{"no data here"})
    as (_ & -> & _); by vm_compute.
Defined.

(** C2, as stated, fails: a bare number holds no bracket and is returned
    as a value. *)
Lemma load_json_bare_number_returns :
  no_brackets p{"42"} /\
  JsonLoad.load_json_from_response Scenario.limits p{"42"} = Ok (JInt 42).
Proof. split; by vm_compute. Qed.

(** Nor is a parse error the only failure: an integer of 4301 digits holds
    no bracket and makes the call raise the [ValueError] of [int]. *)
Example load_json_long_integer_raises :
  no_brackets (replicate 4301 49%N) /\
  JsonLoad.load_json_from_response Scenario.limits (replicate 4301 49%N)
  = Raise ValueError.
Proof. split; by vm_compute. Qed.

(** ** The retry loop of the model client *)

Section chat_retries.

Variable create : Z -> result LLM.Response.
Variable max_retries : Z.

Lemma chat_loop_spec k : forall a n,
  Z.of_nat n = max_retries - a ->
  (k < n)%nat ->
  (forall i, a <= i < a + Z.of_nat k -> exists e, create i = Raise e) ->
  (forall r, create (a + Z.of_nat k) = Ok r ->
     LLM.chat_loop create max_retries n a = (LLM.attempts_trace a k, Ok (Some r))) /\
  (forall e, a + Z.of_nat k = max_retries - 1 -> create (a + Z.of_nat k) = Raise e ->
     LLM.chat_loop create max_retries n a = (LLM.attempts_trace a k, Raise e)).
Proof.
  induction k as [|k IH]; intros a n Hn Hk Hfail.
  - destruct n as [|n]; first lia. rewrite Z.add_0_r. simpl. split.
    + by intros r ->.
    + intros e Ha ->. destruct (Z.ltb_spec a (max_retries - 1)); [lia | done].
  - destruct n as [|n]; first lia.
    destruct (Hfail a ltac:(lia)) as [e0 He0].
    assert (Hlt : (a <? max_retries - 1) = true) by (apply Z.ltb_lt; lia).
    destruct (IH (a + 1) n ltac:(lia) ltac:(lia)) as [IHok IHerr].
    { intros i Hi. apply Hfail. lia. }
    replace (a + 1 + Z.of_nat k) with (a + Z.of_nat (S k)) in * by lia.
    cbn [LLM.chat_loop LLM.attempts_trace]. rewrite He0 Hlt. split.
    + intros r Hr. by rewrite (IHok r Hr).
    + intros e Ha He. by rewrite (IHerr e Ha He).
Qed.

Lemma chat_loop_calls n : forall a,
  (LLM.count_creates (LLM.chat_loop create max_retries n a).1 <= n)%nat.
Proof.
  unfold LLM.count_creates.
  induction n as [|n IH]; intros a; cbn [LLM.chat_loop]; first done.
  destruct (create a); first (simpl; lia).
  destruct (a <? max_retries - 1); last (simpl; lia).
  specialize (IH (a + 1)). destruct (LLM.chat_loop _ _ _ _). simpl in *. lia.
Qed.

End chat_retries.

(** C6. A call of [chat] whose first [k] attempts fail, [k < max_retries]:
    it sends attempt [0], sleeps [2^0], sends attempt [1], sleeps [2^1],
    and so on up to attempt [k]. If attempt [k] answers, that response is
    returned at once and nothing more is sent; if attempt [k] fails and
    was the last one allowed, its error is raised to the caller. No run
    sends more than [max_retries] requests. *)
Theorem chat_retries_with_backoff
    (create : Z -> result LLM.Response) (max_retries : Z) (k : nat) :
  Z.of_nat k < max_retries ->
  (forall i, 0 <= i < Z.of_nat k -> exists e, create i = Raise e) ->
  (forall r, create (Z.of_nat k) = Ok r ->
     LLM.chat create max_retries = (LLM.attempts_trace 0 k, Ok (Some r))) /\
  (forall e, Z.of_nat k = max_retries - 1 -> create (Z.of_nat k) = Raise e ->
     LLM.chat create max_retries = (LLM.attempts_trace 0 k, Raise e)) /\
  (LLM.count_creates (LLM.chat create max_retries).1 <= Z.to_nat max_retries)%nat.
Proof.
  intros Hk Hfail. unfold LLM.chat.
  destruct (chat_loop_spec create max_retries k 0 (Z.to_nat max_retries))
    as [Hok Herr]; [lia | lia | done |].
  split; [exact Hok | split; [exact Herr | apply chat_loop_calls]].
Qed.

(** Three attempts that all fail: two sleeps of 1 and 2 seconds, then the
    third error reaches the caller. *)
Lemma chat_retries_witness :
  LLM.chat (fun i => Raise (ServiceError (Z.to_N i))) 3
  = ([LLM.Create 0; LLM.Sleep 1; LLM.Create 1; LLM.Sleep 2; LLM.Create 2],
     Raise (ServiceError 2)).
Proof.
  destruct (chat_retries_with_backoff (fun i => Raise (ServiceError (Z.to_N i))) 3 2)
    as (_ & Herr & _).
  - lia.
  - intros i _. by eexists.
  - by apply Herr.
Defined.

Example chat_first_success :
  LLM.chat (fun i => if i <? 1 then Raise (ServiceError 7)
                     else Ok {| LLM.choices := [] |}) 3
  = ([LLM.Create 0; LLM.Sleep 1; LLM.Create 1], Ok (Some {| LLM.choices := [] |})).
Proof. reflexivity. Qed.

(** With no attempt allowed the loop body never runs. *)
Example chat_no_attempt create : LLM.chat create 0 = ([], Ok None).
Proof. reflexivity. Qed.

(** ** The repair loop of the validator *)

Section validator_loop.

Variable ast_parse : pystr -> result (list ValidatorAgent.ast_node).
Variable str_of_exn : exn -> pystr.
Variable simple_chat : nat -> pystr -> result (option pystr).
Variable max_retries : Z.

Let validate_loop := ValidatorAgent.validate_loop ast_parse str_of_exn simple_chat max_retries.

(** Each iteration makes at most one repair request, and returns unless
    the request gave code back. *)
Lemma validate_loop_budget code remaining : forall retry_count current_code,
  let run := validate_loop code remaining retry_count current_code in
  (ValidatorAgent.fix_attempts run.1 <= remaining)%nat /\
  (ValidatorAgent.retries_used run.1 <= ValidatorAgent.fix_attempts run.1)%nat /\
  (ValidatorAgent.retries_used run.1 = remaining ->
   exists r, run.2 = Ok r /\ ValidatorAgent.retries_exceeded max_retries code r).
Proof.
  unfold ValidatorAgent.fix_attempts, ValidatorAgent.retries_used.
  induction remaining as [|n IH]; intros retry_count current_code.
  - simpl. split; [lia | split; [lia |]]. intros _. eexists. split; first done.
    by repeat split.
  - cbn zeta. unfold validate_loop. cbn [ValidatorAgent.validate_loop].
    fold validate_loop.
    assert (Hrec : forall fixed,
      let run := (let '(evs, res) := validate_loop code n (S retry_count) fixed in
                  (ValidatorAgent.FixOk :: evs, res)) in
      (length run.1 <= S n)%nat /\
      (length (List.filter (fun ev => match ev with
                                      | ValidatorAgent.FixOk => true
                                      | ValidatorAgent.FixFailed => false
                                      end) run.1) <= length run.1)%nat /\
      (length (List.filter (fun ev => match ev with
                                      | ValidatorAgent.FixOk => true
                                      | ValidatorAgent.FixFailed => false
                                      end) run.1) = S n ->
       exists r, run.2 = Ok r /\ ValidatorAgent.retries_exceeded max_retries code r)).
    { intros fixed. specialize (IH (S retry_count) fixed).
      destruct (validate_loop code n (S retry_count) fixed) as [evs res].
      cbn in IH |- *. destruct IH as (H1 & H2 & H3).
      split; [lia | split; [lia |]]. intros [= H]. by apply H3. }
    destruct (ValidatorAgent._check_syntax ast_parse current_code) as [[[|] err]|e].
    + destruct (ValidatorAgent._check_imports ast_parse str_of_exn current_code)
        as [[|] ierr].
      * destruct (ValidatorAgent._static_analysis _ _ _) as [ok issues].
        cbn. split; [lia | split; [lia | lia]].
      * destruct (truthy _); first apply Hrec.
        cbn. split; [lia | split; [lia | lia]].
    + destruct (truthy _); first apply Hrec.
      cbn. split; [lia | split; [lia | lia]].
    + cbn. split; [lia | split; [lia | lia]].
Qed.

Lemma check_syntax_ok code tree :
  ast_parse code = Ok tree ->
  ValidatorAgent._check_syntax ast_parse code = Ok (true, None).
Proof. unfold ValidatorAgent._check_syntax. by intros ->. Qed.

Lemma check_syntax_error code lineno msg :
  ast_parse code = Raise (SyntaxError lineno msg) ->
  ValidatorAgent._check_syntax ast_parse code
  = Ok (false, Some (p{"第"} ++ default p{"None"} (Py.str_of_int <$> lineno)
                     ++ p{"行: "} ++ msg)).
Proof. unfold ValidatorAgent._check_syntax. by intros ->. Qed.

Lemma check_imports_ok code tree :
  ast_parse code = Ok tree ->
  ValidatorAgent._check_imports ast_parse str_of_exn code = (true, None).
Proof. unfold ValidatorAgent._check_imports. by intros ->. Qed.

End validator_loop.

(** C1. Whatever the parser and the model answer, the validation of one
    artifact makes at most [max_retries] repair requests; each request
    that gives code back uses up one unit of the budget, and when the
    whole budget is used up the outcome returned is invalid and its error
    message says that the number of retries was exceeded. *)
Theorem validator_fix_attempts_bounded
    (ast_parse : pystr -> result (list ValidatorAgent.ast_node))
    (str_of_exn : exn -> pystr)
    (simple_chat : nat -> pystr -> result (option pystr))
    (max_retries : Z) (code : GeneratedCode.t) :
  let run :=
    ValidatorAgent._validate_single_code ast_parse str_of_exn simple_chat
      max_retries code in
  Z.of_nat (ValidatorAgent.fix_attempts run.1) <= Z.max 0 max_retries /\
  (ValidatorAgent.retries_used run.1 <= ValidatorAgent.fix_attempts run.1)%nat /\
  (Z.of_nat (ValidatorAgent.retries_used run.1) = Z.max 0 max_retries ->
   exists r, run.2 = Ok r /\
     ValidationResult.is_valid r = false /\
     ValidationResult.error_message r
       = Some (p{"超过最大重试次数("} ++ Py.str_of_int max_retries ++ p{")"})).
Proof.
  cbn zeta. unfold ValidatorAgent._validate_single_code.
  destruct (validate_loop_budget ast_parse str_of_exn simple_chat max_retries code
              (Z.to_nat max_retries) 0%nat (GeneratedCode.code code))
    as (H1 & H2 & H3).
  split; [lia | split; [done |]]. intros H.
  destruct H3 as (r & Hr & _ & Hv & He); first lia. by exists r.
Qed.

Example first_python_block_ex :
  Py.first_python_block p{"Here:
```python
print(1)
```
done ```python
x```"} = Some (p{"print(1)"} ++ [10%N]).
Proof. vm_compute. reflexivity. Qed.

(** C8, as the code has it. An artifact whose source does not parse, a
    first repair request answered with a fenced block whose content is not
    empty and parses, and a budget of at least two retries: the validation
    makes that one request and returns a valid outcome whose [fixed_code]
    is the repaired text, which differs from the original source. *)
Theorem validator_one_repair_round_trip
    (ast_parse : pystr -> result (list ValidatorAgent.ast_node))
    (str_of_exn : exn -> pystr)
    (simple_chat : nat -> pystr -> result (option pystr))
    (max_retries : Z) (code : GeneratedCode.t)
    (lineno : option Z) (msg text fixed : pystr)
    (tree : list ValidatorAgent.ast_node) :
  2 <= max_retries ->
  ast_parse (GeneratedCode.code code) = Raise (SyntaxError lineno msg) ->
  simple_chat 0%nat
    (ValidatorAgent.fix_prompt (GeneratedCode.code code)
       (p{"语法错误: "} ++ p{"第"} ++ default p{"None"} (Py.str_of_int <$> lineno)
        ++ p{"行: "} ++ msg))
    = Ok (Some text) ->
  Py.first_python_block text = Some fixed ->
  fixed <> [] ->
  ast_parse fixed = Ok tree ->
  let run :=
    ValidatorAgent._validate_single_code ast_parse str_of_exn simple_chat
      max_retries code in
  run.1 = [ValidatorAgent.FixOk] /\
  fixed <> GeneratedCode.code code /\
  exists r, run.2 = Ok r /\
    ValidationResult.is_valid r = true /\
    ValidationResult.fixed_code r = Some fixed.
Proof.
  intros Hmax Hbroken Hchat Hblock Hne Hfixed. cbn zeta.
  assert (Hdiff : fixed <> GeneratedCode.code code) by (intros ->; congruence).
  unfold ValidatorAgent._validate_single_code.
  destruct (Z.to_nat max_retries) as [|[|n]] eqn:En; [lia | lia |].
  assert (Hfix : ValidatorAgent._fix_code ast_parse simple_chat 0
            (GeneratedCode.code code)
            (p{"语法错误: "} ++ fmt_opt (Some (p{"第"}
               ++ default p{"None"} (Py.str_of_int <$> lineno) ++ p{"行: "} ++ msg)))
          = Some fixed).
  { unfold ValidatorAgent._fix_code, fmt_opt, default. rewrite Hchat.
    unfold mbind, result_bind, try_except. rewrite Hblock.
    by rewrite (check_syntax_ok _ _ _ Hfixed). }
  cbn [ValidatorAgent.validate_loop].
  rewrite (check_syntax_error _ _ _ _ Hbroken) Hfix.
  rewrite (check_syntax_ok _ _ _ Hfixed) (check_imports_ok _ str_of_exn _ _ Hfixed).
  destruct fixed as [|c fixed']; first done.
  cbn [truthy default].
  destruct (ValidatorAgent._static_analysis _ _ _) as [ok issues].
  cbn [fst snd]. split; first done. split; first done.
  eexists. split; first done. cbn [ValidationResult.is_valid ValidationResult.fixed_code].
  split; first done. by rewrite bool_decide_true.
Qed.

(** The scenario of the missing parenthesis with the default budget. *)
Lemma validator_one_repair_witness :
  exists r,
    (ValidatorAgent._validate_single_code Scenario.ast_parse Scenario.str_of_exn
       Scenario.simple_chat 5 Scenario.artifact).2 = Ok r /\
    ValidationResult.is_valid r = true /\
    ValidationResult.fixed_code r = Some (p{"print(1)"} ++ [10%N]).
Proof.
  destruct (validator_one_repair_round_trip Scenario.ast_parse Scenario.str_of_exn
              Scenario.simple_chat 5 Scenario.artifact (Some 1)
              p{"'(' was never closed"}
              p{"```python
print(1)
```"} (p{"print(1)"} ++ [10%N]) [ValidatorAgent.OtherNode])
    as (_ & _ & H); [lia | by vm_compute ..| exact H].
Defined.

(** C8, as stated, fails in two ways. With a budget of one retry the
    repaired, parsing code uses the budget up and the outcome is invalid;
    and a repair that is an empty block, which parses, is taken for no
    repair at all. *)
Lemma validator_one_repair_not_enough :
  (Scenario.ast_parse (GeneratedCode.code Scenario.artifact)
     = Raise (SyntaxError (Some 1) p{"'(' was never closed"}) /\
   Scenario.ast_parse (p{"print(1)"} ++ [10%N]) = Ok [ValidatorAgent.OtherNode] /\
   exists r,
     ValidatorAgent._validate_single_code Scenario.ast_parse Scenario.str_of_exn
       Scenario.simple_chat 1 Scenario.artifact = ([ValidatorAgent.FixOk], Ok r) /\
     ValidationResult.is_valid r = false /\
     ValidationResult.fixed_code r = None) /\
  (Py.first_python_block p{"```python
```"} = Some [] /\
   Scenario.ast_parse [] = Ok [ValidatorAgent.OtherNode] /\
   exists r,
     ValidatorAgent._validate_single_code Scenario.ast_parse Scenario.str_of_exn
       Scenario.simple_chat_empty 5 Scenario.artifact = ([ValidatorAgent.FixFailed], Ok r) /\
     ValidationResult.is_valid r = false /\
     ValidationResult.fixed_code r = None).
Proof.
  split; (split; [by vm_compute | split; [by vm_compute |]]);
    eexists; (split; [by vm_compute | split; by vm_compute]).
Qed.

Example validator_budget_one_message :
  exists r,
    (ValidatorAgent._validate_single_code Scenario.ast_parse Scenario.str_of_exn
       Scenario.simple_chat 1 Scenario.artifact).2 = Ok r /\
    ValidationResult.error_message r = Some p{"超过最大重试次数(1)"}.
Proof. eexists. split; by vm_compute. Qed.

(** ** Applying the fixes *)

Section apply_fixes.

Lemma result_map_foldl_lookup results : forall (m : gmap pystr ValidationResult.t) k r,
  foldl (fun m r => <[ValidationResult.task_id r := r]> m) m results !! k = Some r ->
  (r ∈ results /\ ValidationResult.task_id r = k) \/ m !! k = Some r.
Proof.
  induction results as [|r0 results IH]; intros m k r; first by right.
  simpl. intros [[Hin Hk]|Hm]%IH.
  - left. split; [by right | done].
  - destruct (decide (ValidationResult.task_id r0 = k)) as [<-|Hne].
    + rewrite lookup_insert_eq in Hm. injection Hm as ->. left. split; [left | done].
    + rewrite lookup_insert_ne in Hm; last done. by right.
Qed.

Lemma result_map_lookup results k r :
  Workflow.result_map results !! k = Some r ->
  r ∈ results /\ ValidationResult.task_id r = k.
Proof.
  intros [H|H]%result_map_foldl_lookup; first done.
  by rewrite lookup_empty in H.
Qed.

End apply_fixes.

(** C10. [_apply_fixes] returns a list as long as the list of artifacts,
    in the same order; position by position the task id, the file name,
    the description and the declared dependencies are those of the input,
    and the source text is the input's or the [fixed_code] of a result
    with the same task id. *)
Theorem apply_fixes_frame (codes : list GeneratedCode.t)
    (results : list ValidationResult.t) :
  length (Workflow._apply_fixes codes results) = length codes /\
  Forall2 (fixed_from results) codes (Workflow._apply_fixes codes results).
Proof.
  unfold Workflow._apply_fixes. split; first by rewrite length_fmap.
  apply Forall2_fmap_r, Forall_Forall2_diag, Forall_forall. intros code _.
  unfold fixed_from, compose. cbv beta.
  destruct (Workflow.result_map results !! GeneratedCode.task_id code) as [r|] eqn:E;
    last by repeat split; try left.
  destruct (truthy (ValidationResult.fixed_code r)) eqn:Ht;
    last by repeat split; try left.
  apply result_map_lookup in E as [Hin Hid].
  repeat split; try done. right. exists r. repeat split; try done.
  cbn [GeneratedCode.code]. by destruct (ValidationResult.fixed_code r).
Qed.

(** ** Sorting *)

Section sorted_facts.

Context {A : Type} (lt : A -> A -> bool).

(** [a] may stand before [b] in a sorted list: [b] is not below [a]. *)
Definition not_above (a b : A) : Prop := lt b a = false.

Hypothesis lt_asym : forall a b, lt a b = true -> lt b a = false.

Lemma insert_sorted_perm x l : insert_sorted lt x l ≡ₚ x :: l.
Proof.
  induction l as [|y r IH]; first done.
  simpl. destruct (lt y x); last done.
  by rewrite IH Permutation_swap.
Qed.

Lemma sorted_perm l : sorted lt l ≡ₚ l.
Proof.
  induction l as [|x l IH]; first done.
  simpl. by rewrite insert_sorted_perm -/(sorted lt l) IH.
Qed.

Lemma insert_sorted_HdRel x y l :
  HdRel not_above y l -> lt y x = true -> HdRel not_above y (insert_sorted lt x l).
Proof.
  intros Hl Hyx. destruct l as [|z r]; simpl.
  - constructor. by apply lt_asym.
  - destruct (lt z x); constructor.
    + by inversion Hl.
    + by apply lt_asym.
Qed.

Lemma insert_sorted_Sorted x l :
  Sorted not_above l -> Sorted not_above (insert_sorted lt x l).
Proof.
  induction l as [|y r IH]; intros Hl; simpl.
  - by repeat constructor.
  - destruct (lt y x) eqn:E.
    + inversion Hl; subst. constructor; first by apply IH.
      by apply insert_sorted_HdRel.
    + constructor; first done. by constructor.
Qed.

Lemma sorted_Sorted l : Sorted not_above (sorted lt l).
Proof.
  induction l as [|x l IH]; first constructor.
  by apply insert_sorted_Sorted.
Qed.

(** Stability: an element only moves behind elements below it, so the
    elements that [P] selects keep their order when [P] never selects two
    elements of which one is below the other. *)
Lemma insert_sorted_filter (P : A -> bool) x l :
  (forall y, P x = true -> P y = true -> lt y x = false) ->
  List.filter P (insert_sorted lt x l) = List.filter P (x :: l).
Proof.
  intros HP. induction l as [|y r IH]; first done.
  cbn [insert_sorted]. destruct (lt y x) eqn:E; last done.
  cbn [List.filter] in *. rewrite IH.
  destruct (P x) eqn:Ex; last done.
  destruct (P y) eqn:Ey; last done.
  rewrite HP in E; done.
Qed.

Lemma sorted_filter (P : A -> bool) l :
  (forall x y, P x = true -> P y = true -> lt y x = false) ->
  List.filter P (sorted lt l) = List.filter P l.
Proof.
  intros HP. induction l as [|x l IH]; first done.
  cbn [sorted foldr]. rewrite insert_sorted_filter; last by intros; apply HP.
  cbn [List.filter]. fold (sorted lt l). by rewrite IH.
Qed.

End sorted_facts.

(** ** The order on strings *)

Section string_order.

Lemma ltb_irrefl s : Py.ltb s s = false.
Proof.
  induction s as [|a r IH]; first done.
  simpl. by rewrite N.ltb_irrefl N.eqb_refl IH.
Qed.

Lemma ltb_trans a : forall b c,
  Py.ltb a b = true -> Py.ltb b c = true -> Py.ltb a c = true.
Proof.
  induction a as [|x a IH]; intros [|y b] [|z c]; simpl; try done.
  rewrite !orb_true_iff !andb_true_iff !N.ltb_lt !N.eqb_eq.
  intros [Hxy|[-> Hab]] [Hyz|[-> Hbc]]; [left; lia | by left | by left |].
  right. split; first done. by apply IH with b.
Qed.

Lemma ltb_asym a b : Py.ltb a b = true -> Py.ltb b a = false.
Proof.
  intros Hab. destruct (Py.ltb b a) eqn:Hba; last done.
  pose proof (ltb_trans _ _ _ Hab Hba) as H. by rewrite ltb_irrefl in H.
Qed.

Lemma ltb_total a : forall b,
  Py.ltb a b = false -> Py.ltb b a = false -> a = b.
Proof.
  induction a as [|x a IH]; intros [|y b]; simpl; try done.
  rewrite !orb_false_iff !andb_false_iff !N.ltb_ge !N.eqb_neq.
  intros [Hxy [?|Hab]] [Hyx [?|Hba]]; try lia.
  assert (x = y) as -> by lia. f_equal. by apply IH.
Qed.

End string_order.

(** ** The dependency list of the bundle *)

Section requirements_list.

Lemma all_deps_foldl codes : forall (s : gset pystr) d,
  d ∈ foldl (fun s code => s ∪ list_to_set (GeneratedCode.dependencies code)) s codes
  <-> d ∈ s \/ exists code, code ∈ codes /\ d ∈ GeneratedCode.dependencies code.
Proof.
  induction codes as [|c codes IH]; intros s d; simpl.
  - split; first by left. intros [?|(code & []%elem_of_nil & _)]; done.
  - rewrite IH elem_of_union elem_of_list_to_set. split.
    + intros [[?|?]|(code & Hin & Hd)]; first by left.
      * right. exists c. split; [left | done].
      * right. exists code. split; [by right | done].
    + intros [?|(code & [->|Hin]%elem_of_cons & Hd)].
      * by left; left.
      * by left; right.
      * right. by exists code.
Qed.

Lemma elem_of_all_deps libraries codes d :
  d ∈ Workflow.all_deps libraries codes
  <-> d ∈ libraries \/ exists code, code ∈ codes /\ d ∈ GeneratedCode.dependencies code.
Proof.
  unfold Workflow.all_deps.
  rewrite elem_of_union all_deps_foldl elem_of_list_to_set. split.
  - intros [[[]%elem_of_empty|?]|?]; [by right | by left].
  - intros [?|?]; [by right | by left; right].
Qed.

Lemma str_lt_trans : Transitive str_lt.
Proof. intros a b c. apply ltb_trans. Qed.

(** A list without repetition that is sorted for [<=] is sorted for [<]. *)
Lemma Sorted_strict l :
  NoDup l -> Sorted (not_above Py.ltb) l -> Sorted str_lt l.
Proof.
  induction 1 as [|x l Hx Hl IH]; intros Hs; first constructor.
  inversion Hs as [|? ? Hs' Hhd]; subst. constructor; first by apply IH.
  destruct Hhd as [|y r Hxy]; constructor.
  unfold str_lt. destruct (Py.ltb x y) eqn:E; first done.
  exfalso. apply Hx. rewrite (ltb_total x y E Hxy). left.
Qed.

End requirements_list.

(** C4. Whatever the artifacts declare and the analyzer recommends, the
    [requirements] of the project output hold exactly the names that occur
    in one of these lists, each once, in strictly ascending lexicographic
    order. *)
Theorem requirements_sorted_dedup_union (task_id : pystr)
    (parsed_content : ParsedContent.t) (analysis_result : AnalysisResult.t)
    (codes : list GeneratedCode.t) :
  let reqs :=
    ProjectOutput.requirements
      (Workflow._generate_project_output task_id parsed_content analysis_result codes) in
  (forall d, d ∈ reqs <->
     d ∈ AnalysisResult.libraries analysis_result \/
     exists code, code ∈ codes /\ d ∈ GeneratedCode.dependencies code) /\
  NoDup reqs /\
  StronglySorted str_lt reqs.
Proof.
  cbn. unfold Workflow.requirements.
  set (deps := Workflow.all_deps _ _).
  pose proof (sorted_perm Py.ltb (elements deps)) as Hperm.
  assert (Hnd : NoDup (sorted Py.ltb (elements deps)))
    by (rewrite Hperm; apply NoDup_elements).
  split; [|split; first done].
  - intros d. by rewrite Hperm elem_of_elements elem_of_all_deps.
  - apply (@Sorted_StronglySorted _ str_lt str_lt_trans).
    apply Sorted_strict; first done.
    apply sorted_Sorted, ltb_asym.
Qed.

Example requirements_ex :
  Workflow.requirements [p{"pandas"}; p{"numpy"}]
    [ {| GeneratedCode.task_id := p{"t1"}; GeneratedCode.file_name := p{"a.py"};
         GeneratedCode.code := []; GeneratedCode.description := [];
         GeneratedCode.dependencies := [p{"scipy"}; p{"numpy"}; p{"Pillow"}] |} ]
  = [p{"Pillow"}; p{"numpy"}; p{"pandas"}; p{"scipy"}].
Proof. vm_compute. reflexivity. Qed.

(** ** Facts about [dict] *)

Section dict_facts.

Context {V : Type}.

Lemma str_eqb_eq a b : Py.str_eqb a b = true <-> a = b.
Proof. unfold Py.str_eqb. apply bool_decide_eq_true. Qed.

Lemma dict_lookup_set_eq k (v : V) d : Py.dict_lookup k (Py.dict_set k v d) = Some v.
Proof.
  induction d as [|[k' v'] d IH]; cbn.
  - by rewrite (proj2 (str_eqb_eq k k) eq_refl).
  - destruct (Py.str_eqb k k') eqn:E; cbn.
    + by rewrite (proj2 (str_eqb_eq k k) eq_refl).
    + by rewrite E.
Qed.

Lemma dict_lookup_set_ne k k' (v : V) d :
  k <> k' -> Py.dict_lookup k' (Py.dict_set k v d) = Py.dict_lookup k' d.
Proof.
  intros Hne. induction d as [|[k0 v0] d IH]; cbn.
  - destruct (Py.str_eqb k' k) eqn:E; last done.
    apply str_eqb_eq in E. congruence.
  - destruct (Py.str_eqb k k0) eqn:E; cbn.
    + apply str_eqb_eq in E as <-.
      destruct (Py.str_eqb k' k) eqn:E'; last done.
      apply str_eqb_eq in E'. congruence.
    + by rewrite IH.
Qed.

Lemma dict_set_keys k (v : V) d :
  (Py.dict_set k v d).*1 = if bool_decide (k ∈ d.*1) then d.*1 else d.*1 ++ [k].
Proof.
  induction d as [|[k0 v0] d IH]; first done.
  cbn. destruct (Py.str_eqb k k0) eqn:E.
  - apply str_eqb_eq in E as <-. by rewrite bool_decide_true; last left.
  - cbn. rewrite IH.
    assert (k <> k0) by (intros ->; by rewrite (proj2 (str_eqb_eq k0 k0) eq_refl) in E).
    case_bool_decide as H1; case_bool_decide as H2; try done.
    + destruct H2. by right.
    + apply elem_of_cons in H2 as [?|?]; done.
Qed.

Lemma dict_of_pairs_snoc (pairs : list (pystr * V)) k v :
  Py.dict_of_pairs (pairs ++ [(k, v)]) = Py.dict_set k v (Py.dict_of_pairs pairs).
Proof. unfold Py.dict_of_pairs. by rewrite foldl_app. Qed.

Lemma dict_of_pairs_keys_NoDup (pairs : list (pystr * V)) :
  NoDup (Py.dict_of_pairs pairs).*1.
Proof.
  induction pairs as [|[k v] pairs IH] using rev_ind; first constructor.
  rewrite dict_of_pairs_snoc dict_set_keys. case_bool_decide as H; first done.
  apply NoDup_app. split; first done. split; last apply NoDup_singleton.
  intros x Hx ->%list_elem_of_singleton. done.
Qed.

Lemma dict_set_fresh k (v : V) d :
  k ∉ d.*1 -> Py.dict_set k v d = d ++ [(k, v)].
Proof.
  induction d as [|[k0 v0] d IH]; first done.
  cbn. intros [Hne Hd]%not_elem_of_cons.
  destruct (Py.str_eqb k k0) eqn:E; first by apply str_eqb_eq in E.
  by rewrite IH.
Qed.

(** Pairs with pairwise distinct keys make the dict that lists them as
    they come. *)
Lemma dict_of_pairs_NoDup (pairs : list (pystr * V)) :
  NoDup pairs.*1 -> Py.dict_of_pairs pairs = pairs.
Proof.
  induction pairs as [|[k v] pairs IH] using rev_ind; first done.
  rewrite fmap_app. intros (Hnd & Hk & _)%NoDup_app.
  rewrite dict_of_pairs_snoc IH //. apply dict_set_fresh.
  intros Hin. apply (Hk k Hin). cbn. left.
Qed.

End dict_facts.

(** ** The order of the artifacts *)

Example tool_call_artifact :
  CoderAgent._generate_code_for_task Scenario.limits
    (fun _ _ => Ok (Some Scenario.tool_response)) 0 (Scenario.task "t1" 0)
  = Some {| GeneratedCode.task_id := p{"t1"};
            GeneratedCode.file_name := p{"a.py"};
            GeneratedCode.code := p{"x = 1"};
            GeneratedCode.description := p{"d"};
            GeneratedCode.dependencies := [p{"numpy"}; p{"pandas"}] |}.
Proof. vm_compute. reflexivity. Qed.

(** A list that is in order already is what [sorted] returns. *)
Lemma sorted_id {A} (lt : A -> A -> bool) (l : list A) :
  Sorted (not_above lt) l -> sorted lt l = l.
Proof.
  induction 1 as [|x l Hl IH Hhd]; first done.
  cbn [sorted foldr]. fold (sorted lt l). rewrite IH.
  destruct Hhd as [|y r Hxy]; first done.
  cbn [insert_sorted]. unfold not_above in Hxy. by rewrite Hxy.
Qed.

Section artifact_order.

Variable lim : PyJson.limits.
Variable chat_for_task : nat -> CodeTask.t -> result (option LLM.Response).
Variable chat_for_main : list GeneratedCode.t -> result (option LLM.Response).

Ltac unfold_binds := unfold mbind, result_bind, try_except in *.

Lemma generate_code_for_task_id n task code :
  CoderAgent._generate_code_for_task lim chat_for_task n task = Some code ->
  GeneratedCode.task_id code = CodeTask.task_id task.
Proof.
  unfold CoderAgent._generate_code_for_task, CoderAgent._extract_code_from_text.
  unfold_binds. intros H.
  repeat (case_match; simplify_eq; try done).
Qed.

Lemma generate_main_program_id codes code :
  CoderAgent._generate_main_program lim chat_for_main codes = Some code ->
  GeneratedCode.task_id code = p{"main"}.
Proof.
  unfold CoderAgent._generate_main_program, CoderAgent._extract_main_from_text.
  unfold_binds. intros H.
  repeat (case_match; simplify_eq; try done).
Qed.

(** Every artifact of the loop carries the id of the task it was made
    for: the ids are those of the tasks that yield code, in the order of
    the list. *)
Lemma generate_all_task_ids tasks : forall n,
  GeneratedCode.task_id <$> CoderAgent.generate_all lim chat_for_task n tasks
  = CodeTask.task_id <$> tasks_with_code lim chat_for_task n tasks.
Proof.
  induction tasks as [|task rest IH]; intros n; first done.
  cbn [CoderAgent.generate_all tasks_with_code].
  destruct (CoderAgent._generate_code_for_task _ _ _ _) as [code|] eqn:E; last done.
  by rewrite !fmap_cons IH (generate_code_for_task_id _ _ _ E).
Qed.

Lemma tasks_with_code_sublist tasks : forall n,
  tasks_with_code lim chat_for_task n tasks `sublist_of` tasks.
Proof.
  induction tasks as [|task rest IH]; intros n; first done.
  cbn [tasks_with_code].
  destruct (CoderAgent._generate_code_for_task _ _ _ _); by constructor.
Qed.

Lemma tasks_with_code_all tasks : forall n,
  (forall i task, tasks !! i = Some task ->
     is_Some (CoderAgent._generate_code_for_task lim chat_for_task (n + i) task)) ->
  tasks_with_code lim chat_for_task n tasks = tasks.
Proof.
  induction tasks as [|task rest IH]; intros n Hall; first done.
  cbn [tasks_with_code].
  destruct (Hall 0%nat task eq_refl) as [code Hcode].
  rewrite Nat.add_0_r in Hcode. rewrite Hcode. f_equal.
  apply IH. intros i t Hi. replace (S n + i)%nat with (n + S i)%nat by lia.
  by apply Hall.
Qed.

Lemma run_task_ids analysis_result :
  let generated_codes :=
    CoderAgent.generate_all lim chat_for_task 0 (CoderAgent.sorted_tasks analysis_result) in
  GeneratedCode.task_id <$> CoderAgent.run lim chat_for_task chat_for_main analysis_result
  = (CodeTask.task_id <$>
       tasks_with_code lim chat_for_task 0 (CoderAgent.sorted_tasks analysis_result))
    ++ match CoderAgent._generate_main_program lim chat_for_main generated_codes with
       | Some _ => [p{"main"}]
       | None => []
       end.
Proof.
  cbn zeta. unfold CoderAgent.run.
  destruct (CoderAgent._generate_main_program _ _ _) as [main_code|] eqn:E.
  - by rewrite fmap_app generate_all_task_ids /= (generate_main_program_id _ _ E).
  - by rewrite app_nil_r generate_all_task_ids.
Qed.

End artifact_order.

Lemma apply_fixes_task_ids codes results :
  GeneratedCode.task_id <$> Workflow._apply_fixes codes results
  = GeneratedCode.task_id <$> codes.
Proof.
  unfold Workflow._apply_fixes. rewrite -list_fmap_compose.
  apply list_fmap_ext. intros i code _. cbn.
  by repeat case_match.
Qed.

Lemma Sorted_weaken {A} (R1 R2 : A -> A -> Prop) l :
  (forall a b, R1 a b -> R2 a b) -> Sorted R1 l -> Sorted R2 l.
Proof.
  intros HR. induction 1 as [|x l Hl IH Hhd]; constructor; first done.
  destruct Hhd; constructor. by apply HR.
Qed.

Lemma split_head (a s t : pystr) :
  (exists h, s = h ++ t) -> exists h, a ++ s = h ++ t.
Proof. intros [h ->]. exists (a ++ h). by rewrite app_assoc. Qed.

Lemma split_base (t : pystr) : exists h, t = h ++ t.
Proof. by exists []. Qed.

(** The README lists the artifacts twice, both times in the order of the
    list it is given. *)
Lemma readme_lists_codes_in_order task_id parsed_content analysis_result codes :
  exists head middle tail,
    Workflow._generate_readme task_id parsed_content analysis_result codes
    = head ++ concat (Workflow.readme_tree_line <$> codes)
      ++ middle ++ concat (Workflow.readme_section <$> codes) ++ tail.
Proof.
  unfold Workflow._generate_readme.
  match goal with
  | |- context [concat (Workflow.readme_tree_line <$> codes) ++ ?m
                ++ concat (Workflow.readme_section <$> codes) ++ ?tl] =>
      cut (exists head, Workflow._generate_readme task_id parsed_content analysis_result codes
             = head ++ concat (Workflow.readme_tree_line <$> codes) ++ m
               ++ concat (Workflow.readme_section <$> codes) ++ tl)
  end.
  { intros [head H]. exists head. eexists _, _. exact H. }
  unfold Workflow._generate_readme. do 13 apply split_head.
  apply split_base.
Qed.

(** C5. The coder processes the tasks in the order [sorted] gives them,
    and the bundle keeps that order.

    - Order of processing: the sorted list is a rearrangement of the task
      list by ascending priority in which tasks of equal priority keep
      their extraction order. A task list that is in ascending priority
      already, as priorities 0, 0, 1 for A, B, C, is processed as it
      stands; two tasks of which the second has the smaller priority, as
      priorities 2, 1, are processed second task first.
    - Artifacts: after the fixes are applied, the task ids of the final
      list are exactly the ids of the sorted tasks whose request came back
      with code, in that order, followed by [main] when the request for
      the integration program came back with code, and by nothing
      otherwise. When every request comes back with code these are the ids
      of all sorted tasks.
    - Bundle: the README of the project output lists the files of the
      final list twice, in the file tree and in the module sections, both
      times in the order of the final list; and when no two artifacts
      share a file name, the file mapping lists them in that order too. *)
Theorem artifacts_ordered_by_priority
    (lim : PyJson.limits)
    (chat_for_task : nat -> CodeTask.t -> result (option LLM.Response))
    (chat_for_main : list GeneratedCode.t -> result (option LLM.Response))
    (task_id : pystr) (parsed_content : ParsedContent.t)
    (analysis_result : AnalysisResult.t) (results : list ValidationResult.t) :
  let tasks := AnalysisResult.code_tasks analysis_result in
  let sorted_tasks := CoderAgent.sorted_tasks analysis_result in
  let by_priority := fun a b => CodeTask.priority a <= CodeTask.priority b in
  let with_code := tasks_with_code lim chat_for_task 0 sorted_tasks in
  let integration :=
    match CoderAgent._generate_main_program lim chat_for_main
            (CoderAgent.generate_all lim chat_for_task 0 sorted_tasks) with
    | Some _ => [p{"main"}]
    | None => []
    end in
  let final_codes :=
    Workflow._apply_fixes
      (CoderAgent.run lim chat_for_task chat_for_main analysis_result) results in
  let bundle :=
    Workflow._generate_project_output task_id parsed_content analysis_result
      final_codes in
  (sorted_tasks ≡ₚ tasks /\
   Sorted by_priority sorted_tasks /\
   forall p,
     List.filter (fun t => CodeTask.priority t =? p) sorted_tasks
     = List.filter (fun t => CodeTask.priority t =? p) tasks) /\
  (Sorted by_priority tasks -> sorted_tasks = tasks) /\
  (forall a b, tasks = [a; b] -> CodeTask.priority b < CodeTask.priority a ->
     sorted_tasks = [b; a]) /\
  (with_code `sublist_of` sorted_tasks /\
   GeneratedCode.task_id <$> final_codes = (CodeTask.task_id <$> with_code) ++ integration) /\
  ((forall n task, sorted_tasks !! n = Some task ->
      is_Some (CoderAgent._generate_code_for_task lim chat_for_task n task)) ->
   GeneratedCode.task_id <$> final_codes
   = (CodeTask.task_id <$> sorted_tasks) ++ integration) /\
  (exists head middle tail,
     ProjectOutput.readme bundle
     = head ++ concat (Workflow.readme_tree_line <$> final_codes)
       ++ middle ++ concat (Workflow.readme_section <$> final_codes) ++ tail) /\
  (NoDup (GeneratedCode.file_name <$> final_codes) ->
   ProjectOutput.files bundle
   = (fun code => (GeneratedCode.file_name code, GeneratedCode.code code))
       <$> final_codes).
Proof.
  cbn zeta.
  assert (Hids : GeneratedCode.task_id <$>
            Workflow._apply_fixes
              (CoderAgent.run lim chat_for_task chat_for_main analysis_result) results
          = (CodeTask.task_id <$>
               tasks_with_code lim chat_for_task 0 (CoderAgent.sorted_tasks analysis_result))
            ++ match CoderAgent._generate_main_program lim chat_for_main
                       (CoderAgent.generate_all lim chat_for_task 0
                          (CoderAgent.sorted_tasks analysis_result)) with
               | Some _ => [p{"main"}]
               | None => []
               end).
  { rewrite apply_fixes_task_ids. apply run_task_ids. }
  split; [|split; [|split; [|split; [|split; [|split]]]]].
  - unfold CoderAgent.sorted_tasks. split; [|split].
    + apply sorted_perm.
    + eapply Sorted_weaken; last apply (sorted_Sorted CoderAgent.priority_lt).
      * unfold not_above, CoderAgent.priority_lt. intros a b H. lia.
      * unfold CoderAgent.priority_lt. intros a b H. lia.
    + intros p. apply sorted_filter.
      unfold CoderAgent.priority_lt. intros x y Hx Hy. lia.
  - intros Hs. unfold CoderAgent.sorted_tasks. apply sorted_id.
    eapply Sorted_weaken; last exact Hs.
    unfold not_above, CoderAgent.priority_lt. intros a b H. lia.
  - intros a b Htasks Hlt. unfold CoderAgent.sorted_tasks. rewrite Htasks.
    cbn [sorted foldr insert_sorted]. unfold CoderAgent.priority_lt.
    by rewrite (proj2 (Z.ltb_lt _ _) Hlt).
  - split; [apply tasks_with_code_sublist | exact Hids].
  - intros Hall. rewrite Hids. rewrite tasks_with_code_all //.
  - cbn [ProjectOutput.readme Workflow._generate_project_output].
    apply readme_lists_codes_in_order.
  - intros Hnd. cbn [ProjectOutput.files Workflow._generate_project_output].
    apply dict_of_pairs_NoDup. by rewrite -list_fmap_compose.
Qed.

(** The theorem where the model answers every request with code:
    priorities 2 and 1 give the task of priority 1, the task of priority
    2, the integration artifact, and the file mapping of the bundle has
    the three files in that order. *)
Lemma artifacts_ordered_witness :
  let final_codes :=
    Workflow._apply_fixes
      (CoderAgent.run Scenario.limits Scenario.chat_for_task_named Scenario.chat_for_main
         (Scenario.analysis [Scenario.task "first" 2; Scenario.task "second" 1]))
      [] in
  GeneratedCode.task_id <$> final_codes = [p{"second"}; p{"first"}; p{"main"}] /\
  (ProjectOutput.files
     (Workflow._generate_project_output p{"run"} (ParsedContent.of_raw_markdown [])
        (Scenario.analysis [Scenario.task "first" 2; Scenario.task "second" 1])
        final_codes)).*1
  = [p{"second.py"}; p{"first.py"}; p{"main.py"}].
Proof.
  pose proof (artifacts_ordered_by_priority Scenario.limits Scenario.chat_for_task_named
                Scenario.chat_for_main p{"run"} (ParsedContent.of_raw_markdown [])
                (Scenario.analysis [Scenario.task "first" 2; Scenario.task "second" 1])
                []) as H.
  cbv zeta in H. destruct H as (_ & _ & Htwo & _ & Hall & _ & Hfiles).
  cbv zeta. split.
  - rewrite Hall.
    + rewrite (Htwo _ _ eq_refl); by vm_compute.
    + rewrite (Htwo _ _ eq_refl); last by vm_compute.
      intros [|[|n]] task Hn; cbn in Hn; try discriminate Hn;
        injection Hn as <-; eexists; vm_compute; reflexivity.
  - rewrite Hfiles; first by vm_compute.
    apply (bool_decide_eq_true_1 (NoDup _)). by vm_compute.
Defined.

(** Priorities [[0, 0, 1]] submitted as A, B, C come out as A, B, C, then
    the integration artifact. *)
Example order_ties_keep_extraction_order :
  GeneratedCode.task_id <$>
    Workflow._apply_fixes
      (CoderAgent.run Scenario.limits Scenario.chat_for_task Scenario.chat_for_main
         (Scenario.analysis
            [Scenario.task "A" 0; Scenario.task "B" 0; Scenario.task "C" 1]))
      []
  = [p{"A"}; p{"B"}; p{"C"}; p{"main"}].
Proof. vm_compute. reflexivity. Qed.

(** Priorities [[2, 1]]: the task of priority 1, the task of priority 2,
    the integration artifact. *)
Example order_by_priority_then_main :
  GeneratedCode.task_id <$>
    Workflow._apply_fixes
      (CoderAgent.run Scenario.limits Scenario.chat_for_task Scenario.chat_for_main
         (Scenario.analysis [Scenario.task "first" 2; Scenario.task "second" 1]))
      []
  = [p{"second"}; p{"first"}; p{"main"}].
Proof. vm_compute. reflexivity. Qed.

(** ** The defaults of the analyzer *)

(** C3, as the code has it. When the model call of an analysis step
    fails, or answers with text from which no JSON value can be decoded,
    the classification step returns the type [OTHER] with an empty method
    and summary, the decomposition step returns the empty task list, and
    the tech-stack step returns its default stack and its four default
    libraries. *)
Theorem analyzer_defaults_on_model_failure
    (lim : PyJson.limits)
    (new_id : nat -> pystr) (validate_int : json -> result Z)
    (chat : result (option pystr)) (e : exn) :
  (response ← chat; AnalyzerAgent.load_json lim response) = Raise e ->
  AnalyzerAgent._analyze_thesis_type lim chat = AnalyzerAgent.default_analysis /\
  AnalyzerAgent.type_ (AnalyzerAgent._analyze_thesis_type lim chat) = OTHER /\
  AnalyzerAgent._generate_code_tasks new_id validate_int lim chat = [] /\
  AnalyzerAgent._determine_tech_stack lim chat
  = (JList [JStr p{"Python"}; JStr p{"Pandas"}; JStr p{"NumPy"}],
     JList [JStr p{"pandas"}; JStr p{"numpy"}; JStr p{"matplotlib"};
            JStr p{"scikit-learn"}]).
Proof.
  intros H.
  assert (Hbody : forall (B : Type) (k : json -> result B),
            (response ← chat; data ← AnalyzerAgent.load_json lim response; k data) = Raise e).
  { intros B k. unfold mbind, result_bind in *.
    destruct chat as [response|]; last by injection H as ->.
    by rewrite H. }
  unfold AnalyzerAgent._analyze_thesis_type, AnalyzerAgent._generate_code_tasks,
    AnalyzerAgent._determine_tech_stack.
  by rewrite !Hbody.
Qed.

(** A model call that raises. *)
Lemma analyzer_defaults_witness :
  AnalyzerAgent._generate_code_tasks (fun _ => []) (fun _ => Raise ValidationError)
    Scenario.limits (Raise (ServiceError 0)) = [].
Proof.
  destruct (analyzer_defaults_on_model_failure Scenario.limits (fun _ => [])
              (fun _ => Raise ValidationError) (Raise (ServiceError 0)) (ServiceError 0))
    as (_ & _ & H & _); [reflexivity | exact H].
Defined.

(** C3, as stated, fails for the third step: after a failed model call the
    dependency list is not empty. *)
Lemma tech_stack_failure_keeps_default_libraries :
  exists libs,
    (AnalyzerAgent._determine_tech_stack Scenario.limits (Raise (ServiceError 0))).2
    = JList libs /\
    length libs = 4%nat.
Proof. eexists. split; reflexivity. Qed.

(** ** The fallback chain of the parser *)

(** C7. When no tier yields content, that is, the remote submission, the
    upload and the local extraction each return [None] or an empty value,
    [run] returns without raising, and what it returns is the document
    whose [raw_markdown] and every other field are empty. *)
Theorem ingestion_exhaustion_gives_empty_document
    (lim : PyJson.limits)
    (float_nonzero : pystr -> bool) (path_exists : pystr -> bool)
    (post_task : json -> result ParserAgent.HttpResponse)
    (post_upload : pystr -> result ParserAgent.HttpResponse)
    (get_status : json -> nat -> result ParserAgent.HttpResponse)
    (get_text : json -> result pystr) (polls_allowed : nat)
    (fitz_pages : pystr -> result (list pystr))
    (simple_chat : json -> result (option pystr)) (not_sliceable : exn)
    (pdf_path : pystr) :
  ParserAgent.json_truthy float_nonzero
    (ParserAgent._submit_url_task float_nonzero post_task get_status get_text
       polls_allowed (JStr pdf_path)).2 = false ->
  ParserAgent.json_truthy float_nonzero
    (ParserAgent._upload_and_parse float_nonzero post_task post_upload get_status
       get_text polls_allowed pdf_path).2 = false ->
  ParserAgent.json_truthy float_nonzero
    (ParserAgent._local_pdf_parse fitz_pages pdf_path).2 = false ->
  let out :=
    ParserAgent.run lim float_nonzero path_exists post_task post_upload get_status
      get_text polls_allowed fitz_pages simple_chat not_sliceable pdf_path in
  out.2 = Ok (ParsedContent.of_raw_markdown []) /\
  exists doc, out.2 = Ok doc /\ ParsedContent.raw_markdown doc = [].
Proof.
  intros Hsubmit Hupload Hlocal. cbn zeta.
  assert (Hrun :
    (ParserAgent.run lim float_nonzero path_exists post_task post_upload get_status
       get_text polls_allowed fitz_pages simple_chat not_sliceable pdf_path).2
    = Ok (ParsedContent.of_raw_markdown [])).
  { unfold ParserAgent.run, ParserAgent._convert_pdf_to_markdown.
    destruct (Py.startswith p{"http"} pdf_path).
    - destruct (ParserAgent._submit_url_task _ _ _ _ _ _) as [tr v].
      cbn [snd] in Hsubmit. by rewrite Hsubmit.
    - destruct (path_exists pdf_path); last done. cbn [negb].
      destruct (ParserAgent._upload_and_parse _ _ _ _ _ _ _) as [tr1 v1].
      cbn [snd] in Hupload. rewrite Hupload.
      destruct (ParserAgent._local_pdf_parse _ _) as [tr2 v2].
      cbn [snd] in Hlocal. by rewrite Hlocal. }
  split; first done. by eexists.
Qed.

(** The service is down and the local library is missing. *)
Lemma ingestion_exhaustion_witness :
  Scenario.run_offline p{"thesis.pdf"}
  = ([ParserAgent.Upload p{"thesis.pdf"}; ParserAgent.LocalParse p{"thesis.pdf"}],
     Ok (ParsedContent.of_raw_markdown [])).
Proof.
  apply injective_projections; first by vm_compute.
  unfold Scenario.run_offline.
  by destruct (ingestion_exhaustion_gives_empty_document Scenario.limits
                 (fun _ => true) (fun _ => true)
                 Scenario.service_down Scenario.service_down
                 (fun _ => Scenario.service_down) Scenario.service_down 60
                 (fun _ => Raise ImportError) Scenario.service_down TypeError
                 p{"thesis.pdf"}) as [H _].
Defined.

(** * Further properties of the code *)

(** ** [find] and [rfind] of one character *)

Section single_char_search.

Variable c : N.

Lemma find_from_lookup s : forall i,
  (Py.find_from [c] s i = -1 /\ c ∉ s) \/
  exists n : nat, Py.find_from [c] s i = i + Z.of_nat n /\ s !! n = Some c /\
    forall j : nat, (j < n)%nat -> s !! j <> Some c.
Proof.
  induction s as [|a r IH]; intros i.
  - left. split; first done. by intros ?%elem_of_nil.
  - cbn [Py.find_from Py.startswith]. destruct (N.eqb_spec c a) as [<-|Hne].
    + right. exists 0%nat. cbn. split; first lia. split; first done. lia.
    + cbn [andb]. destruct (IH (i + 1)) as [[-> Hnot]|(n & -> & Hn & Hbefore)].
      * left. split; first done. intros [?|?]%elem_of_cons; done.
      * right. exists (S n). split; first lia. split; first done.
        intros [|j] Hj; cbn; first congruence. apply Hbefore. lia.
Qed.

Lemma rfind_from_lookup s : forall i, 0 <= i ->
  (Py.rfind_from [c] s i = -1 /\ c ∉ s) \/
  exists n : nat, Py.rfind_from [c] s i = i + Z.of_nat n /\ s !! n = Some c /\
    forall j : nat, (n < j)%nat -> s !! j <> Some c.
Proof.
  induction s as [|a r IH]; intros i Hi.
  - left. split; first done. by intros ?%elem_of_nil.
  - cbn [Py.rfind_from].
    destruct (IH (i + 1) ltac:(lia)) as [[-> Hnot]|(n & -> & Hn & Hafter)].
    + change (-1 =? -1) with true. cbv iota.
      cbn [Py.startswith]. destruct (N.eqb_spec c a) as [<-|Hne]; cbn [andb].
      * right. exists 0%nat. split; first lia. split; first done.
        intros [|j] Hj; first lia. cbn. intros Hin. apply Hnot.
        by apply list_elem_of_lookup_2 in Hin.
      * left. split; first done. intros [?|?]%elem_of_cons; done.
    + destruct (Z.eqb_spec (i + 1 + Z.of_nat n) (-1)) as [Heq|_]; first lia.
      right. exists (S n). split; first lia. split; first done.
      intros [|j] Hj; first lia. cbn. apply Hafter. lia.
Qed.

End single_char_search.

(** ** The blob inside prose *)

Section payload_recovery.

Lemma candidates_cases a b :
  JsonUtils.candidates a b =
    (if decide (a = -1) then [] else [a]) ++ (if decide (b = -1) then [] else [b]).
Proof.
  unfold JsonUtils.candidates. rewrite !filter_cons filter_nil.
  by repeat case_decide.
Qed.

Lemma start_of_candidates a b k :
  (a = -1 \/ k <= a) -> (b = -1 \/ k <= b) -> (a = k \/ b = k) -> 0 <= k ->
  match JsonUtils.candidates a b with
  | [] => 0
  | _ => JsonUtils.list_min (JsonUtils.candidates a b)
  end = k.
Proof.
  intros Ha Hb Hk Hk0. rewrite candidates_cases.
  repeat case_decide; cbn; lia.
Qed.

Lemma end_of_candidates a b k n :
  (a = -1 \/ a <= k) -> (b = -1 \/ b <= k) -> (a = k \/ b = k) -> 0 <= k ->
  match JsonUtils.candidates a b with
  | [] => n
  | _ => JsonUtils.list_max (JsonUtils.candidates a b) + 1
  end = k + 1.
Proof.
  intros Ha Hb Hk Hk0. rewrite candidates_cases.
  repeat case_decide; cbn; lia.
Qed.

Lemma is_open_not_space o : is_open o = true -> Py.isspace o = false.
Proof.
  unfold is_open. intros [->%N.eqb_eq| ->%N.eqb_eq]%orb_true_iff; reflexivity.
Qed.

Lemma is_close_not_space c : is_close c = true -> Py.isspace c = false.
Proof.
  unfold is_close. intros [->%N.eqb_eq| ->%N.eqb_eq]%orb_true_iff; reflexivity.
Qed.

Lemma is_open_bracket o : is_open o = true -> is_bracket o = true.
Proof.
  unfold is_open, is_bracket.
  intros [->%N.eqb_eq| ->%N.eqb_eq]%orb_true_iff; reflexivity.
Qed.

Lemma is_close_bracket c : is_close c = true -> is_bracket c = true.
Proof.
  unfold is_close, is_bracket.
  intros [->%N.eqb_eq| ->%N.eqb_eq]%orb_true_iff; reflexivity.
Qed.

Lemma strip_bracketed o mid c :
  is_open o = true -> is_close c = true ->
  Py.strip (o :: mid ++ [c]) = o :: mid ++ [c].
Proof.
  intros Ho%is_open_not_space Hc%is_close_not_space.
  unfold Py.strip. cbn [Py.lstrip]. rewrite Ho.
  unfold Py.rstrip. change (o :: mid ++ [c]) with ((o :: mid) ++ [c]).
  rewrite rev_app_distr. cbn [rev app Py.lstrip]. rewrite Hc.
  cbn [rev]. by rewrite rev_app_distr /= rev_involutive.
Qed.

(** The first opening bracket of [pre ++ o :: rest], by either search. *)
Lemma find_open_after_prose (x : N) pre o rest :
  no_brackets pre -> is_bracket x = true ->
  (x = o -> Py.find [x] (pre ++ o :: rest) = Z.of_nat (length pre)) /\
  (Py.find [x] (pre ++ o :: rest) = -1 \/
   Z.of_nat (length pre) <= Py.find [x] (pre ++ o :: rest)).
Proof.
  intros Hpre Hx. unfold Py.find.
  assert (Hbefore : forall j : nat, (j < length pre)%nat ->
            (pre ++ o :: rest) !! j <> Some x).
  { intros j Hj. rewrite lookup_app_l //. intros Hin%list_elem_of_lookup_2.
    by apply (no_brackets_notin pre x). }
  destruct (find_from_lookup x (pre ++ o :: rest) 0)
    as [[-> Hnot]|(n & -> & Hn & Hfirst)].
  - split; last by left. intros ->. exfalso. apply Hnot.
    rewrite elem_of_app. right. left.
  - assert (length pre <= n)%nat.
    { destruct (decide (n < length pre)%nat) as [Hlt|]; last lia.
      by destruct (Hbefore n Hlt). }
    split; last (right; lia). intros ->.
    destruct (decide (length pre < n)%nat) as [Hlt|]; last lia.
    destruct (Hfirst (length pre) Hlt). by rewrite list_lookup_middle.
Qed.

(** The last closing bracket of [body ++ [c] ++ post], by either search. *)
Lemma rfind_close_before_prose (x : N) body c post :
  no_brackets post -> is_bracket x = true ->
  (x = c -> Py.rfind [x] (body ++ c :: post) = Z.of_nat (length body)) /\
  (Py.rfind [x] (body ++ c :: post) = -1 \/
   Py.rfind [x] (body ++ c :: post) <= Z.of_nat (length body)).
Proof.
  intros Hpost Hx. unfold Py.rfind.
  assert (Hafter : forall j : nat, (length body < j)%nat ->
            (body ++ c :: post) !! j <> Some x).
  { intros j Hj. rewrite lookup_app_r; last lia.
    replace (j - length body)%nat with (S (j - length body - 1)) by lia. cbn.
    intros Hin%list_elem_of_lookup_2. by apply (no_brackets_notin post x). }
  destruct (rfind_from_lookup x (body ++ c :: post) 0 ltac:(lia))
    as [[-> Hnot]|(n & -> & Hn & Hlast)].
  - split; last by left. intros ->. exfalso. apply Hnot.
    rewrite elem_of_app. right. left.
  - assert (n <= length body)%nat.
    { destruct (decide (length body < n)%nat) as [Hlt|]; last lia.
      by destruct (Hafter n Hlt). }
    split; last (right; lia). intros ->.
    destruct (decide (n < length body)%nat) as [Hlt|]; last lia.
    destruct (Hlast (length body) Hlt). by rewrite list_lookup_middle.
Qed.

End payload_recovery.

(** X1. When the fence-stripped text is a JSON object or array with
    prose before and after it, and the prose holds no bracket,
    [extract_json_blob] returns the object or array itself. *)
Theorem extract_json_blob_recovers_payload (text pre mid post : pystr) (o c : N) :
  JsonUtils.strip_code_fences text = pre ++ (o :: mid ++ [c]) ++ post ->
  no_brackets pre -> no_brackets post ->
  is_open o = true -> is_close c = true ->
  JsonUtils.extract_json_blob text = o :: mid ++ [c].
Proof.
  intros Hclean Hpre Hpost Ho Hc. unfold JsonUtils.extract_json_blob.
  rewrite Hclean.
  change p{"{"} with [123%N]. change p{"["} with [91%N].
  change p{"}"} with [125%N]. change p{"]"} with [93%N].
  replace (pre ++ (o :: mid ++ [c]) ++ post)
    with (pre ++ o :: (mid ++ [c]) ++ post) by done.
  set (cleaned := pre ++ o :: (mid ++ [c]) ++ post).
  destruct (find_open_after_prose 123 pre o ((mid ++ [c]) ++ post) Hpre eq_refl)
    as [Ha1 Ha2].
  destruct (find_open_after_prose 91 pre o ((mid ++ [c]) ++ post) Hpre eq_refl)
    as [Hb1 Hb2].
  fold cleaned in Ha1, Ha2, Hb1, Hb2.
  assert (Hfirst : Py.find [123%N] cleaned = Z.of_nat (length pre)
                   \/ Py.find [91%N] cleaned = Z.of_nat (length pre)).
  { unfold is_open in Ho. apply orb_true_iff in Ho as [Ho%N.eqb_eq|Ho%N.eqb_eq].
    - left. by apply Ha1.
    - right. by apply Hb1. }
  rewrite (start_of_candidates _ _ (Z.of_nat (length pre)) Ha2 Hb2 Hfirst); last lia.
  assert (Htrim : Py.slice_from cleaned (Z.of_nat (length pre))
                  = (o :: mid) ++ c :: post).
  { unfold Py.slice_from, cleaned.
    destruct (Z.ltb_spec (Z.of_nat (length pre)) 0); first lia.
    rewrite Nat2Z.id drop_app_length. by rewrite -!app_assoc. }
  rewrite Htrim.
  destruct (rfind_close_before_prose 125 (o :: mid) c post Hpost eq_refl) as [Hc1 Hc2].
  destruct (rfind_close_before_prose 93 (o :: mid) c post Hpost eq_refl) as [Hd1 Hd2].
  assert (Hlast : Py.rfind [125%N] ((o :: mid) ++ c :: post) = Z.of_nat (length (o :: mid))
                  \/ Py.rfind [93%N] ((o :: mid) ++ c :: post) = Z.of_nat (length (o :: mid))).
  { unfold is_close in Hc. apply orb_true_iff in Hc as [Hc%N.eqb_eq|Hc%N.eqb_eq].
    - left. by apply Hc1.
    - right. by apply Hd1. }
  rewrite (end_of_candidates _ _ (Z.of_nat (length (o :: mid))) _ Hc2 Hd2 Hlast); last lia.
  unfold Py.slice_to.
  destruct (Z.ltb_spec (Z.of_nat (length (o :: mid)) + 1) 0); first lia.
  replace (Z.to_nat (Z.of_nat (length (o :: mid)) + 1))
    with (length ((o :: mid) ++ [c])) by (rewrite length_app /=; lia).
  replace ((o :: mid) ++ c :: post) with (((o :: mid) ++ [c]) ++ post)
    by by rewrite -app_assoc.
  rewrite take_app_length. by apply strip_bracketed.
Qed.

(** A fenced object with prose in front. *)
Lemma extract_json_blob_recovers_witness :
  JsonUtils.extract_json_blob q{"```json
Result: {'a': [1, 2]} as asked
```"} = q{"{'a': [1, 2]}"}.
Proof.
  apply (extract_json_blob_recovers_payload _ p{"Result: "} q{"'a': [1, 2]"}
           p{" as asked"} 123%N 125%N); by vm_compute.
Defined.

Section blob_start.

Lemma rfind_nonneg (c : N) s :
  Py.rfind [c] s = -1 \/ 0 <= Py.rfind [c] s.
Proof.
  unfold Py.rfind.
  destruct (rfind_from_lookup c s 0 ltac:(lia)) as [[-> _]|(n & -> & _)];
    [by left | right; lia].
Qed.

Lemma find_first_open (x : N) s (k : nat) o :
  s !! k = Some o ->
  (forall (j : nat) c, (j < k)%nat -> s !! j = Some c -> is_open c = false) ->
  is_open x = true ->
  (x = o -> Py.find [x] s = Z.of_nat k) /\
  (Py.find [x] s = -1 \/ Z.of_nat k <= Py.find [x] s).
Proof.
  intros Hk Hbefore Hx. unfold Py.find.
  destruct (find_from_lookup x s 0) as [[-> Hnot]|(n & -> & Hn & Hfirst)].
  - split; last by left. intros ->. destruct Hnot. by eapply list_elem_of_lookup_2.
  - assert (k <= n)%nat.
    { destruct (decide (n < k)%nat) as [Hlt|]; last lia.
      pose proof (Hbefore n x Hlt Hn). congruence. }
    split; last (right; lia). intros ->.
    destruct (decide (k < n)%nat) as [Hlt|]; last lia.
    by destruct (Hfirst k Hlt).
Qed.

End blob_start.

(** X25. When the fence-stripped text holds an opening bracket, the blob
    starts with the first one: whatever stands before it is dropped, also
    when brackets of the prose come before the payload. *)
Theorem extract_json_blob_starts_at_first_bracket (text : pystr) (k : nat) (o : N) :
  JsonUtils.strip_code_fences text !! k = Some o ->
  is_open o = true ->
  (forall (j : nat) c, (j < k)%nat ->
     JsonUtils.strip_code_fences text !! j = Some c -> is_open c = false) ->
  exists rest, JsonUtils.extract_json_blob text = o :: rest.
Proof.
  intros Hk Ho Hbefore. unfold JsonUtils.extract_json_blob.
  set (cleaned := JsonUtils.strip_code_fences text) in *.
  change p{"{"} with [123%N]. change p{"["} with [91%N].
  change p{"}"} with [125%N]. change p{"]"} with [93%N].
  destruct (find_first_open 123 cleaned k o Hk Hbefore eq_refl) as [Ha1 Ha2].
  destruct (find_first_open 91 cleaned k o Hk Hbefore eq_refl) as [Hb1 Hb2].
  assert (Hfirst : Py.find [123%N] cleaned = Z.of_nat k
                   \/ Py.find [91%N] cleaned = Z.of_nat k).
  { unfold is_open in Ho. apply orb_true_iff in Ho as [Ho%N.eqb_eq|Ho%N.eqb_eq].
    - left. by apply Ha1.
    - right. by apply Hb1. }
  rewrite (start_of_candidates _ _ (Z.of_nat k) Ha2 Hb2 Hfirst); last lia.
  assert (Htrim : Py.slice_from cleaned (Z.of_nat k) = o :: drop (S k) cleaned).
  { unfold Py.slice_from. destruct (Z.ltb_spec (Z.of_nat k) 0); first lia.
    rewrite Nat2Z.id. by apply drop_S. }
  rewrite Htrim. set (tl := drop (S k) cleaned).
  set (end_ := match JsonUtils.candidates _ _ with [] => _ | _ => _ end).
  assert (Hend : 1 <= end_).
  { subst end_. rewrite candidates_cases.
    pose proof (rfind_nonneg 125 (o :: tl)) as H1.
    pose proof (rfind_nonneg 93 (o :: tl)) as H2.
    revert H1 H2.
    generalize (Py.rfind [125%N] (o :: tl)) (Py.rfind [93%N] (o :: tl)).
    intros a b H1 H2. unfold Py.len. cbn [length].
    repeat case_decide; cbn [app JsonUtils.list_max foldl]; lia. }
  unfold Py.slice_to. destruct (Z.ltb_spec end_ 0); first lia.
  destruct (Z.to_nat end_) as [|n] eqn:En; first lia.
  cbn [take]. unfold Py.strip. cbn [Py.lstrip].
  rewrite (is_open_not_space o Ho) (rstrip_cons o _ (is_open_not_space o Ho)).
  by eexists.
Qed.

(** Prose that holds a bracket of its own in front of the payload. *)
Lemma extract_json_blob_starts_witness :
  exists rest, JsonUtils.extract_json_blob q{"See [1]: {'a': 1}"} = 91%N :: rest.
Proof.
  apply (extract_json_blob_starts_at_first_bracket _ 4 91); [done | done |].
  intros j c Hj. do 4 (destruct j as [|j]; [by intros [= <-]|]). lia.
Defined.

(** ** The model client at its edges *)

(** X2. With a budget that is zero or negative, [chat] sends no request,
    does not sleep, raises nothing and returns [None]. *)
Theorem chat_without_budget_returns_none
    (create : Z -> result LLM.Response) (max_retries : Z) :
  max_retries <= 0 ->
  LLM.chat create max_retries = ([], Ok None).
Proof.
  intros H. unfold LLM.chat. by replace (Z.to_nat max_retries) with 0%nat by lia.
Qed.

Lemma chat_without_budget_witness :
  LLM.chat (fun _ => Raise (ServiceError 1)) (-2) = ([], Ok None).
Proof. apply chat_without_budget_returns_none. lia. Defined.

Lemma total_sleep_attempts_trace k : forall a, 0 <= a ->
  total_sleep (LLM.attempts_trace a k) = 2 ^ (a + Z.of_nat k) - 2 ^ a.
Proof.
  induction k as [|k IH]; intros a Ha.
  - cbn. rewrite Z.add_0_r. lia.
  - cbn [LLM.attempts_trace total_sleep foldr]. fold (total_sleep (LLM.attempts_trace (a + 1) k)).
    rewrite IH; last lia.
    replace (a + 1 + Z.of_nat k) with (a + Z.of_nat (S k)) by lia.
    rewrite (Z.pow_add_r 2 a 1); lia.
Qed.

Lemma count_creates_attempts_trace k : forall a,
  LLM.count_creates (LLM.attempts_trace a k) = S k.
Proof.
  unfold LLM.count_creates. induction k as [|k IH]; intros a; first done.
  cbn. by rewrite IH.
Qed.

(** X3. When every attempt of a call with a budget of at least one fails,
    [chat] has sent exactly [max_retries] requests, has slept
    [2^(max_retries - 1) - 1] seconds in all, and raises the error of the
    last attempt. *)
Theorem chat_exhaustion_cost
    (create : Z -> result LLM.Response) (max_retries : Z) (e : exn) :
  1 <= max_retries ->
  (forall i, 0 <= i < max_retries - 1 -> exists e', create i = Raise e') ->
  create (max_retries - 1) = Raise e ->
  let run := LLM.chat create max_retries in
  run.2 = Raise e /\
  Z.of_nat (LLM.count_creates run.1) = max_retries /\
  total_sleep run.1 = 2 ^ (max_retries - 1) - 1.
Proof.
  intros Hmax Hfail Hlast. cbn zeta. unfold LLM.chat.
  destruct (chat_loop_spec create max_retries (Z.to_nat (max_retries - 1)) 0
              (Z.to_nat max_retries)) as [_ Herr]; [lia | lia | |].
  { intros i Hi. apply Hfail. lia. }
  replace (0 + Z.of_nat (Z.to_nat (max_retries - 1))) with (max_retries - 1)
    in Herr by lia.
  rewrite (Herr e eq_refl Hlast).
  cbn [fst snd]. split; first done.
  rewrite count_creates_attempts_trace total_sleep_attempts_trace; last lia.
  split; first lia.
  replace (0 + Z.of_nat (Z.to_nat (max_retries - 1))) with (max_retries - 1) by lia.
  done.
Qed.

Lemma chat_exhaustion_witness :
  total_sleep (LLM.chat (fun _ => Raise (ServiceError 9)) 3).1 = 3.
Proof.
  destruct (chat_exhaustion_cost (fun _ => Raise (ServiceError 9)) 3 (ServiceError 9))
    as (_ & _ & H); [lia | by eexists | done | exact H].
Defined.

(** X4. [simple_chat] allows three attempts. When the first [k] of them
    fail and attempt [k] answers, it returns the [content] of the first
    choice, which may be [None], and raises [IndexError] when the answer
    has no choice; nothing is sent after that attempt. *)
Theorem simple_chat_first_answer
    (create : Z -> result LLM.Response) (k : nat) (r : LLM.Response) :
  (k < 3)%nat ->
  (forall i, 0 <= i < Z.of_nat k -> exists e, create i = Raise e) ->
  create (Z.of_nat k) = Ok r ->
  LLM.simple_chat create
  = (LLM.attempts_trace 0 k,
     match LLM.choices r with
     | [] => Raise IndexError
     | m :: _ => Ok (LLM.content m)
     end).
Proof.
  intros Hk Hfail Hr. unfold LLM.simple_chat, LLM.chat.
  destruct (chat_loop_spec create 3 k 0 (Z.to_nat 3)) as [Hok _]; [lia | lia | done |].
  by rewrite (Hok r Hr).
Qed.

Lemma simple_chat_first_answer_witness :
  LLM.simple_chat (fun i => if i <? 2 then Raise (ServiceError 1)
                            else Ok {| LLM.choices := [] |})
  = ([LLM.Create 0; LLM.Sleep 1; LLM.Create 1; LLM.Sleep 2; LLM.Create 2],
     Raise IndexError).
Proof.
  apply (simple_chat_first_answer _ 2 {| LLM.choices := [] |}); [lia | | done].
  intros i Hi. exists (ServiceError 1).
  by destruct (Z.ltb_spec i 2); [|lia].
Defined.

(** ** The validator: repairs and outcomes *)

Section validator_facts.

Variable ast_parse : pystr -> result (list ValidatorAgent.ast_node).
Variable str_of_exn : exn -> pystr.
Variable simple_chat : nat -> pystr -> result (option pystr).
Variable max_retries : Z.

Let validate_loop := ValidatorAgent.validate_loop ast_parse str_of_exn simple_chat max_retries.
Let _fix_code := ValidatorAgent._fix_code ast_parse simple_chat.

Lemma fix_code_spec n code error fixed :
  _fix_code n code error = Some fixed ->
  (exists text,
     simple_chat n (ValidatorAgent.fix_prompt code error) = Ok (Some text) /\
     Py.first_python_block text = Some fixed) /\
  exists tree, ast_parse fixed = Ok tree.
Proof.
  unfold _fix_code, ValidatorAgent._fix_code, ValidatorAgent._check_syntax.
  unfold mbind, result_bind, try_except.
  destruct (simple_chat n _) as [[text|]|] eqn:Hc; try done.
  destruct (Py.first_python_block text) as [block|] eqn:Hb; last done.
  destruct (ast_parse block) as [tree|e] eqn:E.
  - intros [= <-]. split; [by exists text | by exists tree].
  - by destruct e.
Qed.

(** Text that parses passes the loop at once. *)
Lemma validate_loop_parsing code n retry_count current_code tree :
  ast_parse current_code = Ok tree ->
  validate_loop code (S n) retry_count current_code
  = ([], Ok (ValidatorRun.valid_outcome ast_parse str_of_exn code current_code)).
Proof.
  intros H. unfold validate_loop. cbn [ValidatorAgent.validate_loop].
  rewrite (check_syntax_ok _ _ _ H) (check_imports_ok _ str_of_exn _ _ H).
  unfold ValidatorRun.valid_outcome.
  destruct (ValidatorAgent._static_analysis _ _ _) as [ok issues] eqn:E.
  do 3 f_equal. cbn [snd].
  unfold ValidatorAgent._static_analysis in E. rewrite H in E.
  match type of E with (_, ?l) = _ => set (iss := l) in E end.
  injection E as <- <-.
  case_bool_decide as Hlen; cbn [negb]; last done. by destruct iss.
Qed.

Let run_of (code : GeneratedCode.t) :=
  ValidatorAgent._validate_single_code ast_parse str_of_exn simple_chat max_retries code.

(** Every way a validation can go. *)
Lemma validate_single_cases code :
  (max_retries <= 0 /\
   run_of code = ([], Ok (ValidatorRun.exceeded_outcome max_retries code))) \/
  (0 < max_retries /\ exists tree,
     ast_parse (GeneratedCode.code code) = Ok tree /\
     run_of code
     = ([], Ok (ValidatorRun.valid_outcome ast_parse str_of_exn code
                  (GeneratedCode.code code)))) \/
  (0 < max_retries /\ exists e,
     ast_parse (GeneratedCode.code code) = Raise e /\
     (forall lineno msg, e <> SyntaxError lineno msg) /\
     run_of code = ([], Raise e)) \/
  (0 < max_retries /\ exists lineno msg,
     ast_parse (GeneratedCode.code code) = Raise (SyntaxError lineno msg) /\
     run_of code
     = ([ValidatorAgent.FixFailed],
        Ok (ValidatorRun.syntax_error_outcome code
              (Some (ValidatorRun.syntax_message lineno msg))))) \/
  (0 < max_retries /\ exists lineno msg fixed tree,
     ast_parse (GeneratedCode.code code) = Raise (SyntaxError lineno msg) /\
     _fix_code 0 (GeneratedCode.code code)
       (p{"语法错误: "} ++ ValidatorRun.syntax_message lineno msg) = Some fixed /\
     fixed <> [] /\ fixed <> GeneratedCode.code code /\
     ast_parse fixed = Ok tree /\
     ((max_retries = 1 /\
       run_of code
       = ([ValidatorAgent.FixOk], Ok (ValidatorRun.exceeded_outcome max_retries code))) \/
      (2 <= max_retries /\
       run_of code
       = ([ValidatorAgent.FixOk],
          Ok (ValidatorRun.valid_outcome ast_parse str_of_exn code fixed))))).
Proof.
  unfold run_of, ValidatorAgent._validate_single_code.
  destruct (Z.to_nat max_retries) as [|n] eqn:En.
  { left. split; [lia | done]. }
  right. assert (Hpos : 0 < max_retries) by lia.
  destruct (ast_parse (GeneratedCode.code code)) as [tree|e] eqn:Hparse.
  { left. split; first done. exists tree. split; first done.
    by apply validate_loop_parsing with tree. }
  right.
  assert (Hcases : (exists lineno msg, e = SyntaxError lineno msg)
                   \/ forall lineno msg, e <> SyntaxError lineno msg).
  { destruct e; try (by right); left; by eexists _, _. }
  destruct Hcases as [(lineno & msg & ->)|Hother].
  2:{ left. split; first done. exists e. do 2 (split; first done).
      cbn [ValidatorAgent.validate_loop]. unfold ValidatorAgent._check_syntax.
      rewrite Hparse. destruct e; try done. by destruct (Hother lineno msg). }
  right. cbn [ValidatorAgent.validate_loop].
  rewrite (check_syntax_error _ _ _ _ Hparse).
  change (fmt_opt (Some ?x)) with x.
  fold (ValidatorRun.syntax_message lineno msg).
  fold (_fix_code 0 (GeneratedCode.code code)
          (p{"语法错误: "} ++ ValidatorRun.syntax_message lineno msg)).
  destruct (_fix_code 0 _ _) as [fixed|] eqn:Hfix.
  2:{ left. split; first done. by exists lineno, msg. }
  destruct (fix_code_spec _ _ _ _ Hfix) as [_ [tree Htree]].
  destruct fixed as [|c fixed'].
  { left. split; first done. by exists lineno, msg. }
  right. split; first done. exists lineno, msg, (c :: fixed'), tree.
  assert (Hdiff : c :: fixed' <> GeneratedCode.code code) by (intros Heq; congruence).
  do 5 (split; first done).
  cbn [truthy default]. fold validate_loop.
  destruct n as [|n].
  - left. split; [lia | done].
  - right. split; first lia. by rewrite (validate_loop_parsing _ _ _ _ _ Htree).
Qed.

End validator_facts.

(** X5. A repair that [_fix_code] returns is the content of the first
    fenced Python block of the model's answer to that request, and it
    parses. *)
Theorem fix_code_returns_parsing_block
    (ast_parse : pystr -> result (list ValidatorAgent.ast_node))
    (simple_chat : nat -> pystr -> result (option pystr))
    (n : nat) (code error fixed : pystr) :
  ValidatorAgent._fix_code ast_parse simple_chat n code error = Some fixed ->
  (exists text,
     simple_chat n (ValidatorAgent.fix_prompt code error) = Ok (Some text) /\
     Py.first_python_block text = Some fixed) /\
  exists tree, ast_parse fixed = Ok tree.
Proof. apply fix_code_spec. Qed.

Lemma fix_code_returns_parsing_witness :
  exists tree, Scenario.ast_parse (p{"print(1)"} ++ [10%N]) = Ok tree.
Proof.
  by destruct (fix_code_returns_parsing_block Scenario.ast_parse Scenario.simple_chat
                 0 Scenario.broken_source p{"error"} (p{"print(1)"} ++ [10%N]))
    as [_ H]; [vm_compute | exact H].
Defined.

(** X6. Whatever the budget, the validation of one artifact makes at most
    one repair request: a repair that comes back parses, so the next pass
    of the loop returns. *)
Theorem validator_at_most_one_repair_request
    (ast_parse : pystr -> result (list ValidatorAgent.ast_node))
    (str_of_exn : exn -> pystr)
    (simple_chat : nat -> pystr -> result (option pystr))
    (max_retries : Z) (code : GeneratedCode.t) :
  let run :=
    ValidatorAgent._validate_single_code ast_parse str_of_exn simple_chat
      max_retries code in
  (ValidatorAgent.fix_attempts run.1 <= 1)%nat /\
  (run.1 = [] \/ run.1 = [ValidatorAgent.FixFailed] \/ run.1 = [ValidatorAgent.FixOk]).
Proof.
  cbn zeta.
  destruct (validate_single_cases ast_parse str_of_exn simple_chat max_retries code)
    as [[_ ->]|[(_ & tree & _ & ->)|[(_ & e & _ & _ & ->)|[(_ & l & m & _ & ->)
       |(_ & l & m & fixed & tree & _ & _ & _ & _ & _ & [[_ ->]|[_ ->]])]]]];
    cbn [fst ValidatorAgent.fix_attempts length]; (split; first lia); auto.
Qed.

(** X7. With a budget of at least one, an artifact whose source parses is
    declared valid without any repair request: no error message, no
    replacement text, and the remarks of the static analysis as
    suggestions, whatever they are. *)
Theorem validator_passes_parsing_source
    (ast_parse : pystr -> result (list ValidatorAgent.ast_node))
    (str_of_exn : exn -> pystr)
    (simple_chat : nat -> pystr -> result (option pystr))
    (max_retries : Z) (code : GeneratedCode.t)
    (tree : list ValidatorAgent.ast_node) :
  1 <= max_retries ->
  ast_parse (GeneratedCode.code code) = Ok tree ->
  exists r,
    ValidatorAgent._validate_single_code ast_parse str_of_exn simple_chat
      max_retries code = ([], Ok r) /\
    ValidationResult.is_valid r = true /\
    ValidationResult.error_message r = None /\
    ValidationResult.fixed_code r = None /\
    ValidationResult.suggestions r
    = (ValidatorAgent._static_analysis ast_parse str_of_exn (GeneratedCode.code code)).2.
Proof.
  intros Hmax Hparse. unfold ValidatorAgent._validate_single_code.
  destruct (Z.to_nat max_retries) as [|n] eqn:En; first lia.
  rewrite (validate_loop_parsing _ _ _ _ _ _ _ _ _ Hparse).
  eexists. split; first done. cbn. repeat split.
  by rewrite bool_decide_false; last by intros [].
Qed.

Lemma validator_passes_parsing_witness :
  exists r,
    ValidatorAgent._validate_single_code Scenario.ast_parse Scenario.str_of_exn
      Scenario.simple_chat 5
      {| GeneratedCode.task_id := p{"t"}; GeneratedCode.file_name := p{"a.py"};
         GeneratedCode.code := p{"x = 1"}; GeneratedCode.description := [];
         GeneratedCode.dependencies := [] |} = ([], Ok r) /\
    ValidationResult.is_valid r = true.
Proof.
  destruct (validator_passes_parsing_source Scenario.ast_parse Scenario.str_of_exn
              Scenario.simple_chat 5
              {| GeneratedCode.task_id := p{"t"}; GeneratedCode.file_name := p{"a.py"};
                 GeneratedCode.code := p{"x = 1"}; GeneratedCode.description := [];
                 GeneratedCode.dependencies := [] |} [ValidatorAgent.OtherNode])
    as (r & H1 & H2 & _); [lia | by vm_compute |]. by exists r.
Defined.

(** X8. With a budget of zero or less nothing is checked: the outcome is
    invalid, with the message that the retries were exceeded, also for an
    artifact whose source parses. *)
Theorem validator_without_budget_rejects
    (ast_parse : pystr -> result (list ValidatorAgent.ast_node))
    (str_of_exn : exn -> pystr)
    (simple_chat : nat -> pystr -> result (option pystr))
    (max_retries : Z) (code : GeneratedCode.t) :
  max_retries <= 0 ->
  exists r,
    ValidatorAgent._validate_single_code ast_parse str_of_exn simple_chat
      max_retries code = ([], Ok r) /\
    ValidationResult.is_valid r = false /\
    ValidationResult.fixed_code r = None /\
    ValidationResult.error_message r
    = Some (p{"超过最大重试次数("} ++ Py.str_of_int max_retries ++ p{")"}).
Proof.
  intros Hmax. unfold ValidatorAgent._validate_single_code.
  replace (Z.to_nat max_retries) with 0%nat by lia.
  eexists. split; first done. by repeat split.
Qed.

Lemma validator_without_budget_witness :
  exists r,
    ValidatorAgent._validate_single_code Scenario.ast_parse Scenario.str_of_exn
      Scenario.simple_chat 0
      {| GeneratedCode.task_id := p{"t"}; GeneratedCode.file_name := p{"a.py"};
         GeneratedCode.code := p{"x = 1"}; GeneratedCode.description := [];
         GeneratedCode.dependencies := [] |} = ([], Ok r) /\
    ValidationResult.is_valid r = false.
Proof.
  destruct (validator_without_budget_rejects Scenario.ast_parse Scenario.str_of_exn
              Scenario.simple_chat 0
              {| GeneratedCode.task_id := p{"t"}; GeneratedCode.file_name := p{"a.py"};
                 GeneratedCode.code := p{"x = 1"}; GeneratedCode.description := [];
                 GeneratedCode.dependencies := [] |})
    as (r & H1 & H2 & _); first lia. by exists r.
Defined.

(** An outcome carries the task id of its artifact. *)
Lemma validator_outcome_task_id
    (ast_parse : pystr -> result (list ValidatorAgent.ast_node))
    (str_of_exn : exn -> pystr)
    (simple_chat : nat -> pystr -> result (option pystr))
    (max_retries : Z) (code : GeneratedCode.t) (r : ValidationResult.t) :
  (ValidatorAgent._validate_single_code ast_parse str_of_exn simple_chat
     max_retries code).2 = Ok r ->
  ValidationResult.task_id r = GeneratedCode.task_id code.
Proof.
  destruct (validate_single_cases ast_parse str_of_exn simple_chat max_retries code)
    as [[_ ->]|[(_ & tree & Hp & ->)|[(_ & e & _ & _ & ->)|[(_ & l & m & _ & ->)
       |(_ & l & m & fixed & tree & _ & _ & _ & Hd & Hp & [[_ ->]|[_ ->]])]]]];
    cbn [snd]; by intros [= <-].
Qed.

(** A replacement text parses and is not the original source. *)
Lemma validator_outcome_invariants_aux
    (ast_parse : pystr -> result (list ValidatorAgent.ast_node))
    (str_of_exn : exn -> pystr)
    (simple_chat : nat -> pystr -> result (option pystr))
    (max_retries : Z) (code : GeneratedCode.t) (r : ValidationResult.t) :
  (ValidatorAgent._validate_single_code ast_parse str_of_exn simple_chat
     max_retries code).2 = Ok r ->
  forall c, ValidationResult.fixed_code r = Some c ->
    c <> GeneratedCode.code code /\ exists tree, ast_parse c = Ok tree.
Proof.
  destruct (validate_single_cases ast_parse str_of_exn simple_chat max_retries code)
    as [[_ ->]|[(_ & tree & Hp & ->)|[(_ & e & _ & _ & ->)|[(_ & l & m & _ & ->)
       |(_ & l & m & fixed & tree & _ & _ & _ & Hd & Hp & [[_ ->]|[_ ->]])]]]];
    cbn [snd]; intros [= <-] c; cbn; try done.
  all: case_bool_decide; intros; simplify_eq; try done.
  split; first done. by exists tree.
Qed.


(** X9. What every outcome of a validation satisfies. It carries the
    artifact's task id. A valid outcome has both checks passed and no
    error message; an invalid one has an error message and no replacement
    text. A replacement text is there only in a valid outcome, and then it
    parses and is not the original source. *)
Theorem validator_outcome_invariants
    (ast_parse : pystr -> result (list ValidatorAgent.ast_node))
    (str_of_exn : exn -> pystr)
    (simple_chat : nat -> pystr -> result (option pystr))
    (max_retries : Z) (code : GeneratedCode.t) (r : ValidationResult.t) :
  (ValidatorAgent._validate_single_code ast_parse str_of_exn simple_chat
     max_retries code).2 = Ok r ->
  ValidationResult.task_id r = GeneratedCode.task_id code /\
  (ValidationResult.is_valid r = true ->
   ValidationResult.syntax_check r = true /\
   ValidationResult.import_check r = true /\
   ValidationResult.error_message r = None) /\
  (ValidationResult.is_valid r = false ->
   is_Some (ValidationResult.error_message r) /\
   ValidationResult.fixed_code r = None) /\
  (forall c, ValidationResult.fixed_code r = Some c ->
   ValidationResult.is_valid r = true /\
   c <> GeneratedCode.code code /\
   exists tree, ast_parse c = Ok tree).
Proof.
  destruct (validate_single_cases ast_parse str_of_exn simple_chat max_retries code)
    as [[_ ->]|[(_ & tree & Hp & ->)|[(_ & e & _ & _ & ->)|[(_ & l & m & _ & ->)
       |(_ & l & m & fixed & tree & _ & _ & _ & Hd & Hp & [[_ ->]|[_ ->]])]]]];
    cbn [snd]; intros [= <-]; cbn; repeat split; try done; try by eexists.
  all: match goal with H : (if bool_decide _ then _ else _) = Some _ |- _ =>
         case_bool_decide; simplify_eq end; try done.
  by exists tree.
Qed.

Lemma validator_outcome_invariants_witness :
  exists r,
    (ValidatorAgent._validate_single_code Scenario.ast_parse Scenario.str_of_exn
       Scenario.simple_chat 5 Scenario.artifact).2 = Ok r /\
    ValidationResult.task_id r = p{"task_1"}.
Proof.
  eexists. split; first by vm_compute.
  by destruct (validator_outcome_invariants Scenario.ast_parse Scenario.str_of_exn
                 Scenario.simple_chat 5 Scenario.artifact _ eq_refl) as [H _].
Defined.

Section static_analysis_facts.

Lemma missing_docstring_none tree :
  concat (ValidatorAgent.missing_docstring <$> tree) = []
  <-> forallb documented tree = true.
Proof.
  induction tree as [|n tree IH]; first done.
  cbn [fmap list_fmap concat forallb]. rewrite andb_true_iff -IH.
  split.
  - intros [H1 H2]%app_eq_nil. split; last done.
    destruct n; try done. cbn in *. by destruct (truthy docstring).
  - intros [H1 ->]. rewrite app_nil_r.
    destruct n; try done. cbn in *. by rewrite H1.
Qed.

End static_analysis_facts.

(** X10. For source that parses, the static analysis has nothing to
    remark exactly when the tree holds a function named [main] or a test
    of [__name__], holds a [try], and every function in it has a
    documentation string that is not empty. *)
Theorem static_analysis_passes_iff
    (ast_parse : pystr -> result (list ValidatorAgent.ast_node))
    (str_of_exn : exn -> pystr) (code : pystr)
    (tree : list ValidatorAgent.ast_node) :
  ast_parse code = Ok tree ->
  (ValidatorAgent._static_analysis ast_parse str_of_exn code).1
  = (existsb ValidatorAgent.is_main_def tree || existsb ValidatorAgent.is_if_main tree)
    && existsb ValidatorAgent.is_try tree && forallb documented tree.
Proof.
  intros H. unfold ValidatorAgent._static_analysis. rewrite H. cbn [fst].
  destruct (forallb documented tree) eqn:Hdoc.
  - apply missing_docstring_none in Hdoc. rewrite Hdoc app_nil_r.
    destruct (existsb ValidatorAgent.is_main_def tree),
      (existsb ValidatorAgent.is_if_main tree),
      (existsb ValidatorAgent.is_try tree); reflexivity.
  - rewrite andb_false_r. apply bool_decide_eq_false. intros Hlen.
    apply nil_length_inv in Hlen.
    apply app_eq_nil in Hlen as [_ Hlen]. apply app_eq_nil in Hlen as [_ Hlen].
    apply missing_docstring_none in Hlen. congruence.
Qed.

Lemma static_analysis_passes_witness :
  (ValidatorAgent._static_analysis
     (fun _ => Ok [ValidatorAgent.FunctionDef p{"main"} (Some p{"Entry point."});
                   ValidatorAgent.Try])
     Scenario.str_of_exn p{"def main(): ..."}).1 = true.
Proof.
  by rewrite (static_analysis_passes_iff _ _ _
                [ValidatorAgent.FunctionDef p{"main"} (Some p{"Entry point."});
                 ValidatorAgent.Try]).
Defined.

(** X11. [validate_and_fix] returns the artifact it was given, or one
    that differs from it in the source text only; a new source text
    parses. *)
Theorem validate_and_fix_frame
    (ast_parse : pystr -> result (list ValidatorAgent.ast_node))
    (str_of_exn : exn -> pystr)
    (simple_chat : nat -> pystr -> result (option pystr))
    (max_retries : Z) (code code' : GeneratedCode.t) :
  ValidatorAgent.validate_and_fix ast_parse str_of_exn simple_chat max_retries code
    = Ok code' ->
  GeneratedCode.task_id code' = GeneratedCode.task_id code /\
  GeneratedCode.file_name code' = GeneratedCode.file_name code /\
  GeneratedCode.description code' = GeneratedCode.description code /\
  GeneratedCode.dependencies code' = GeneratedCode.dependencies code /\
  (code' = code \/
   (GeneratedCode.code code' <> GeneratedCode.code code /\
    exists tree, ast_parse (GeneratedCode.code code') = Ok tree)).
Proof.
  unfold ValidatorAgent.validate_and_fix, mbind, result_bind.
  destruct (ValidatorAgent._validate_single_code _ _ _ _ _).2 as [r|e] eqn:Hrun;
    last done.
  pose proof (validator_outcome_invariants_aux ast_parse str_of_exn simple_chat
                max_retries code r Hrun) as Hfixed.
  destruct (ValidationResult.fixed_code r) as [[|c fixed]|]; cbn [truthy default].
  - intros [= <-]. repeat split. by left.
  - intros [= <-]. cbn. repeat split. right.
    by destruct (Hfixed (c :: fixed) eq_refl).
  - intros [= <-]. repeat split. by left.
Qed.

Lemma validate_and_fix_witness :
  exists code',
    ValidatorAgent.validate_and_fix Scenario.ast_parse Scenario.str_of_exn
      Scenario.simple_chat 5 Scenario.artifact = Ok code' /\
    GeneratedCode.file_name code' = p{"utility.py"}.
Proof.
  eexists. split; first by vm_compute.
  by destruct (validate_and_fix_frame Scenario.ast_parse Scenario.str_of_exn
                 Scenario.simple_chat 5 Scenario.artifact _ eq_refl) as (_ & H & _).
Defined.

(** ** Validation of a list, and the fixes *)

Section run_and_fixes.

Variable ast_parse : pystr -> result (list ValidatorAgent.ast_node).
Variable str_of_exn : exn -> pystr.
Variable simple_chat : nat -> nat -> pystr -> result (option pystr).
Variable max_retries : Z.

Lemma run_from_ids codes : forall i results,
  ValidatorRun.run_from ast_parse str_of_exn simple_chat max_retries i codes = Ok results ->
  Forall2 (fun code r => ValidationResult.task_id r = GeneratedCode.task_id code)
    codes results.
Proof.
  induction codes as [|code codes IH]; intros i results.
  - by intros [= <-].
  - cbn [ValidatorRun.run_from]. unfold mbind, result_bind.
    destruct (ValidatorAgent._validate_single_code _ _ _ _ _).2 as [r|] eqn:Hr; last done.
    destruct (ValidatorRun.run_from _ _ _ _ _ _) as [rs|] eqn:Hrs; last done.
    intros [= <-]. constructor; last by eapply IH.
    by apply (validator_outcome_task_id _ _ _ _ _ _ Hr).
Qed.

Lemma result_map_snoc results r :
  Workflow.result_map (results ++ [r])
  = <[ValidationResult.task_id r := r]> (Workflow.result_map results).
Proof. unfold Workflow.result_map. by rewrite foldl_app. Qed.

Lemma result_map_lookup_NoDup results : forall i r,
  NoDup (ValidationResult.task_id <$> results) ->
  results !! i = Some r ->
  Workflow.result_map results !! ValidationResult.task_id r = Some r.
Proof.
  induction results as [|r0 results IH] using rev_ind; intros i r Hnd Hi; first done.
  rewrite result_map_snoc. rewrite fmap_app in Hnd.
  apply NoDup_app in Hnd as (Hnd & Hnot & _).
  destruct (decide (i < length results)%nat) as [Hlt|Hge].
  - rewrite lookup_app_l in Hi; last done.
    rewrite lookup_insert_ne; first by eapply IH.
    intros Heq. apply (Hnot (ValidationResult.task_id r)).
    + apply list_elem_of_fmap. exists r. split; first done.
      by eapply list_elem_of_lookup_2.
    + rewrite -Heq. left.
  - rewrite lookup_app_r in Hi; last lia.
    destruct (i - length results)%nat; last done.
    injection Hi as ->. by rewrite lookup_insert_eq.
Qed.

End run_and_fixes.

(** X12. When the artifacts have distinct task ids, applying the fixes to
    what [ValidatorAgent.run] returned gives every artifact the result of
    its own validation: the list of results is as long as the list of
    artifacts, and the artifact at each position is fixed from the result
    at that position. *)
Theorem apply_fixes_after_run
    (ast_parse : pystr -> result (list ValidatorAgent.ast_node))
    (str_of_exn : exn -> pystr)
    (simple_chat : nat -> nat -> pystr -> result (option pystr))
    (max_retries : Z) (codes : list GeneratedCode.t)
    (results : list ValidationResult.t) :
  ValidatorRun.run ast_parse str_of_exn simple_chat max_retries codes = Ok results ->
  NoDup (GeneratedCode.task_id <$> codes) ->
  length results = length codes /\
  Workflow._apply_fixes codes results = zip_with ValidatorRun.apply_fix codes results.
Proof.
  intros Hrun Hnd. unfold ValidatorRun.run in Hrun.
  apply (run_from_ids _ _ _ _ codes 0%nat results) in Hrun.
  assert (Hids : ValidationResult.task_id <$> results = GeneratedCode.task_id <$> codes).
  { clear Hnd. induction Hrun as [|code r codes results Hid _ IH]; first done.
    by rewrite !fmap_cons Hid IH. }
  split; first by rewrite (Forall2_length _ _ _ Hrun).
  apply list_eq. intros i. unfold Workflow._apply_fixes.
  rewrite list_lookup_fmap lookup_zip_with.
  destruct (codes !! i) as [code|] eqn:Hcode; last done. cbn [fmap option_fmap option_map mbind option_bind].
  destruct (Forall2_lookup_l _ _ _ _ _ Hrun Hcode) as (r & Hr & Hid).
  rewrite Hr. cbn [mbind option_bind].
  rewrite -Hid (result_map_lookup_NoDup results i r) //; last by rewrite Hids.
  by rewrite Hid.
Qed.

(** The theorem at two artifacts with the ids [task_2] and [task_1]: the
    first parses and is kept, the second does not and is repaired; each
    gets the result at its own position, and only the second changes. *)
Lemma apply_fixes_after_run_witness :
  exists results,
    ValidatorRun.run Scenario.ast_parse Scenario.str_of_exn
      (fun _ => Scenario.simple_chat) 5 [Scenario.artifact_ok; Scenario.artifact]
    = Ok results /\
    ValidationResult.task_id <$> results = [p{"task_2"}; p{"task_1"}] /\
    ValidationResult.fixed_code <$> results = [None; Some (p{"print(1)"} ++ [10%N])] /\
    Workflow._apply_fixes [Scenario.artifact_ok; Scenario.artifact] results
    = zip_with ValidatorRun.apply_fix [Scenario.artifact_ok; Scenario.artifact] results /\
    GeneratedCode.code <$>
      Workflow._apply_fixes [Scenario.artifact_ok; Scenario.artifact] results
    = [p{"x = 1"}; p{"print(1)"} ++ [10%N]].
Proof.
  destruct (ValidatorRun.run Scenario.ast_parse Scenario.str_of_exn
              (fun _ => Scenario.simple_chat) 5 [Scenario.artifact_ok; Scenario.artifact])
    as [results|e] eqn:Hrun; last by vm_compute in Hrun.
  exists results.
  destruct (apply_fixes_after_run Scenario.ast_parse Scenario.str_of_exn
              (fun _ => Scenario.simple_chat) 5 [Scenario.artifact_ok; Scenario.artifact]
              results Hrun) as [_ Hfix].
  { apply (bool_decide_eq_true_1 (NoDup _)). by vm_compute. }
  rewrite Hfix.
  assert (Hres : Ok results
                 = ValidatorRun.run Scenario.ast_parse Scenario.str_of_exn
                     (fun _ => Scenario.simple_chat) 5
                     [Scenario.artifact_ok; Scenario.artifact]) by done.
  vm_compute in Hres. injection Hres as ->.
  repeat split; by vm_compute.
Defined.

(** ** The file mapping of the bundle *)

(** X13. In the file mapping of the project output no file name occurs
    twice, and the content under a name is the source of the last
    artifact of the list that has this file name. *)
Theorem files_last_writer_wins (task_id : pystr)
    (parsed_content : ParsedContent.t) (analysis_result : AnalysisResult.t)
    (codes : list GeneratedCode.t) :
  let files :=
    ProjectOutput.files
      (Workflow._generate_project_output task_id parsed_content analysis_result codes) in
  NoDup files.*1 /\
  forall name,
    Py.dict_lookup name files
    = GeneratedCode.code <$>
        last (List.filter (fun c => bool_decide (GeneratedCode.file_name c = name)) codes).
Proof.
  cbn. split; first apply dict_of_pairs_keys_NoDup.
  intros name. induction codes as [|c codes IH] using rev_ind; first done.
  rewrite fmap_app /= dict_of_pairs_snoc List.filter_app /=.
  case_bool_decide as Hname.
  - rewrite Hname dict_lookup_set_eq. by rewrite last_snoc.
  - rewrite app_nil_r dict_lookup_set_ne //.
Qed.

Example files_ex :
  ProjectOutput.files
    (Workflow._generate_project_output p{"run"} (ParsedContent.of_raw_markdown [])
       (Scenario.analysis [])
       [ {| GeneratedCode.task_id := p{"t1"}; GeneratedCode.file_name := p{"main.py"};
            GeneratedCode.code := p{"first"}; GeneratedCode.description := [];
            GeneratedCode.dependencies := [] |};
         {| GeneratedCode.task_id := p{"t2"}; GeneratedCode.file_name := p{"b.py"};
            GeneratedCode.code := p{"second"}; GeneratedCode.description := [];
            GeneratedCode.dependencies := [] |};
         {| GeneratedCode.task_id := p{"main"}; GeneratedCode.file_name := p{"main.py"};
            GeneratedCode.code := p{"third"}; GeneratedCode.description := [];
            GeneratedCode.dependencies := [] |} ])
  = [(p{"main.py"}, p{"third"}); (p{"b.py"}, p{"second"})].
Proof. vm_compute. reflexivity. Qed.

(** ** The parser: polling and the fallback chain *)

Section parser_facts.

Variable float_nonzero : pystr -> bool.
Variable path_exists : pystr -> bool.
Variable post_task : json -> result ParserAgent.HttpResponse.
Variable post_upload : pystr -> result ParserAgent.HttpResponse.
Variable get_status : json -> nat -> result ParserAgent.HttpResponse.
Variable get_text : json -> result pystr.
Variable polls_allowed : nat.
Variable fitz_pages : pystr -> result (list pystr).

Let poll_once := ParserAgent.poll_once float_nonzero get_status get_text.
Let poll_loop := ParserAgent.poll_loop float_nonzero get_status get_text.
Let _submit_url_task :=
  ParserAgent._submit_url_task float_nonzero post_task get_status get_text polls_allowed.
Let _upload_and_parse :=
  ParserAgent._upload_and_parse float_nonzero post_task post_upload get_status
    get_text polls_allowed.

Lemma poll_loop_first_return task_id n : forall k,
  poll_loop task_id n k
  = default JNull (head (omap returned (poll_once task_id <$> seq k n))).
Proof.
  induction n as [|n IH]; intros k; first done.
  cbn [seq fmap list_fmap omap]. unfold poll_loop. cbn [ParserAgent.poll_loop].
  fold poll_loop. fold (poll_once task_id k).
  destruct (poll_once task_id k) as [[v|]|e]; cbn [returned]; first done.
  - apply IH.
  - apply IH.
Qed.

(** The loop passes over every pass that does not return. *)
Lemma poll_loop_skip task_id n : forall k m,
  (forall j, (j < m)%nat -> returned (poll_once task_id (k + j)) = None) ->
  poll_loop task_id (m + n) k = poll_loop task_id n (k + m).
Proof.
  intros k m. revert k. induction m as [|m IH]; intros k Hnone.
  - by rewrite Nat.add_0_r.
  - cbn [Nat.add]. unfold poll_loop. cbn [ParserAgent.poll_loop].
    fold poll_loop. fold (poll_once task_id k).
    pose proof (Hnone 0%nat ltac:(lia)) as H0. rewrite Nat.add_0_r in H0.
    replace (k + S m)%nat with (S k + m)%nat by lia.
    destruct (poll_once task_id k) as [[v|]|e]; first done.
    + apply IH. intros j Hj. replace (S k + j)%nat with (k + S j)%nat by lia.
      apply Hnone. lia.
    + apply IH. intros j Hj. replace (S k + j)%nat with (k + S j)%nat by lia.
      apply Hnone. lia.
Qed.

Lemma submit_url_task_remote url : forallb is_remote (_submit_url_task url).1 = true.
Proof.
  unfold _submit_url_task, ParserAgent._submit_url_task.
  by repeat case_match.
Qed.

Lemma upload_and_parse_remote pdf_path :
  forallb is_remote (_upload_and_parse pdf_path).1 = true.
Proof.
  unfold _upload_and_parse, ParserAgent._upload_and_parse.
  repeat case_match; try done.
  cbn [fst forallb is_remote andb].
  match goal with H : ParserAgent._submit_url_task _ _ _ _ _ ?u = (?l, _) |- _ =>
    pose proof (submit_url_task_remote u) as Hr;
    unfold _submit_url_task in Hr; by rewrite H in Hr end.
Qed.

End parser_facts.

(** X14. [_poll_task_result] returns what the first pass that returns at
    all returns, among the passes the clock allows, and [None] when none
    of them does. A pass whose request raises, whose answer has a status
    other than 200 or cannot be decoded, or whose task is neither
    completed nor failed returns nothing: the loop goes on with the next
    pass. A failed task ends the loop with [None], a completed one with
    the text that is inline or behind [markdown_url]. *)
Theorem poll_returns_first_answer
    (float_nonzero : pystr -> bool)
    (get_status : json -> nat -> result ParserAgent.HttpResponse)
    (get_text : json -> result pystr) (polls_allowed : nat) (task_id : json) :
  let poll_once := ParserAgent.poll_once float_nonzero get_status get_text task_id in
  let answer :=
    ParserAgent._poll_task_result float_nonzero get_status get_text polls_allowed
      task_id in
  (answer = default JNull (head (omap returned (poll_once <$> seq 0 polls_allowed))) /\
   (forall k v,
      (k < polls_allowed)%nat ->
      (forall j, (j < k)%nat -> returned (poll_once j) = None) ->
      returned (poll_once k) = Some v ->
      answer = v) /\
   ((forall j, (j < polls_allowed)%nat -> returned (poll_once j) = None) ->
    answer = JNull)) /\
  (forall k e, get_status task_id k = Raise e ->
     poll_once k = Raise e /\ returned (poll_once k) = None) /\
  (forall k response,
     get_status task_id k = Ok response ->
     ParserAgent.status response <> 200 ->
     poll_once k = Ok ParserAgent.Continue /\ returned (poll_once k) = None) /\
  (forall k response e,
     get_status task_id k = Ok response ->
     ParserAgent.status response = 200 ->
     ParserAgent.json_body response = Raise e ->
     poll_once k = Raise e /\ returned (poll_once k) = None) /\
  (forall k response payload st,
     get_status task_id k = Ok response ->
     ParserAgent.status response = 200 ->
     ParserAgent.json_body response = Ok payload ->
     ParserAgent.data_get payload p{"status"} JNull = Ok st ->
     ParserAgent.is_str st p{"completed"} = false ->
     (ParserAgent.is_str st p{"failed"} = false ->
      poll_once k = Ok ParserAgent.Continue /\ returned (poll_once k) = None) /\
     (ParserAgent.is_str st p{"failed"} = true ->
      poll_once k = Ok (ParserAgent.Return JNull))) /\
  (forall k response payload md_url,
     get_status task_id k = Ok response ->
     ParserAgent.status response = 200 ->
     ParserAgent.json_body response = Ok payload ->
     ParserAgent.data_get payload p{"status"} JNull = Ok (JStr p{"completed"}) ->
     ParserAgent.data_get payload p{"markdown_url"} JNull = Ok md_url ->
     (ParserAgent.json_truthy float_nonzero md_url = true ->
      poll_once k = (text ← get_text md_url; Ok (ParserAgent.Return (JStr text)))) /\
     (ParserAgent.json_truthy float_nonzero md_url = false ->
      forall markdown,
        ParserAgent.data_get payload p{"markdown"} (JStr []) = Ok markdown ->
        poll_once k = Ok (ParserAgent.Return markdown))).
Proof.
  cbn zeta. split; [split; [|split] | split; [|split; [|split; [|split]]]].
  - apply poll_loop_first_return.
  - intros k v Hk Hnone Hv. unfold ParserAgent._poll_task_result.
    replace polls_allowed with (k + S (polls_allowed - S k))%nat by lia.
    rewrite (poll_loop_skip float_nonzero get_status get_text task_id _ 0 k Hnone).
    cbn [Nat.add ParserAgent.poll_loop].
    by destruct (ParserAgent.poll_once _ _ _ _ _) as [[w|]|e]; simplify_eq/=.
  - intros Hnone. unfold ParserAgent._poll_task_result.
    rewrite -(Nat.add_0_r polls_allowed).
    by rewrite (poll_loop_skip float_nonzero get_status get_text task_id 0 0
                  polls_allowed Hnone).
  - intros k e He. unfold ParserAgent.poll_once, mbind, result_bind.
    by rewrite He.
  - intros k response Hresp Hst. unfold ParserAgent.poll_once, mbind, result_bind.
    rewrite Hresp. cbv beta iota. by rewrite (proj2 (Z.eqb_neq _ _) Hst).
  - intros k response e Hresp Hst Hbody.
    unfold ParserAgent.poll_once, mbind, result_bind.
    rewrite Hresp. cbv beta iota. rewrite Hst Z.eqb_refl. cbv beta iota.
    by rewrite Hbody.
  - intros k response payload st Hresp Hst Hbody Hstatus Hcompleted.
    unfold ParserAgent.poll_once, mbind, result_bind.
    rewrite Hresp. cbv beta iota. rewrite Hst Z.eqb_refl. cbv beta iota.
    rewrite Hbody. cbv beta iota. rewrite Hstatus. cbv beta iota.
    rewrite Hcompleted. split; by intros ->.
  - intros k response payload md_url Hresp Hst Hbody Hstatus Hurl.
    unfold ParserAgent.poll_once, mbind, result_bind.
    rewrite Hresp. cbv beta iota. rewrite Hst Z.eqb_refl. cbv beta iota.
    rewrite Hbody. cbv beta iota. rewrite Hstatus. cbv beta iota.
    unfold ParserAgent.is_str. rewrite bool_decide_true //.
    rewrite Hurl. cbv beta iota. split.
    + by intros ->.
    + intros -> markdown Hmd. by rewrite Hmd.
Qed.

(** The theorem at a service that answers 503, then drops the
    connection, then reports the task in progress, then completed: the
    first three passes return nothing and the fourth gives the text. *)
Lemma poll_returns_first_answer_witness :
  ParserAgent._poll_task_result (fun _ => true) Scenario.get_status
    Scenario.service_down 60 (JStr p{"t-1"})
  = JStr p{"# Title"}.
Proof.
  pose proof (poll_returns_first_answer (fun _ => true) Scenario.get_status
                Scenario.service_down 60 (JStr p{"t-1"})) as H.
  cbv zeta in H.
  destruct H as ((_ & Hfirst & _) & Hraise & Hstatus & _ & Hprogress & Hcompleted).
  apply (Hfirst 3%nat); first lia.
  - intros [|[|[|j]]] Hj; last lia.
    + by destruct (Hstatus 0%nat _ eq_refl ltac:(done)) as [_ ->].
    + by destruct (Hraise 1%nat _ eq_refl) as [_ ->].
    + by destruct (Hprogress 2%nat _ _ _ eq_refl eq_refl eq_refl eq_refl eq_refl)
        as [[_ ->] _].
  - destruct (Hcompleted 3%nat _ _ _ eq_refl eq_refl eq_refl eq_refl eq_refl)
      as [_ Hinline].
    by rewrite (Hinline eq_refl _ eq_refl).
Defined.

(** X15. A local file that exists and whose upload yields nothing: the
    chain goes through the upload tier, whose events are all remote, then
    enters the local extraction once, as its last event, and returns what
    the local extraction returns. *)
Theorem fallback_enters_local_extraction_once
    (float_nonzero : pystr -> bool) (path_exists : pystr -> bool)
    (post_task : json -> result ParserAgent.HttpResponse)
    (post_upload : pystr -> result ParserAgent.HttpResponse)
    (get_status : json -> nat -> result ParserAgent.HttpResponse)
    (get_text : json -> result pystr) (polls_allowed : nat)
    (fitz_pages : pystr -> result (list pystr)) (pdf_path : pystr) :
  Py.startswith p{"http"} pdf_path = false ->
  path_exists pdf_path = true ->
  ParserAgent.json_truthy float_nonzero
    (ParserAgent._upload_and_parse float_nonzero post_task post_upload get_status
       get_text polls_allowed pdf_path).2 = false ->
  let upload :=
    ParserAgent._upload_and_parse float_nonzero post_task post_upload get_status
      get_text polls_allowed pdf_path in
  ParserAgent._convert_pdf_to_markdown float_nonzero path_exists post_task post_upload
    get_status get_text polls_allowed fitz_pages pdf_path
  = (upload.1 ++ [ParserAgent.LocalParse pdf_path],
     (ParserAgent._local_pdf_parse fitz_pages pdf_path).2) /\
  forallb is_remote upload.1 = true.
Proof.
  intros Hhttp Hexists Hupload. cbn zeta.
  split; last apply upload_and_parse_remote.
  unfold ParserAgent._convert_pdf_to_markdown. rewrite Hhttp Hexists. cbn [negb].
  destruct (ParserAgent._upload_and_parse _ _ _ _ _ _ _) as [tr1 v1].
  cbn [snd] in Hupload. by rewrite Hupload.
Qed.

Lemma fallback_enters_local_witness :
  (ParserAgent._convert_pdf_to_markdown (fun _ => true) (fun _ => true)
     Scenario.service_down Scenario.service_down (fun _ => Scenario.service_down)
     Scenario.service_down 60 (fun _ => Ok [p{"page one"}]) p{"thesis.pdf"}).1
  = [ParserAgent.Upload p{"thesis.pdf"}; ParserAgent.LocalParse p{"thesis.pdf"}].
Proof.
  by destruct (fallback_enters_local_extraction_once (fun _ => true) (fun _ => true)
                 Scenario.service_down Scenario.service_down
                 (fun _ => Scenario.service_down) Scenario.service_down 60
                 (fun _ => Ok [p{"page one"}]) p{"thesis.pdf"}) as [-> _].
Defined.

(** X16. A remote locator, that is a path that starts with [http], is
    only ever submitted and polled: neither the upload nor the local
    extraction is entered, whatever the service answers. *)
Theorem remote_locator_stays_remote
    (float_nonzero : pystr -> bool) (path_exists : pystr -> bool)
    (post_task : json -> result ParserAgent.HttpResponse)
    (post_upload : pystr -> result ParserAgent.HttpResponse)
    (get_status : json -> nat -> result ParserAgent.HttpResponse)
    (get_text : json -> result pystr) (polls_allowed : nat)
    (fitz_pages : pystr -> result (list pystr)) (pdf_path : pystr) :
  Py.startswith p{"http"} pdf_path = true ->
  let tr :=
    (ParserAgent._convert_pdf_to_markdown float_nonzero path_exists post_task
       post_upload get_status get_text polls_allowed fitz_pages pdf_path).1 in
  (ParserAgent.Upload pdf_path ∉ tr) /\
  (ParserAgent.LocalParse pdf_path ∉ tr) /\
  (tr = [ParserAgent.SubmitUrl (JStr pdf_path)] \/
   exists task_id,
     tr = [ParserAgent.SubmitUrl (JStr pdf_path); ParserAgent.Poll task_id]).
Proof.
  intros Hhttp. cbn zeta. unfold ParserAgent._convert_pdf_to_markdown.
  rewrite Hhttp. unfold ParserAgent._submit_url_task.
  repeat case_match; cbn [fst];
    (split; [|split]); try (by right; eexists); try (by left);
    intros Hin; repeat (apply elem_of_cons in Hin as [Hin|Hin]; try done);
    by apply elem_of_nil in Hin.
Qed.

Lemma remote_locator_witness :
  let tr :=
    (ParserAgent._convert_pdf_to_markdown (fun _ => true) (fun _ => true)
       Scenario.service_down Scenario.service_down (fun _ => Scenario.service_down)
       Scenario.service_down 60 (fun _ => Ok [p{"page one"}])
       p{"https://example.org/t.pdf"}).1 in
  tr = [ParserAgent.SubmitUrl (JStr p{"https://example.org/t.pdf"})] \/
  exists task_id,
    tr = [ParserAgent.SubmitUrl (JStr p{"https://example.org/t.pdf"});
          ParserAgent.Poll task_id].
Proof.
  apply (remote_locator_stays_remote (fun _ => true) (fun _ => true)
           Scenario.service_down Scenario.service_down
           (fun _ => Scenario.service_down) Scenario.service_down 60
           (fun _ => Ok [p{"page one"}]) p{"https://example.org/t.pdf"}).
  by vm_compute.
Defined.

Section local_extraction.

Lemma page_sections_from pages : forall k : nat,
  omap (fun '(page_num, text) =>
          match Py.strip text with
          | [] => None
          | _ :: _ =>
              Some (p{"## 第 "} ++ Py.str_of_int page_num ++ p{" 页"}
                    ++ [10%N; 10%N] ++ text)
          end)
       (zip (Z.of_nat <$> seq k (length pages)) pages)
  = sections_from (Z.of_nat k) pages.
Proof.
  induction pages as [|text pages IH]; intros k; first done.
  cbn [length seq fmap list_fmap zip zip_with sections_from].
  replace (Z.of_nat k + 1) with (Z.of_nat (S k)) by lia. rewrite -(IH (S k)).
  unfold nonblank, page_section. simpl. by destruct (Py.strip text).
Qed.

Lemma page_sections_eq pages :
  ParserAgent.page_sections pages = sections_from 1 pages.
Proof. apply (page_sections_from pages 1). Qed.

Lemma sections_from_length pages : forall k,
  length (sections_from k pages) = length (List.filter nonblank pages).
Proof.
  induction pages as [|text pages IH]; intros k; first done.
  cbn [sections_from List.filter]. rewrite length_app IH.
  by destruct (nonblank text).
Qed.

Lemma sections_from_lookup pages : forall k (i : nat) text,
  pages !! i = Some text -> nonblank text = true ->
  page_section (k + Z.of_nat i) text ∈ sections_from k pages.
Proof.
  induction pages as [|t pages IH]; intros k i text Hi Hnb; first done.
  cbn [sections_from]. rewrite elem_of_app. destruct i as [|i].
  - injection Hi as ->. left. rewrite Hnb Z.add_0_r. left.
  - right. replace (k + Z.of_nat (S i)) with (k + 1 + Z.of_nat i) by lia.
    by apply IH.
Qed.

End local_extraction.

(** X17. The local extraction makes one section per page whose text is
    not blank, headed by the number the page has in the document, pages
    counted from 1; blank pages are left out without renumbering. A
    document whose pages are all blank gives the empty string, which
    [run] takes for a failed conversion. *)
Theorem local_extraction_skips_blank_pages
    (float_nonzero : pystr -> bool)
    (fitz_pages : pystr -> result (list pystr)) (pdf_path : pystr)
    (pages : list pystr) :
  fitz_pages pdf_path = Ok pages ->
  let sections := ParserAgent.page_sections pages in
  (ParserAgent._local_pdf_parse fitz_pages pdf_path).2
    = JStr (Py.join [10%N; 10%N] sections) /\
  length sections = length (List.filter nonblank pages) /\
  (forall (i : nat) text, pages !! i = Some text -> nonblank text = true ->
     page_section (Z.of_nat i + 1) text ∈ sections) /\
  (forallb (fun text => negb (nonblank text)) pages = true ->
   ParserAgent.json_truthy float_nonzero
     (ParserAgent._local_pdf_parse fitz_pages pdf_path).2 = false).
Proof.
  intros Hpages. cbn zeta. unfold ParserAgent._local_pdf_parse. rewrite Hpages.
  cbn [snd]. rewrite page_sections_eq. split; first done.
  split; first apply sections_from_length. split.
  - intros i text Hi Hnb. replace (Z.of_nat i + 1) with (1 + Z.of_nat i) by lia.
    by apply sections_from_lookup.
  - intros Hblank.
    assert (Hnone : List.filter nonblank pages = []).
    { clear Hpages. induction pages as [|t ps IH]; first done.
      cbn in Hblank |- *. apply andb_true_iff in Hblank as [Ht Hps].
      destruct (nonblank t); first done. by apply IH. }
    pose proof (sections_from_length pages 1) as Hlen. rewrite Hnone in Hlen.
    by apply nil_length_inv in Hlen as ->.
Qed.

Lemma local_extraction_witness :
  (ParserAgent._local_pdf_parse (fun _ => Ok [p{" "}; p{"text"}]) p{"t.pdf"}).2
  = JStr (p{"## 第 2 页"} ++ [10%N; 10%N] ++ p{"text"}).
Proof.
  by destruct (local_extraction_skips_blank_pages (fun _ => true)
                 (fun _ => Ok [p{" "}; p{"text"}]) p{"t.pdf"} [p{" "}; p{"text"}] eq_refl)
    as [-> _].
Defined.

(** X18. Given text, [_parse_markdown_structure] never raises, and the
    document it returns holds the whole text as [raw_markdown], whether
    the model answered, failed, or answered with something that cannot be
    decoded or validated. *)
Theorem parse_markdown_structure_keeps_text
    (lim : PyJson.limits)
    (simple_chat : json -> result (option pystr)) (not_sliceable : exn)
    (markdown : pystr) :
  exists doc,
    ParserAgent._parse_markdown_structure lim simple_chat not_sliceable (JStr markdown)
      = Ok doc /\
    ParsedContent.raw_markdown doc = markdown.
Proof.
  unfold ParserAgent._parse_markdown_structure, ParserAgent.first_8000.
  unfold mbind, result_bind. cbn [CoderAgent.as_str ParserAgent.with_raw_markdown].
  repeat case_match; simplify_eq; by eexists.
Qed.

(** ** The analyzer *)

(** X19. The data source is decided by the auxiliary files first: an
    Excel file among them wins, whatever their order, then a CSV file;
    files of any other type count for nothing, and then the tables of the
    document decide between embedded data and no data. *)
Theorem data_source_priority (parsed_content : ParsedContent.t)
    (data_files : option (list DataFileInfo.t)) :
  let files := default [] data_files in
  let has ty := exists f, f ∈ files /\ DataFileInfo.file_type f = ty in
  let source := AnalyzerAgent._determine_data_source parsed_content data_files in
  (source = EXCEL_FILE <-> has p{"excel"}) /\
  (source = CSV_FILE <-> ~ has p{"excel"} /\ has p{"csv"}) /\
  (source = PDF_EMBEDDED <->
     ~ has p{"excel"} /\ ~ has p{"csv"} /\ ParsedContent.tables parsed_content <> []) /\
  (source = NO_DATA <->
     ~ has p{"excel"} /\ ~ has p{"csv"} /\ ParsedContent.tables parsed_content = []).
Proof.
  cbn zeta. unfold AnalyzerAgent._determine_data_source.
  set (files := default [] data_files).
  assert (Hex : forall ty,
            existsb (fun f => bool_decide (DataFileInfo.file_type f = ty)) files = true
            <-> exists f, f ∈ files /\ DataFileInfo.file_type f = ty).
  { intros ty. rewrite existsb_exists. split.
    - intros (f & Hin & Hty). exists f. split; first by apply list_elem_of_In.
      by apply bool_decide_eq_true in Hty.
    - intros (f & Hin & Hty). exists f. split; first by apply list_elem_of_In.
      by apply bool_decide_eq_true. }
  pose proof (Hex p{"excel"}) as H1. pose proof (Hex p{"csv"}) as H2. clear Hex.
  destruct (existsb (fun f => bool_decide (DataFileInfo.file_type f = p{"excel"})) files).
  { pose proof (proj1 H1 eq_refl). repeat split; try done; by intros []. }
  assert (Hno1 : ~ exists f, f ∈ files /\ DataFileInfo.file_type f = p{"excel"}).
  { by intros H%H1. }
  destruct (existsb (fun f => bool_decide (DataFileInfo.file_type f = p{"csv"})) files).
  { pose proof (proj1 H2 eq_refl). repeat split; try done; try (by intros (_ & [] & _)). }
  assert (Hno2 : ~ exists f, f ∈ files /\ DataFileInfo.file_type f = p{"csv"}).
  { by intros H%H2. }
  destruct (ParsedContent.tables parsed_content) as [|tb tbs];
    repeat split; try done; try (by intros [? ?]); try (by intros (? & ? & ?)).
Qed.

(** X20. A task-type label in any letter case that spells the value of a
    task type is parsed to that task type. *)
Theorem parse_task_type_round_trip (t : CodeTaskType) (label : pystr) :
  AnalyzerAgent.ascii_lower label = CodeTaskType_value t ->
  AnalyzerAgent._parse_task_type label = t.
Proof.
  intros H. unfold AnalyzerAgent._parse_task_type. rewrite H.
  by destruct t.
Qed.

Lemma parse_task_type_witness :
  AnalyzerAgent._parse_task_type p{"Model_Training"} = MODEL_TRAINING.
Proof. by apply parse_task_type_round_trip. Defined.

Lemma thesis_type_of_label_value (t : ThesisType) :
  AnalyzerAgent.thesis_type_of_label (ThesisType_value t) = t.
Proof. destruct t; by vm_compute. Qed.

(** X21. When the model answers the classification request with text from
    which a JSON object is decoded whose [type] is the value of a thesis
    type, whatever else the object and the text hold, the analysis
    carries that thesis type, and its other entries are the other entries
    of the object, in their order. *)
Theorem analyze_thesis_type_round_trip
    (lim : PyJson.limits) (text : pystr) (d : list (pystr * json)) (t : ThesisType) :
  JsonLoad.load_json_from_response lim text = Ok (JDict d) ->
  Py.dict_lookup p{"type"} d = Some (JStr (ThesisType_value t)) ->
  AnalyzerAgent._analyze_thesis_type lim (Ok (Some text))
  = {| AnalyzerAgent.type_ := t;
       AnalyzerAgent.entries :=
         List.filter (fun kv => negb (Py.str_eqb kv.1 p{"type"})) d |} /\
  AnalyzerAgent.type_ (AnalyzerAgent._analyze_thesis_type lim (Ok (Some text))) = t.
Proof.
  intros Hload Htype.
  assert (H : AnalyzerAgent._analyze_thesis_type lim (Ok (Some text))
              = {| AnalyzerAgent.type_ := t;
                   AnalyzerAgent.entries :=
                     List.filter (fun kv => negb (Py.str_eqb kv.1 p{"type"})) d |}).
  { unfold AnalyzerAgent._analyze_thesis_type, mbind, result_bind, try_except.
    unfold AnalyzerAgent.load_json. rewrite Hload. unfold CoderAgent.py_get.
    rewrite Htype. cbn [default id AnalyzerAgent.thesis_type_of].
    by rewrite thesis_type_of_label_value. }
  split; first done. by rewrite H.
Qed.

(** The theorem at an answer in a code fence, with prose before it and
    the [type] entry in the middle of the object. *)
Lemma analyze_thesis_type_witness :
  AnalyzerAgent._analyze_thesis_type Scenario.limits
    (Ok (Some q{"Here it is:
```json
{'method': 'regression', 'type': 'machine_learning', 'summary': 's'}
```"}))
  = {| AnalyzerAgent.type_ := MACHINE_LEARNING;
       AnalyzerAgent.entries :=
         [(p{"method"}, JStr p{"regression"}); (p{"summary"}, JStr p{"s"})] |}.
Proof.
  destruct (analyze_thesis_type_round_trip Scenario.limits
              q{"Here it is:
```json
{'method': 'regression', 'type': 'machine_learning', 'summary': 's'}
```"}
              [(p{"method"}, JStr p{"regression"});
               (p{"type"}, JStr p{"machine_learning"});
               (p{"summary"}, JStr p{"s"})]
              MACHINE_LEARNING) as [-> _]; by vm_compute.
Defined.

(** Every member, through the decoder: the answer is the object that
    holds the value of the member and a method. *)
Example analyze_thesis_type_members (t : ThesisType) :
  AnalyzerAgent.type_
    (AnalyzerAgent._analyze_thesis_type Scenario.limits
       (Ok (Some (q{"{'type': '"} ++ ThesisType_value t ++ q{"', 'method': 'm'}"}))))
  = t.
Proof. destruct t; by vm_compute. Qed.

(** An answer nested deeper than the interpreter allows raises
    [RecursionError] in the decoder, and the step falls back to its
    default like for any other failure. *)
Example analyze_thesis_type_deep_answer :
  AnalyzerAgent._analyze_thesis_type
    {| PyJson.recursion_left := 3; PyJson.int_max_str_digits := 4300 |}
    (Ok (Some q{"{'type': 'algorithm', 'x': [[[1]]]}"}))
  = AnalyzerAgent.default_analysis.
Proof. by vm_compute. Qed.

Section task_lists.

Variable new_id : nat -> pystr.
Variable validate_int : json -> result Z.

Lemma make_tasks_bad_descriptor l : forall i x,
  x ∈ l -> (forall fields, x <> JDict fields) ->
  exists e, AnalyzerAgent.make_tasks new_id validate_int i l = Raise e.
Proof.
  induction l as [|y l IH]; intros i x Hin Hx; first by apply elem_of_nil in Hin.
  cbn [AnalyzerAgent.make_tasks]. unfold mbind, result_bind.
  destruct (AnalyzerAgent.make_task new_id validate_int i y) as [task|e] eqn:Hy;
    last by exists e.
  apply elem_of_cons in Hin as [->|Hin].
  - unfold AnalyzerAgent.make_task, mbind, result_bind in Hy.
    destruct y; try done. by destruct (Hx d).
  - destruct (IH (S i) x Hin Hx) as [e ->]. by exists e.
Qed.

End task_lists.

(** X22. The task list is all or nothing: when one element of the decoded
    [tasks] list is not an object, [_generate_code_tasks] returns the
    empty list, whatever the other elements are. *)
Theorem one_bad_descriptor_drops_all_tasks
    (new_id : nat -> pystr) (validate_int : json -> result Z)
    (lim : PyJson.limits)
    (text : pystr) (d : list (pystr * json)) (l : list json) (x : json) :
  JsonLoad.load_json_from_response lim text = Ok (JDict d) ->
  Py.dict_lookup p{"tasks"} d = Some (JList l) ->
  x ∈ l ->
  (forall fields, x <> JDict fields) ->
  AnalyzerAgent._generate_code_tasks new_id validate_int lim (Ok (Some text)) = [].
Proof.
  intros Hload Hd Hin Hx.
  unfold AnalyzerAgent._generate_code_tasks, mbind, result_bind, try_except.
  unfold AnalyzerAgent.load_json. rewrite Hload. unfold CoderAgent.py_get.
  rewrite Hd. cbn [default id AnalyzerAgent.tasks_of].
  by destruct (make_tasks_bad_descriptor new_id validate_int l 0 x Hin Hx) as [e ->].
Qed.

Lemma one_bad_descriptor_witness :
  AnalyzerAgent._generate_code_tasks (fun _ => p{"0a1b2c3d"}) (fun _ => Ok 0)
    Scenario.limits (Ok (Some q{"{'tasks': [{'title': 'Clean the data'}, 3]}"})) = [].
Proof.
  apply (one_bad_descriptor_drops_all_tasks _ _ _ _
           [(p{"tasks"}, JList [JDict [(p{"title"}, JStr p{"Clean the data"})]; JInt 3])]
           [JDict [(p{"title"}, JStr p{"Clean the data"})]; JInt 3] (JInt 3));
    [by vm_compute | by vm_compute | by right; left | done].
Defined.

(** ** The synthesizer *)

Section coder_facts.

Variable lim : PyJson.limits.
Variable chat_for_task : nat -> CodeTask.t -> result (option LLM.Response).
Variable chat_for_main : list GeneratedCode.t -> result (option LLM.Response).

Lemma generate_all_length tasks : forall n,
  (length (CoderAgent.generate_all lim chat_for_task n tasks) <= length tasks)%nat.
Proof.
  induction tasks as [|task tasks IH]; intros n; first done.
  cbn [CoderAgent.generate_all]. specialize (IH (S n)).
  destruct (CoderAgent._generate_code_for_task _ _ _ _); cbn [length]; lia.
Qed.

Lemma generate_all_none tasks : forall n,
  (forall k task, CoderAgent._generate_code_for_task lim chat_for_task k task = None) ->
  CoderAgent.generate_all lim chat_for_task n tasks = [].
Proof.
  intros n H. revert n. induction tasks as [|task tasks IH]; intros n; first done.
  cbn [CoderAgent.generate_all]. by rewrite H.
Qed.

End coder_facts.

(** X23. [CoderAgent.run] returns at most one artifact per task and one
    integration artifact. When no task yields code, in particular when
    there is no task, it returns nothing at all: the integration artifact
    is not asked for. *)
Theorem coder_run_bounds
    (lim : PyJson.limits)
    (chat_for_task : nat -> CodeTask.t -> result (option LLM.Response))
    (chat_for_main : list GeneratedCode.t -> result (option LLM.Response))
    (analysis_result : AnalysisResult.t) :
  let out := CoderAgent.run lim chat_for_task chat_for_main analysis_result in
  (length out <= length (AnalysisResult.code_tasks analysis_result) + 1)%nat /\
  (AnalysisResult.code_tasks analysis_result = [] -> out = []) /\
  ((forall k task, CoderAgent._generate_code_for_task lim chat_for_task k task = None) ->
   out = []).
Proof.
  cbn zeta. unfold CoderAgent.run, CoderAgent.sorted_tasks. split; [|split].
  - pose proof (generate_all_length lim chat_for_task
                  (sorted CoderAgent.priority_lt (AnalysisResult.code_tasks analysis_result))
                  0) as Hlen.
    rewrite (Permutation_length (sorted_perm CoderAgent.priority_lt _)) in Hlen.
    destruct (CoderAgent._generate_main_program _ _ _);
      rewrite ?length_app; cbn [length]; lia.
  - by intros ->.
  - intros Hnone. by rewrite generate_all_none.
Qed.

(** X24. A tool call to [generate_code] whose arguments cannot be decoded
    loses the task: no artifact is made, also when the same message holds
    a fenced code block in its text. *)
Theorem undecodable_tool_arguments_drop_task
    (lim : PyJson.limits)
    (chat_for_task : nat -> CodeTask.t -> result (option LLM.Response))
    (n : nat) (task : CodeTask.t) (response : LLM.Response)
    (message : LLM.Message) (others : list LLM.Message)
    (tool_call : LLM.ToolCall) (more : list LLM.ToolCall) (e : exn) :
  chat_for_task n task = Ok (Some response) ->
  LLM.choices response = message :: others ->
  LLM.tool_calls message = Some (tool_call :: more) ->
  LLM.function_name tool_call = p{"generate_code"} ->
  PyJson.json_loads lim (LLM.function_arguments tool_call) = Raise e ->
  CoderAgent._generate_code_for_task lim chat_for_task n task = None.
Proof.
  intros Hchat Hchoices Htools Hname Hargs.
  unfold CoderAgent._generate_code_for_task, mbind, result_bind, try_except.
  rewrite Hchat. unfold CoderAgent.first_message. rewrite Hchoices.
  unfold CoderAgent.tool_args. rewrite Htools Hname.
  rewrite bool_decide_true //. unfold mbind, result_bind. by rewrite Hargs.
Qed.

Lemma undecodable_tool_arguments_witness :
  CoderAgent._generate_code_for_task Scenario.limits
    (fun _ _ =>
       Ok (Some {| LLM.choices :=
                     [ {| LLM.content := Some p{"```python
pass
```"};
                          LLM.tool_calls :=
                            Some [ {| LLM.function_name := p{"generate_code"};
                                      LLM.function_arguments := p{"{code: "} |} ] |} ] |}))
    0 (Scenario.task "t1" 0) = None.
Proof.
  by eapply (undecodable_tool_arguments_drop_task _ _ 0 (Scenario.task "t1" 0));
    [reflexivity | reflexivity | reflexivity | reflexivity | vm_compute; reflexivity].
Defined.
